(** * The Biome migration script (scripts/migrate-to-biome.js)

    A shallow embedding of the migration orchestrator: the project tree as a
    finite map from file names to contents, the parsed manifest as a
    JavaScript value, and every function of the script as a computation in a
    state-and-exception monad over the file system.  The external package
    manager and the I/O failures of the platform are parameters of the
    development.  A number of a JSON document is read as the double
    nearest to it and written as the shortest decimal that reads as that
    double, and the properties of an object are held in the order in which
    JavaScript enumerates them.  [findRootDir] is modelled on its own, over
    the directories of the machine; the steps work on the project in the
    directory it has settled on.  What the script prints is left out: it
    does not bear on what the script does to the project. *)

From stdpp Require Import gmap strings list sorting.

Set Warnings "-register-all".

Open Scope string_scope.
Open Scope list_scope.
Open Scope Z_scope.

(** ** JSON documents and JavaScript values *)

(** What a JSON text denotes: the members of an object in the order of the
    text, each key once; a number as the integer its literal denotes, of
    any size ([1e400] is one).  Numbers with a fractional part are outside
    the model. *)
Inductive json : Type :=
  | JNull
  | JBool (b : bool)
  | JNum (n : Z)
  | JStr (s : string)
  | JArr (items : list json)
  | JObj (members : list (string * json)).

(** The numbers that reading an integer literal can give: a double whose
    value is an integer, or an infinity. *)
Inductive number : Type :=
  | Finite (x : Z)
  | Infinite (negative : bool).

Coercion Finite : Z >-> number.

(** The double nearest to an integer, ties to the even significand: up to
    [2 ^ 53] the integer itself, beyond it the 53 leading bits rounded, and
    an infinity from [2 ^ 1024] on. *)
Definition to_double (n : Z) : number :=
  let a := Z.abs n in
  if a <? 2 ^ 53 then Finite n
  else
    let k := Z.log2 a - 52 in
    let q := Z.shiftr a k in
    let r := a - Z.shiftl q k in
    let half := 2 ^ (k - 1) in
    let q' := if (half <? r) || ((r =? half) && Z.odd q) then q + 1 else q in
    let x := Z.shiftl q' k in
    if 2 ^ 1024 <=? x then Infinite (n <? 0) else Finite (Z.sgn n * x).

(** [Number.prototype.toString] writes the decimal with the fewest
    significant digits that reads back as the same double, the nearest to
    it if there are several, the one with the even last digit on a tie.
    For a positive integer [x]: the multiple of the largest power of ten
    [u] that reads back as [x]. *)
Definition reads_as (x c : Z) : bool :=
  match to_double c with
  | Finite y => y =? x
  | Infinite _ => false
  end.

Definition nearest_multiple (x u : Z) : option Z :=
  let lo := x / u * u in
  let hi := lo + u in
  match reads_as x lo, reads_as x hi with
  | true, true =>
      Some (if x - lo <? hi - x then lo
            else if hi - x <? x - lo then hi
            else if Z.even (x / u) then lo else hi)
  | true, false => Some lo
  | false, true => Some hi
  | false, false => None
  end.

Fixpoint shortest_from (fuel : nat) (u best x : Z) : Z :=
  match fuel with
  | O => best
  | S fuel' =>
      match nearest_multiple x (10 * u) with
      | Some c => shortest_from fuel' (10 * u) c x
      | None => best
      end
  end.

Definition shortest (x : Z) : Z :=
  Z.sgn x * shortest_from 400 1 (Z.abs x) (Z.abs x).

(** Values on the JavaScript heap.  An array is an object too: besides its
    elements it carries the named properties assigned to it, which
    [JSON.stringify] does not write out. *)
Inductive value : Type :=
  | VNull
  | VBool (b : bool)
  | VNum (n : number)
  | VStr (s : string)
  | VArr (items : list value) (own : list (string * value))
  | VObj (own : list (string * value)).

(** An array index, as the specification of the language calls it: the
    canonical decimal spelling of an integer below [2 ^ 32 - 1]. *)
Definition digit (c : Ascii.ascii) : option N :=
  let n := Ascii.N_of_ascii c in
  if ((48 <=? n) && (n <=? 57))%N then Some (n - 48)%N else None.

Fixpoint digits_value (acc : N) (s : string) : option N :=
  match s with
  | EmptyString => Some acc
  | String c rest =>
      match digit c with
      | Some d => digits_value (10 * acc + d)%N rest
      | None => None
      end
  end.

Definition array_index (k : string) : option N :=
  match k with
  | EmptyString => None
  | String c rest =>
      if String.eqb k "0" then Some 0%N
      else if (Ascii.N_of_ascii c =? 48)%N then None
      else match digits_value 0%N k with
           | Some n => if (n <? 4294967295)%N then Some n else None
           | None => None
           end
  end.

(** Whether a property with key [k] is enumerated no later than one with
    key [k'] that was created after it: array indices come first, in
    ascending order, then the other keys in the order of their creation. *)
Definition goes_before (k k' : string) : bool :=
  match array_index k, array_index k' with
  | Some i, Some j => (i <=? j)%N
  | Some _, None => true
  | None, Some _ => false
  | None, None => true
  end.

(** Own properties, in the order of their enumeration. *)
Section Properties.
Context {A : Type}.

Fixpoint prop_lookup (k : string) (o : list (string * A)) : option A :=
  match o with
  | [] => None
  | (k', x) :: o' => if decide (k' = k) then Some x else prop_lookup k o'
  end.

(** [o[k] = x]: an existing key keeps its place, a new one goes last. *)
Fixpoint prop_set (k : string) (x : A) (o : list (string * A)) : list (string * A) :=
  match o with
  | [] => [(k, x)]
  | (k', y) :: o' =>
      if decide (k' = k) then (k', x) :: o' else (k', y) :: prop_set k x o'
  end.

(** [delete o[k]]. *)
Fixpoint prop_delete (k : string) (o : list (string * A)) : list (string * A) :=
  match o with
  | [] => []
  | (k', y) :: o' =>
      if decide (k' = k) then prop_delete k o' else (k', y) :: prop_delete k o'
  end.
(** The order in which [JSON.stringify], [Object.keys] and [for-in] meet the
    properties of an object that was built by creating them in the order
    [o]. *)
Fixpoint place (m : string * A) (o : list (string * A)) : list (string * A) :=
  match o with
  | [] => [m]
  | m' :: o' =>
      if goes_before (fst m) (fst m') then m :: o else m' :: place m o'
  end.

Fixpoint enumeration_order (o : list (string * A)) : list (string * A) :=
  match o with
  | [] => []
  | m :: o' => place m (enumeration_order o')
  end.
End Properties.

(** [JSON.parse] on a well-formed text.  A number becomes the double
    nearest to it.  The properties of an object are created in the order of
    the text and held in the order of their enumeration; the keys that the
    script assigns afterwards are not array indices, so that [prop_set]
    puts a new one where the enumeration has it, at the end. *)
Fixpoint JSON_parse (j : json) : value :=
  match j with
  | JNull => VNull
  | JBool b => VBool b
  | JNum n => VNum (to_double n)
  | JStr s => VStr s
  | JArr items => VArr (map JSON_parse items) []
  | JObj members =>
      VObj (enumeration_order (map (fun m => (fst m, JSON_parse (snd m))) members))
  end.

(** [JSON.stringify(v, null, 2)], up to the text it writes: the shortest
    decimal for a finite number, [null] for an infinity, the elements of
    an array without its named properties. *)
Fixpoint JSON_stringify (v : value) : json :=
  match v with
  | VNull => JNull
  | VBool b => JBool b
  | VNum (Finite x) => JNum (shortest x)
  | VNum (Infinite _) => JNull
  | VStr s => JStr s
  | VArr items _ => JArr (map JSON_stringify items)
  | VObj own => JObj (map (fun m => (fst m, JSON_stringify (snd m))) own)
  end.

(** What a document has become once it has been parsed and written back,
    and the documents that come back as they were. *)
Definition reread (j : json) : json := JSON_stringify (JSON_parse j).

Definition round_trips (j : json) : Prop := reread j = j.

(** JavaScript truthiness; [None] stands for [undefined]. *)
Definition truthy (v : value) : bool :=
  match v with
  | VNull => false
  | VBool b => b
  | VNum (Finite x) => negb (x =? 0)
  | VNum (Infinite _) => true
  | VStr s => negb (String.eqb s "")
  | VArr _ _ | VObj _ => true
  end.

Definition truthy_opt (v : option value) : bool :=
  match v with
  | None => false
  | Some x => truthy x
  end.

(** Reading a property.  The script reads only the names [eslintConfig],
    [prettier], [scripts], [dependencies], [devDependencies] and the package
    names of [PACKAGES_TO_REMOVE]; none of them is an array index, [length]
    or a member of a built-in prototype, so a primitive has none of them and
    an array has them only as named properties.  Reading from [null] is a
    TypeError, which is the [None] below. *)
Definition get_prop (v : value) (k : string) : option (option value) :=
  match v with
  | VNull => None
  | VObj own => Some (prop_lookup k own)
  | VArr _ own => Some (prop_lookup k own)
  | VBool _ | VNum _ | VStr _ => Some None
  end.

(** [target[k] = x] in sloppy mode (the script has no "use strict"): on a
    primitive the assignment is silently dropped; on [undefined] or [null]
    it is a TypeError. *)
Definition set_prop (target : option value) (k : string) (x : value) : option value :=
  match target with
  | None | Some VNull => None
  | Some (VObj own) => Some (VObj (prop_set k x own))
  | Some (VArr items own) => Some (VArr items (prop_set k x own))
  | Some (VBool b) => Some (VBool b)
  | Some (VNum n) => Some (VNum n)
  | Some (VStr s) => Some (VStr s)
  end.

(** [delete target[k]]. *)
Definition delete_prop (target : value) (k : string) : value :=
  match target with
  | VObj own => VObj (prop_delete k own)
  | VArr items own => VArr items (prop_delete k own)
  | other => other
  end.

(** [String.prototype.includes]. *)
Fixpoint includes (hay needle : string) : bool :=
  if String.prefix needle hay then true
  else match hay with
       | EmptyString => false
       | String _ rest => includes rest needle
       end.

(** [Array.prototype.join]. *)
Fixpoint join (sep : string) (l : list string) : string :=
  match l with
  | [] => ""
  | [x] => x
  | x :: rest => x +:+ sep +:+ join sep rest
  end.

(** ** The project tree *)

(** A file either holds a text that [JSON.parse] accepts, kept as the
    document it denotes, or any other text. *)
Inductive content : Type :=
  | Json (doc : json)
  | Raw (text : string).

(** The files directly under the project root, by name, and the backup
    directory [.biome-migration-backup] ([None] while it does not exist). *)
Record filesys : Type := FileSys {
  root : gmap string content;
  backup : option (gmap string content);
}.

(** What the script does to the outside world, oldest first. *)
Inductive event : Type :=
  | EMkdir
  | ECopy (file : string)
  | EWrite (file : string)
  | EUnlink (file : string)
  | EExec (command : string) (succeeded : bool).

Record state : Type := State {
  fs : filesys;
  trace : list event;
}.

Inductive io_op : Type := OpMkdir | OpCopy | OpRead | OpWrite | OpUnlink.

Inductive error : Type :=
  | ENOENT (path : string)
  | EIO (op : io_op) (path : string)
  | SyntaxError
  | TypeError
  | CommandFailed (command : string).

(** ** Computations: state, exceptions and [process.exit] *)

Inductive outcome (A : Type) : Type :=
  | Ok (a : A)
  | Throw (e : error)
  | Exit (code : Z).
Arguments Ok {A} a.
Arguments Throw {A} e.
Arguments Exit {A} code.

Definition M (A : Type) : Type := state -> outcome A * state.

Definition ret {A} (a : A) : M A := fun s => (Ok a, s).

Definition bind {A B} (m : M A) (k : A -> M B) : M B :=
  fun s =>
    match m s with
    | (Ok a, s') => k a s'
    | (Throw e, s') => (Throw e, s')
    | (Exit c, s') => (Exit c, s')
    end.

Definition throw {A} (e : error) : M A := fun s => (Throw e, s).

Definition process_exit {A} (code : Z) : M A := fun s => (Exit code, s).

(** [try { m } catch (err) { handler err }]. *)
Definition try_catch {A} (m : M A) (handler : error -> M A) : M A :=
  fun s =>
    match m s with
    | (Throw e, s') => handler e s'
    | other => other
    end.

Notation "'let*' x := m 'in' k" := (bind m (fun x => k))
  (at level 10, x pattern, m at level 100, k at level 200).
Notation "m ;; k" := (bind m (fun _ => k))
  (at level 100, k at level 200, right associativity).

(** [xs.forEach(x => { ... out.push(..) ... })]: the body returns what it
    pushes. *)
Fixpoint forEach_push {A B} (body : A -> M (list B)) (xs : list A) : M (list B) :=
  match xs with
  | [] => ret []
  | x :: rest =>
      let* pushed := body x in
      let* more := forEach_push body rest in
      ret (pushed ++ more)
  end.

(** [xs.forEach(x => { acc = step(acc, x) })] on a mutable object. *)
Fixpoint forEach_fold {A B} (body : B -> A -> M B) (acc : B) (xs : list A) : M B :=
  match xs with
  | [] => ret acc
  | x :: rest => let* acc' := body acc x in forEach_fold body acc' rest
  end.

Definition lift_js {A} (r : option A) : M A :=
  match r with
  | Some a => ret a
  | None => throw TypeError
  end.

(** ** Constants of the script *)

Definition CONFIG_FILES_eslint : list string :=
  [ ".eslintrc"; ".eslintrc.js"; ".eslintrc.cjs"; ".eslintrc.json";
    ".eslintrc.yml"; ".eslintrc.yaml" ].

Definition CONFIG_FILES_prettier : list string :=
  [ ".prettierrc"; ".prettierrc.js"; ".prettierrc.cjs"; ".prettierrc.json";
    ".prettierrc.yml"; ".prettierrc.yaml"; "prettier.config.js";
    "prettier.config.cjs" ].

Definition PACKAGES_TO_REMOVE : list string :=
  [ "eslint"; "@typescript-eslint/parser"; "@typescript-eslint/eslint-plugin";
    "eslint-config-prettier"; "eslint-plugin-prettier"; "prettier" ].

Definition eslintConfig_field : string := "package.json (eslintConfig field)".
Definition prettier_field : string := "package.json (prettier field)".

Definition scriptUpdates : list (string * value) :=
  [ ("lint", VStr "biome lint .");
    ("format", VStr "biome format --write .");
    ("format:check", VStr "biome format .");
    ("check", VStr "biome check .");
    ("check:fix", VStr "biome check --write .") ].

Inductive package_manager : Type := npm | yarn | pnpm | bun.

Definition install_command (pm : package_manager) : string :=
  match pm with
  | npm => "npm install --save-dev --save-exact @biomejs/biome"
  | yarn => "yarn add --dev --exact @biomejs/biome"
  | pnpm => "pnpm add --save-dev --save-exact @biomejs/biome"
  | bun => "bun add --dev --exact @biomejs/biome"
  end.

Definition uninstall_command (pm : package_manager) (toRemove : list string) : string :=
  match pm with
  | npm => "npm uninstall " +:+ join " " toRemove
  | yarn => "yarn remove " +:+ join " " toRemove
  | pnpm => "pnpm remove " +:+ join " " toRemove
  | bun => "bun remove " +:+ join " " toRemove
  end.

Definition generateBiomeConfig : value :=
  VObj
    [ ("$schema", VStr "https://biomejs.dev/schemas/1.9.4/schema.json");
      ("vcs", VObj [ ("enabled", VBool true);
                     ("clientKind", VStr "git");
                     ("useIgnoreFile", VBool true) ]);
      ("files", VObj [ ("ignoreUnknown", VBool false);
                       ("ignore", VArr [ VStr "node_modules"; VStr "dist";
                                         VStr "build"; VStr ".next";
                                         VStr ".nuxt"; VStr "coverage";
                                         VStr "*.min.js" ] []) ]);
      ("formatter", VObj [ ("enabled", VBool true);
                           ("formatWithErrors", VBool false);
                           ("indentStyle", VStr "space");
                           ("indentWidth", VNum 2);
                           ("lineEnding", VStr "lf");
                           ("lineWidth", VNum 100);
                           ("attributePosition", VStr "auto") ]);
      ("organizeImports", VObj [ ("enabled", VBool true) ]);
      ("linter",
        VObj [ ("enabled", VBool true);
               ("rules",
                 VObj [ ("recommended", VBool true);
                        ("correctness", VObj [ ("noUnusedVariables", VStr "error");
                                               ("noUnusedImports", VStr "error") ]);
                        ("style", VObj [ ("useConst", VStr "error");
                                         ("useTemplate", VStr "error") ]);
                        ("suspicious", VObj [ ("noExplicitAny", VStr "warn");
                                              ("noConsoleLog", VStr "warn") ]) ]) ]);
      ("javascript",
        VObj [ ("formatter",
                 VObj [ ("quoteStyle", VStr "single");
                        ("jsxQuoteStyle", VStr "double");
                        ("quoteProperties", VStr "asNeeded");
                        ("trailingCommas", VStr "all");
                        ("semicolons", VStr "always");
                        ("arrowParentheses", VStr "always");
                        ("bracketSpacing", VBool true);
                        ("bracketSameLine", VBool false) ]) ]);
      ("json",
        VObj [ ("formatter", VObj [ ("enabled", VBool true);
                                    ("indentStyle", VStr "space");
                                    ("indentWidth", VNum 2);
                                    ("lineWidth", VNum 100) ]);
               ("linter", VObj [ ("enabled", VBool true) ]) ]) ].

(** The set of legacy configuration found, as [findExistingConfigs] builds
    it: file names relative to the root, and the two sentinels for fields
    embedded in the manifest. *)
Record configs : Type := Configs {
  eslint : list string;
  prettier : list string;
}.

Record backup_record : Type := BackupRecord {
  backupDir : string;
  backedUp : list string;
}.

(** [configs.eslint.length > 0 || configs.prettier.length > 0]. *)
Definition any_config (c : configs) : bool :=
  bool_decide (0 < length (eslint c))%nat || bool_decide (0 < length (prettier c))%nat.

(** ** The project root *)

(** An absolute path as [process.cwd()] gives it, by its segments, the
    innermost first: [/home/me/app] is [["app"; "me"; "home"]] and [/] is
    the empty list. *)
Abbreviation path := (list string) (only parsing).

(** [path.dirname]: one directory up, [/] being its own parent. *)
Definition dirname (dir : path) : path := tail dir.

(** The directories of the machine, each with the files directly in it. *)
Abbreviation disk := (gmap path (gmap string content)) (only parsing).

(** [fs.existsSync(path.join(dir, 'package.json'))]. *)
Definition holds_manifest (d : disk) (dir : path) : bool :=
  bool_decide (is_Some (d !! dir ≫= (.!! "package.json"))).

(** The loop of [findRootDir]: as long as [dir] is not [/], return it if
    it holds a manifest and go on from [dirname dir], which is [parent]
    below, if it does not. *)
Fixpoint search_upwards (d : disk) (dir : path) : option path :=
  match dir with
  | [] => None
  | _ :: parent =>
      if holds_manifest d dir then Some dir else search_upwards d parent
  end.

(** [findRootDir], with the disk and [process.cwd()] for arguments: the
    directory the loop returns, the working directory when it runs out. *)
Definition findRootDir (d : disk) (cwd : path) : path :=
  match search_upwards d cwd with
  | Some dir => dir
  | None => cwd
  end.

(** ** Sample projects and environments *)

Definition no_fault : io_op -> string -> bool := fun _ _ => false.

(** A platform on which one operation fails on one file. *)
Definition fault_on (op : io_op) (file : string) : io_op -> string -> bool :=
  fun op' file' =>
    match op, op' with
    | OpMkdir, OpMkdir | OpCopy, OpCopy | OpRead, OpRead
    | OpWrite, OpWrite | OpUnlink, OpUnlink => String.eqb file file'
    | _, _ => false
    end.

(** A package manager whose commands succeed and change nothing, and one
    whose commands all fail. *)
Definition idle_manager : string -> filesys -> option filesys := fun _ w => Some w.
Definition failing_manager : string -> filesys -> option filesys := fun _ _ => None.

Definition project (files : list (string * content)) : state :=
  State (FileSys (list_to_map files) None) [].

Definition plain_manifest : json :=
  JObj [ ("name", JStr "app");
         ("scripts", JObj [ ("lint", JStr "old-lint"); ("test", JStr "jest") ]);
         ("devDependencies", JObj [ ("eslint", JStr "^8.56.0");
                                    ("prettier", JStr "^3.0.0");
                                    ("jest", JStr "^29.0.0") ]) ].

(** Two legacy files, one for each tool, and a lockfile of yarn. *)
Definition two_files_project : state :=
  project [ ("package.json", Json plain_manifest);
            (".eslintrc.json", Raw "{ }");
            ("prettier.config.js", Raw "module.exports = {};");
            ("yarn.lock", Raw "") ].

(** One legacy file for each tool and nothing else. *)
Definition bare_project : state :=
  project [ (".eslintrc", Raw "{ }"); (".prettierrc", Raw "{ }") ].

(** A manifest that is not JSON. *)
Definition broken_manifest_project : state :=
  project [ ("package.json", Raw "{ name: ") ].

(** Configuration held in the manifest only. *)
Definition embedded_manifest : json :=
  JObj [ ("name", JStr "app");
         ("eslintConfig", JObj [ ("root", JBool true) ]) ].

Definition embedded_project : state :=
  project [ ("package.json", Json embedded_manifest) ].

(** A package declared with the empty version. *)
Definition empty_version_manifest : json :=
  JObj [ ("name", JStr "app");
         ("devDependencies", JObj [ ("eslint", JStr "") ]) ].

Definition empty_version_project : state :=
  project [ ("package.json", Json empty_version_manifest) ].

(** A manifest whose [scripts] member is a string. *)
Definition string_scripts_manifest : json :=
  JObj [ ("name", JStr "app"); ("scripts", JStr "x") ].

Definition string_scripts_project : state :=
  project [ ("package.json", Json string_scripts_manifest) ].

(** A manifest with no [scripts] member. *)
Definition no_scripts_project : state :=
  project [ ("package.json", Json (JObj [ ("name", JStr "app") ])) ].

(** A detected file that has gone by the time the steps run. *)
Definition stale_configs : configs := Configs [".eslintrc"] [".prettierrc"].

Definition one_file_project : state :=
  project [ (".prettierrc", Raw "{ }") ].

(** The state of the two-file project when step 6 begins, the package
    manager doing nothing. *)
Definition before_update : state :=
  State (FileSys (<["biome.json" := Json (JSON_stringify generateBiomeConfig)]>
                    (root (fs two_files_project)))
                 (Some (list_to_map [ (".eslintrc.json", Raw "{ }");
                                      ("prettier.config.js", Raw "module.exports = {};") ])))
        [EMkdir; ECopy ".eslintrc.json"; ECopy "prettier.config.js";
         EExec (install_command yarn) true; EWrite "biome.json"].

(** A manifest with configuration for ESLint embedded in it, a [prettier]
    member that is [null], and scripts of its own. *)
Definition mixed_scripts : list (string * json) :=
  [ ("test", JStr "jest"); ("lint", JStr "eslint .") ].

Definition mixed_members : list (string * json) :=
  [ ("name", JStr "app");
    ("eslintConfig", JObj [ ("root", JBool true) ]);
    ("scripts", JObj mixed_scripts);
    ("prettier", JNull);
    ("devDependencies", JObj [ ("eslint", JStr "^8.56.0") ]) ].

Definition mixed_manifest : json := JObj mixed_members.

Definition mixed_project : state :=
  project [ ("package.json", Json mixed_manifest);
            (".eslintrc.json", Raw "{ }");
            (".prettierrc", Raw "{ }") ].

Definition mixed_configs : configs :=
  Configs [".eslintrc.json"; eslintConfig_field] [".prettierrc"].

(** The same project with a backup directory left by an earlier run. *)
Definition rerun_project : state :=
  State (FileSys (root (fs mixed_project))
                 (Some (list_to_map [ (".eslintrc.json", Raw "{ old }");
                                      ("notes.txt", Raw "keep") ])))
        [].

(** A manifest whose [scripts] member is a number too large for a
    double. *)
Definition overflowing_scripts_manifest : json :=
  JObj [ ("name", JStr "app"); ("scripts", JNum (10 ^ 400)) ].

Definition overflowing_scripts_project : state :=
  project [ ("package.json", Json overflowing_scripts_manifest) ].

(** A manifest with keys that are array indices, out of their order, and
    a number beyond the precision of a double. *)
Definition indexed_scripts : list (string * json) :=
  [ ("test", JStr "jest"); ("10", JStr "ten"); ("lint", JStr "eslint .") ].

Definition indexed_members : list (string * json) :=
  [ ("name", JStr "app");
    ("2", JStr "two");
    ("eslintConfig", JObj [ ("root", JBool true) ]);
    ("1", JStr "one");
    ("build", JNum 9007199254740993);
    ("scripts", JObj indexed_scripts) ].

Definition indexed_project : state :=
  project [ ("package.json", Json (JObj indexed_members)) ].

(** A package manager that installs and cannot uninstall. *)
Definition install_only_manager : string -> filesys -> option filesys :=
  fun command w =>
    if includes command "remove" || includes command "uninstall" then None
    else Some w.

(** ** The script *)

Section Script.
(** The package manager: what running a command line in the project root
    does to the tree, [None] when the command exits non-zero or cannot be
    spawned.  A command that fails is taken to leave the tree as it found
    it. *)
Variable spawn : string -> filesys -> option filesys.

(** The platform: which file operations fail (permissions, a directory in
    the place of a file, a full disk). *)
Variable fault : io_op -> string -> bool.

(** *** [fs] and [child_process] *)

Definition existsSync (file : string) : M bool :=
  fun s => (Ok (bool_decide (is_Some (root (fs s) !! file))), s).

Definition existsSync_backupDir : M bool :=
  fun s => (Ok (bool_decide (is_Some (backup (fs s)))), s).

(** [fs.mkdirSync(backupDir, { recursive: true })]. *)
Definition mkdirSync_backupDir : M unit :=
  fun s =>
    if fault OpMkdir ".biome-migration-backup"
    then (Throw (EIO OpMkdir ".biome-migration-backup"), s)
    else (Ok tt,
          State (FileSys (root (fs s)) (Some (default ∅ (backup (fs s)))))
                (trace s ++ [EMkdir])).

(** [fs.copyFileSync(path.join(rootDir, file), path.join(backupDir, file))]. *)
Definition copyFileSync (file : string) : M unit :=
  fun s =>
    match root (fs s) !! file, backup (fs s) with
    | Some c, Some dir =>
        if fault OpCopy file then (Throw (EIO OpCopy file), s)
        else (Ok tt,
              State (FileSys (root (fs s)) (Some (<[file := c]> dir)))
                    (trace s ++ [ECopy file]))
    | _, _ => (Throw (ENOENT file), s)
    end.

Definition readFileSync (file : string) : M content :=
  fun s =>
    match root (fs s) !! file with
    | Some c =>
        if fault OpRead file then (Throw (EIO OpRead file), s) else (Ok c, s)
    | None => (Throw (ENOENT file), s)
    end.

Definition writeFileSync (file : string) (c : content) : M unit :=
  fun s =>
    if fault OpWrite file then (Throw (EIO OpWrite file), s)
    else (Ok tt,
          State (FileSys (<[file := c]> (root (fs s))) (backup (fs s)))
                (trace s ++ [EWrite file])).

Definition unlinkSync (file : string) : M unit :=
  fun s =>
    match root (fs s) !! file with
    | Some _ =>
        if fault OpUnlink file then (Throw (EIO OpUnlink file), s)
        else (Ok tt,
              State (FileSys (delete file (root (fs s))) (backup (fs s)))
                    (trace s ++ [EUnlink file]))
    | None => (Throw (ENOENT file), s)
    end.

(** [execSync(command, { cwd: rootDir, stdio: 'inherit' })]. *)
Definition execSync (command : string) : M unit :=
  fun s =>
    match spawn command (fs s) with
    | Some fs' => (Ok tt, State fs' (trace s ++ [EExec command true]))
    | None => (Throw (CommandFailed command),
               State (fs s) (trace s ++ [EExec command false]))
    end.

(** [JSON.parse(fs.readFileSync(pkgPath, 'utf8'))]. *)
Definition read_manifest : M value :=
  let* text := readFileSync "package.json" in
  match text with
  | Json doc => ret (JSON_parse doc)
  | Raw _ => throw SyntaxError
  end.

(** *** The steps *)

Definition push_if_exists (file : string) : M (list string) :=
  let* found := existsSync file in
  if found then ret [file] else ret [].

Definition findExistingConfigs : M configs :=
  let* found_eslint := forEach_push push_if_exists CONFIG_FILES_eslint in
  let* found_prettier := forEach_push push_if_exists CONFIG_FILES_prettier in
  let* has_manifest := existsSync "package.json" in
  if has_manifest then
    let* pkg := read_manifest in
    let* eslintConfig := lift_js (get_prop pkg "eslintConfig") in
    let* prettier_ := lift_js (get_prop pkg "prettier") in
    ret (Configs
           (found_eslint ++
            (if truthy_opt eslintConfig then [eslintConfig_field] else []))
           (found_prettier ++
            (if truthy_opt prettier_ then [prettier_field] else [])))
  else ret (Configs found_eslint found_prettier).

Definition backup_one (file : string) : M (list string) :=
  if includes file "package.json" then ret []
  else
    let* found := existsSync file in
    if found then copyFileSync file;; ret [file] else ret [].

Definition backupConfigs (c : configs) : M backup_record :=
  let* dir_exists := existsSync_backupDir in
  (if negb dir_exists then mkdirSync_backupDir else ret tt);;
  let* copied := forEach_push backup_one (eslint c ++ prettier c) in
  ret (BackupRecord ".biome-migration-backup" copied).

(** [pkg.scripts[key] = value], [pkg.scripts] being reached through [pkg]
    each time. *)
Definition assign_script (pkg : value) (entry : string * value) : M value :=
  let* scripts := lift_js (get_prop pkg "scripts") in
  let* scripts' := lift_js (set_prop scripts (fst entry) (snd entry)) in
  lift_js (set_prop (Some pkg) "scripts" scripts').

(** Returns [removedFields]; the copy [oldScripts] that the script also
    returns is never read by its caller and is left out. *)
Definition updatePackageJson : M (list string) :=
  let* pkg := read_manifest in
  let* eslintConfig := lift_js (get_prop pkg "eslintConfig") in
  let pkg1 := if truthy_opt eslintConfig then delete_prop pkg "eslintConfig" else pkg in
  let* prettier_ := lift_js (get_prop pkg1 "prettier") in
  let pkg2 := if truthy_opt prettier_ then delete_prop pkg1 "prettier" else pkg1 in
  let removedFields :=
    (if truthy_opt eslintConfig then ["eslintConfig"] else []) ++
    (if truthy_opt prettier_ then ["prettier"] else []) in
  let* scripts := lift_js (get_prop pkg2 "scripts") in
  let* pkg3 :=
    lift_js (set_prop (Some pkg2) "scripts"
               (if truthy_opt scripts then default (VObj []) scripts else VObj [])) in
  let* pkg4 := forEach_fold assign_script pkg3 scriptUpdates in
  writeFileSync "package.json" (Json (JSON_stringify pkg4));;
  ret removedFields.

Definition detectPackageManager : M package_manager :=
  let* has_pnpm := existsSync "pnpm-lock.yaml" in
  if has_pnpm then ret pnpm else
  let* has_yarn := existsSync "yarn.lock" in
  if has_yarn then ret yarn else
  let* has_bun := existsSync "bun.lockb" in
  if has_bun then ret bun else ret npm.

Definition installBiome (packageManager : package_manager) : M unit :=
  execSync (install_command packageManager).

(** [pkg[field] && pkg[field][name]]. *)
Definition dependency_entry (pkg : value) (field name : string) : option (option value) :=
  match get_prop pkg field with
  | None => None
  | Some None => Some None
  | Some (Some deps) => if truthy deps then get_prop deps name else Some (Some deps)
  end.

(** The predicate of the filter in [removeOldPackages]. *)
Definition wanted (pkg : value) (name : string) : option bool :=
  match dependency_entry pkg "devDependencies" name with
  | None => None
  | Some dev =>
      if truthy_opt dev then Some true
      else match dependency_entry pkg "dependencies" name with
           | None => None
           | Some dep => Some (truthy_opt dep)
           end
  end.

Definition push_if_wanted (pkg : value) (name : string) : M (list string) :=
  let* keep := lift_js (wanted pkg name) in
  if keep then ret [name] else ret [].

Definition removeOldPackages (packageManager : package_manager) : M (list string) :=
  let* pkg := read_manifest in
  let* toRemove := forEach_push (push_if_wanted pkg) PACKAGES_TO_REMOVE in
  if bool_decide (length toRemove = 0%nat) then ret []
  else execSync (uninstall_command packageManager toRemove);; ret toRemove.

Definition remove_one (file : string) : M (list string) :=
  if includes file "package.json" then ret []
  else
    let* found := existsSync file in
    if found then unlinkSync file;; ret [file] else ret [].

Definition removeConfigFiles (c : configs) : M (list string) :=
  forEach_push remove_one (eslint c ++ prettier c).

(** *** [main] *)

(** Step 2. *)
Definition backup_step (c : configs) : M unit :=
  if any_config c then let* _ := backupConfigs c in ret tt else ret tt.

(** Step 4. *)
Definition install_step (packageManager : package_manager) : M unit :=
  try_catch (installBiome packageManager) (fun _ => process_exit 1).

(** Step 5. *)
Definition generate_step : M unit :=
  writeFileSync "biome.json" (Json (JSON_stringify generateBiomeConfig)).

(** Step 6. *)
Definition update_step : M unit :=
  let* _ := updatePackageJson in ret tt.

(** Step 7. *)
Definition packages_step (packageManager : package_manager) : M unit :=
  try_catch (let* _ := removeOldPackages packageManager in ret tt)
            (fun _ => ret tt).

(** Step 8. *)
Definition files_step (c : configs) : M unit :=
  if any_config c then let* _ := removeConfigFiles c in ret tt else ret tt.

Definition main : M unit :=
  let* configs := findExistingConfigs in
  backup_step configs;;
  let* packageManager := detectPackageManager in
  install_step packageManager;;
  generate_step;;
  update_step;;
  packages_step packageManager;;
  files_step configs.

(** [main().catch(err => { ...; process.exit(1) })]: the exit status of the
    process and the state it leaves. *)
Definition run (s : state) : Z * state :=
  match main s with
  | (Ok _, s') => (0, s')
  | (Throw _, s') => (1, s')
  | (Exit code, s') => (code, s')
  end.

(** ** Notions used in the statements *)

(** The entries that are files rather than fields of the manifest. *)
Definition standalone (file : string) : bool := negb (includes file "package.json").

Definition present (files : gmap string content) (file : string) : bool :=
  bool_decide (is_Some (files !! file)).

Definition entries (c : configs) : list string := eslint c ++ prettier c.

(** The entries the backup loop copies: the files that exist. *)
Definition copyable (files : gmap string content) (l : list string) : list string :=
  List.filter (fun f => standalone f && present files f) l.

(** The backup directory after the files [l] have been copied into it. *)
Definition copy_into (files dir : gmap string content) (l : list string) :
  gmap string content :=
  foldl (fun d f => match files !! f with Some c => <[f := c]> d | None => d end) dir l.

Definition backup_event (e : event) : Prop :=
  e = EMkdir \/ exists f, e = ECopy f.

(** How far a run gets: the six places where [main] can stop, with the
    states in between. *)
Inductive trail (s : state) : outcome unit -> state -> Prop :=
  | stop_at_detection e :
      findExistingConfigs s = (Throw e, s) ->
      trail s (Throw e) s
  | stop_at_backup c e s2 :
      findExistingConfigs s = (Ok c, s) ->
      backup_step c s = (Throw e, s2) ->
      trail s (Throw e) s2
  | stop_at_install c s2 pm :
      findExistingConfigs s = (Ok c, s) ->
      backup_step c s = (Ok tt, s2) ->
      detectPackageManager s2 = (Ok pm, s2) ->
      spawn (install_command pm) (fs s2) = None ->
      trail s (Exit 1) (State (fs s2) (trace s2 ++ [EExec (install_command pm) false]))
  | stop_at_generate c s2 pm fs3 e :
      findExistingConfigs s = (Ok c, s) ->
      backup_step c s = (Ok tt, s2) ->
      detectPackageManager s2 = (Ok pm, s2) ->
      spawn (install_command pm) (fs s2) = Some fs3 ->
      fault OpWrite "biome.json" = true ->
      e = EIO OpWrite "biome.json" ->
      trail s (Throw e) (State fs3 (trace s2 ++ [EExec (install_command pm) true]))
  | stop_at_update c s2 pm fs3 s4 e :
      findExistingConfigs s = (Ok c, s) ->
      backup_step c s = (Ok tt, s2) ->
      detectPackageManager s2 = (Ok pm, s2) ->
      spawn (install_command pm) (fs s2) = Some fs3 ->
      generate_step (State fs3 (trace s2 ++ [EExec (install_command pm) true]))
        = (Ok tt, s4) ->
      updatePackageJson s4 = (Throw e, s4) ->
      trail s (Throw e) s4
  | reach_removal c s2 pm fs3 s4 removedFields s5 s6 r s' :
      findExistingConfigs s = (Ok c, s) ->
      backup_step c s = (Ok tt, s2) ->
      detectPackageManager s2 = (Ok pm, s2) ->
      spawn (install_command pm) (fs s2) = Some fs3 ->
      generate_step (State fs3 (trace s2 ++ [EExec (install_command pm) true]))
        = (Ok tt, s4) ->
      updatePackageJson s4 = (Ok removedFields, s5) ->
      packages_step pm s5 = (Ok tt, s6) ->
      files_step c s6 = (r, s') ->
      trail s r s'.

Definition without (f : string) (c : configs) : configs :=
  Configs (filter (fun g => g <> f) (eslint c)) (filter (fun g => g <> f) (prettier c)).

(** As the specification words it: a name is declared when it is a key of
    the [devDependencies] or of the [dependencies] of the manifest. *)
Definition lists_package (pkg : value) (field name : string) : bool :=
  match get_prop pkg field with
  | Some (Some (VObj deps)) => bool_decide (is_Some (prop_lookup name deps))
  | _ => false
  end.

Definition declared (pkg : value) (name : string) : bool :=
  lists_package pkg "devDependencies" name || lists_package pkg "dependencies" name.

(** No declared package has a falsy value ([""], [null], [0], [false]) in
    the place of its version. *)
Definition versions_truthy (pkg : value) : Prop :=
  forall field deps name v,
    field = "devDependencies" \/ field = "dependencies" ->
    get_prop pkg field = Some (Some (VObj deps)) ->
    prop_lookup name deps = Some v -> truthy v = true.

(** What the filter of [removeOldPackages] keeps. *)
Definition is_wanted (pkg : value) (name : string) : bool :=
  match wanted pkg name with
  | Some true => true
  | _ => false
  end.

(** The entry [pkg[field][name]] when it is there and truthy. *)
Definition truthy_entry (pkg : value) (field name : string) : Prop :=
  exists deps v,
    get_prop pkg field = Some (Some deps) /\ truthy deps = true /\
    get_prop deps name = Some (Some v) /\ truthy v = true.

(** The part of [updatePackageJson] between the read and the write, which
    works on the parsed manifest alone; [None] is a TypeError. *)
Definition assign_script_value (pkg : value) (entry : string * value) : option value :=
  scripts ← get_prop pkg "scripts";
  scripts' ← set_prop scripts (fst entry) (snd entry);
  set_prop (Some pkg) "scripts" scripts'.

Definition rewrite_manifest (pkg : value) : option (value * list string) :=
  eslintConfig ← get_prop pkg "eslintConfig";
  let pkg1 := if truthy_opt eslintConfig then delete_prop pkg "eslintConfig" else pkg in
  prettier_ ← get_prop pkg1 "prettier";
  let pkg2 := if truthy_opt prettier_ then delete_prop pkg1 "prettier" else pkg1 in
  scripts ← get_prop pkg2 "scripts";
  pkg3 ← set_prop (Some pkg2) "scripts"
           (if truthy_opt scripts then default (VObj []) scripts else VObj []);
  pkg4 ← foldl (fun acc entry => acc ≫= fun pkg => assign_script_value pkg entry)
               (Some pkg3) scriptUpdates;
  Some (pkg4,
        (if truthy_opt eslintConfig then ["eslintConfig"] else []) ++
        (if truthy_opt prettier_ then ["prettier"] else [])).

(** Objects and arrays are the values that can carry properties. *)
Definition same_shell (a b : value) : Prop :=
  match a, b with
  | VObj _, VObj _ => True
  | VArr items _, VArr items' _ => items = items'
  | _, _ => False
  end.

(** [scripts[key] = cmd] on whatever [pkg.scripts] is. *)
Definition assigned (scripts : value) (entry : string * value) : value :=
  default scripts (set_prop (Some scripts) (fst entry) (snd entry)).

(** [pkg.scripts || {}]. *)
Definition scripts_or_empty (scripts : option value) : value :=
  if truthy_opt scripts then default (VObj []) scripts else VObj [].

(** The script entries after the five assignments. *)
Definition with_scripts (scripts : list (string * value)) : list (string * value) :=
  foldl (fun acc entry => prop_set (fst entry) (snd entry) acc) scripts scriptUpdates.

(** What a package manager is taken to leave alone in [package.json]:
    every member but [dependencies] and [devDependencies]; a manifest that
    is not an object it cannot edit. *)
Definition manifest_kept (before after : option content) : Prop :=
  match before with
  | Some (Json (JObj members)) =>
      exists members',
        after = Some (Json (JObj members')) /\
        forall k, k <> "dependencies" -> k <> "devDependencies" ->
          prop_lookup k members' = prop_lookup k members
  | _ => after = before
  end.

(** A package manager that keeps to its own business: it neither makes
    nor removes legacy configuration files, leaves [biome.json] alone, and
    edits the manifest as above. *)
Definition keeps_project : Prop :=
  forall command w w',
    spawn command w = Some w' ->
    (forall f, f ∈ CONFIG_FILES_eslint ++ CONFIG_FILES_prettier ->
       root w' !! f = root w !! f) /\
    root w' !! "biome.json" = root w !! "biome.json" /\
    manifest_kept (root w !! "package.json") (root w' !! "package.json").

(** The entry [scripts[key]] of the manifest on disk. *)
Definition script_entry (manifest : option content) (key : string) : option json :=
  match manifest with
  | Some (Json (JObj members)) =>
      match prop_lookup "scripts" members with
      | Some (JObj scripts) => prop_lookup key scripts
      | _ => None
      end
  | _ => None
  end.

(** The [scripts] member with the five entries set. *)
Definition settled_scripts (scripts : json) : Prop :=
  match scripts with
  | JObj entries =>
      forall key cmd, (key, VStr cmd) ∈ scriptUpdates ->
        prop_lookup key entries = Some (JStr cmd)
  | _ => False
  end.

(** The manifest once it has been migrated: an object with no truthy
    [eslintConfig] or [prettier] member, whose [scripts] member is an
    object that holds the five entries. *)
Definition settled_manifest (manifest : option content) : Prop :=
  match manifest with
  | Some (Json (JObj members)) =>
      truthy_opt (JSON_parse <$> prop_lookup "eslintConfig" members) = false /\
      truthy_opt (JSON_parse <$> prop_lookup "prettier" members) = false /\
      exists scripts, prop_lookup "scripts" members = Some scripts /\
                      settled_scripts scripts
  | _ => False
  end.

(** The project once it has been migrated: no legacy file, the generated
    [biome.json], a settled manifest. *)
Definition migrated (w : filesys) : Prop :=
  (forall f, f ∈ CONFIG_FILES_eslint ++ CONFIG_FILES_prettier -> root w !! f = None) /\
  root w !! "biome.json" = Some (Json (JSON_stringify generateBiomeConfig)) /\
  settled_manifest (root w !! "package.json").

(** The manifests on which the update sets the five entries: objects whose
    [scripts] member is absent, falsy or an object. *)
Definition takes_scripts (manifest : option content) : Prop :=
  match manifest with
  | Some (Json (JObj members)) =>
      match prop_lookup "scripts" members with
      | None | Some (JObj _) => True
      | Some other => truthy (JSON_parse other) = false
      end
  | _ => False
  end.

(** A number that is not too large for a double: reading it gives no
    infinity. *)
Definition fits_a_double (n : Z) : Prop :=
  match to_double n with
  | Finite _ => True
  | Infinite _ => False
  end.

(** The manifests whose [scripts] member is not a number too large for a
    double. *)
Definition scripts_fit (manifest : option content) : Prop :=
  match manifest with
  | Some (Json (JObj members)) =>
      match prop_lookup "scripts" members with
      | Some (JNum n) => fits_a_double n
      | _ => True
      end
  | _ => True
  end.

(** A [scripts] member that a further update leaves as it is, as far as
    the five entries go: an object that holds them, or a truthy value of
    another kind, on which the assignments are lost. *)
Definition steady_scripts (scripts : json) : Prop :=
  match scripts with
  | JObj entries =>
      forall key cmd, (key, VStr cmd) ∈ scriptUpdates ->
        prop_lookup key entries = Some (JStr cmd)
  | other => truthy (JSON_parse other) = true
  end.

(** A manifest that a further run finds nothing to detect in and leaves
    with the script entries it has. *)
Definition steady_manifest (manifest : option content) : Prop :=
  match manifest with
  | Some (Json (JObj members)) =>
      truthy_opt (JSON_parse <$> prop_lookup "eslintConfig" members) = false /\
      truthy_opt (JSON_parse <$> prop_lookup "prettier" members) = false /\
      exists scripts, prop_lookup "scripts" members = Some scripts /\
                      steady_scripts scripts
  | Some (Json (JArr _)) => True
  | _ => False
  end.

Definition writable : Prop :=
  fault OpRead "package.json" = false /\
  fault OpWrite "package.json" = false /\
  fault OpWrite "biome.json" = false.

(** Whether the manifest on disk is an object with a truthy member
    [field]. *)
Definition embedded (manifest : option content) (field : string) : bool :=
  match manifest with
  | Some (Json (JObj members)) => truthy_opt (JSON_parse <$> prop_lookup field members)
  | _ => false
  end.

(** The manifest update told on the document itself: what [package.json]
    holds afterwards, as a function of what it held.  The members come
    out in the order of their enumeration, each as parsing and writing
    render it. *)
Definition script_entries : list (string * json) :=
  map (fun m => (fst m, JSON_stringify (snd m))) scriptUpdates.

Definition reread_members (members : list (string * json)) : list (string * json) :=
  map (fun m => (fst m, reread (snd m))) (enumeration_order members).

Definition updated_scripts (scripts : option json) : json :=
  match scripts with
  | Some (JObj entries) =>
      JObj (foldl (fun acc entry => prop_set (fst entry) (snd entry) acc)
                  (reread_members entries) script_entries)
  | Some other => if truthy (JSON_parse other) then reread other else JObj script_entries
  | None => JObj script_entries
  end.

Definition drop_field (field : string) (members : list (string * json)) :
  list (string * json) :=
  if embedded (Some (Json (JObj members))) field then prop_delete field members
  else members.

Definition updated_manifest (doc : json) : option json :=
  match doc with
  | JObj members =>
      let kept :=
        drop_field "prettier" (drop_field "eslintConfig" (enumeration_order members)) in
      Some (JObj (prop_set "scripts" (updated_scripts (prop_lookup "scripts" kept))
                           (map (fun m => (fst m, reread (snd m))) kept)))
  | JArr items => Some (reread (JArr items))
  | _ => None
  end.

Definition removed_fields (manifest : option content) : list string :=
  List.filter (embedded manifest) ["eslintConfig"; "prettier"].

(** The place of an event in the pipeline of [main], for the package
    manager [pm]. *)
Inductive at_stage (pm : package_manager) : nat -> event -> Prop :=
  | stage_mkdir : at_stage pm 1 EMkdir
  | stage_copy f : at_stage pm 2 (ECopy f)
  | stage_install ok : at_stage pm 3 (EExec (install_command pm) ok)
  | stage_generate : at_stage pm 4 (EWrite "biome.json")
  | stage_update : at_stage pm 5 (EWrite "package.json")
  | stage_uninstall toRemove ok :
      at_stage pm 6 (EExec (uninstall_command pm toRemove) ok)
  | stage_unlink f : at_stage pm 7 (EUnlink f).

(** [a] may come before [b] in a run: it belongs to an earlier stage, or
    both are copies, or both are removals. *)
Definition in_order (pm : package_manager) (a b : event) : Prop :=
  exists i j, at_stage pm i a /\ at_stage pm j b /\
    (i < j \/ (i = j /\ (i = 2 \/ i = 7)))%nat.

(** Events that keep to the order of the pipeline, none of them of a
    stage before [n]. *)
Definition from_stage (pm : package_manager) (n : nat) (evs : list event) : Prop :=
  Forall (fun e => exists i, at_stage pm i e /\ (n <= i)%nat) evs /\
  StronglySorted (in_order pm) evs.

(** Properties that are already in the order of their enumeration. *)
Definition enumerated {A} (o : list (string * A)) : Prop :=
  StronglySorted (fun m m' => goes_before (fst m) (fst m') = true) o.

(** A platform on which no file operation fails. *)
Definition healthy : Prop := forall op file, fault op file = false.

(** ** Properties and documents *)

Lemma prop_lookup_set_eq {A} k (x : A) o : prop_lookup k (prop_set k x o) = Some x.
Proof.
  induction o as [|[k' y] o IH]; simpl.
  - by rewrite decide_True.
  - destruct (decide (k' = k)) as [-> | Hne]; simpl.
    + by rewrite decide_True.
    + by rewrite decide_False.
Qed.

Lemma prop_lookup_set_ne {A} k k' (x : A) o :
  k <> k' -> prop_lookup k' (prop_set k x o) = prop_lookup k' o.
Proof.
  intros Hne. induction o as [|[k0 y] o IH]; simpl.
  - by rewrite decide_False.
  - destruct (decide (k0 = k)) as [-> | Hne0]; simpl.
    + by rewrite !decide_False.
    + by rewrite IH.
Qed.

Lemma prop_lookup_delete_eq {A} k (o : list (string * A)) :
  prop_lookup k (prop_delete k o) = None.
Proof.
  induction o as [|[k' y] o IH]; simpl; [done|].
  destruct (decide (k' = k)) as [-> | Hne]; simpl; [done|].
  by rewrite decide_False.
Qed.

Lemma prop_lookup_delete_ne {A} k k' (o : list (string * A)) :
  k <> k' -> prop_lookup k' (prop_delete k o) = prop_lookup k' o.
Proof.
  intros Hne. induction o as [|[k0 y] o IH]; simpl; [done|].
  destruct (decide (k0 = k)) as [-> | Hne0]; simpl.
  - by rewrite decide_False.
  - by rewrite IH.
Qed.

Lemma prop_lookup_map {A B} (f : A -> B) k (o : list (string * A)) :
  prop_lookup k (map (fun m => (fst m, f (snd m))) o) = f <$> prop_lookup k o.
Proof.
  induction o as [|[k' y] o IH]; simpl; [done|].
  by destruct (decide (k' = k)).
Qed.

(** *** The order of enumeration *)

Lemma goes_before_refl k : goes_before k k = true.
Proof.
  unfold goes_before. destruct (array_index k); [|done].
  by apply N.leb_le.
Qed.

Lemma goes_before_total k k' : goes_before k k' = false -> goes_before k' k = true.
Proof.
  unfold goes_before.
  destruct (array_index k), (array_index k'); try done.
  rewrite N.leb_gt, N.leb_le. lia.
Qed.

Lemma goes_before_trans k1 k2 k3 :
  goes_before k1 k2 = true -> goes_before k2 k3 = true -> goes_before k1 k3 = true.
Proof.
  unfold goes_before.
  destruct (array_index k1), (array_index k2), (array_index k3); try done.
  rewrite !N.leb_le. lia.
Qed.

Lemma goes_before_named k k' : array_index k' = None -> goes_before k k' = true.
Proof. unfold goes_before. intros ->. by destruct (array_index k). Qed.

Lemma goes_before_false_ne k k' : goes_before k k' = false -> k <> k'.
Proof. intros H ->. by rewrite goes_before_refl in H. Qed.

Lemma prop_lookup_place {A} k (m : string * A) o :
  prop_lookup k (place m o) =
  if decide (fst m = k) then Some (snd m) else prop_lookup k o.
Proof.
  destruct m as [k0 x]. induction o as [|[k' y] o IH]; cbn [place fst snd].
  - done.
  - destruct (goes_before k0 k') eqn:Hgb; [done|].
    cbn [prop_lookup]. rewrite IH. cbn [fst snd].
    destruct (decide (k0 = k)) as [-> | Hne]; [|done].
    apply goes_before_false_ne in Hgb. by rewrite decide_False.
Qed.

(** Enumeration reorders the properties and changes none. *)
Lemma prop_lookup_enumeration {A} k (o : list (string * A)) :
  prop_lookup k (enumeration_order o) = prop_lookup k o.
Proof.
  induction o as [|[k' y] o IH]; cbn [enumeration_order]; [done|].
  rewrite prop_lookup_place, IH. done.
Qed.

Lemma place_map {A B} (f : A -> B) (m : string * A) o :
  place (fst m, f (snd m)) (map (fun m => (fst m, f (snd m))) o) =
  map (fun m => (fst m, f (snd m))) (place m o).
Proof.
  induction o as [|m' o IH]; cbn [place map fst snd]; [done|].
  destruct (goes_before (fst m) (fst m')); [done|].
  cbn [map]. by rewrite <- IH.
Qed.

Lemma enumeration_order_map {A B} (f : A -> B) (o : list (string * A)) :
  enumeration_order (map (fun m => (fst m, f (snd m))) o) =
  map (fun m => (fst m, f (snd m))) (enumeration_order o).
Proof.
  induction o as [|m o IH]; cbn [enumeration_order map]; [done|].
  by rewrite IH, place_map.
Qed.

Lemma enumerated_fixed {A} (o : list (string * A)) :
  enumerated o -> enumeration_order o = o.
Proof.
  induction 1 as [|m o Hsorted IH Hall]; cbn [enumeration_order]; [done|].
  rewrite IH. destruct Hall as [|m' o' Hm' _]; cbn [place]; [done|].
  by rewrite Hm'.
Qed.

Lemma place_elem {A} (m x : string * A) o : x ∈ place m o -> x = m \/ x ∈ o.
Proof.
  induction o as [|m' o IH]; cbn [place].
  - rewrite list_elem_of_singleton. by left.
  - destruct (goes_before (fst m) (fst m')).
    + rewrite elem_of_cons. intros [?|?]; eauto.
    + rewrite !elem_of_cons. intros [-> | Hin]; [by right; left|].
      destruct (IH Hin) as [?|?]; eauto.
Qed.

Lemma place_enumerated {A} (m : string * A) o : enumerated o -> enumerated (place m o).
Proof.
  unfold enumerated.
  induction 1 as [|m' o Hsorted IH Hall]; cbn [place].
  - repeat constructor.
  - destruct (goes_before (fst m) (fst m')) eqn:Hgb.
    + constructor; [by constructor|].
      constructor; [done|].
      eapply Forall_impl; [exact Hall|].
      intros x Hx. cbn beta in Hx. by eapply goes_before_trans.
    + constructor; [done|].
      apply Forall_forall. intros x Hx.
      destruct (place_elem _ _ _ Hx) as [-> | Hin].
      * by apply goes_before_total.
      * by eapply (proj1 (Forall_forall _ _) Hall).
Qed.

Lemma enumeration_order_enumerated {A} (o : list (string * A)) :
  enumerated (enumeration_order o).
Proof.
  induction o as [|m o IH]; cbn [enumeration_order].
  - constructor.
  - by apply place_enumerated.
Qed.

Lemma enumerated_map {A B} (f : A -> B) (o : list (string * A)) :
  enumerated (map (fun m => (fst m, f (snd m))) o) <-> enumerated o.
Proof.
  unfold enumerated. induction o as [|m o IH]; cbn [map].
  - split; constructor.
  - split; inversion 1 as [|? ? Hsorted Hall]; subst; constructor;
      try (by apply IH).
    + rewrite Forall_fmap in Hall. exact Hall.
    + rewrite Forall_fmap. exact Hall.
Qed.

Lemma place_perm {A} (m : string * A) o : Permutation (place m o) (m :: o).
Proof.
  induction o as [|m' o IH]; cbn [place]; [done|].
  destruct (goes_before (fst m) (fst m')); [done|].
  rewrite IH. apply perm_swap.
Qed.

(** Enumeration neither adds nor loses a property. *)
Lemma enumeration_order_perm {A} (o : list (string * A)) :
  Permutation (enumeration_order o) o.
Proof.
  induction o as [|m o IH]; cbn [enumeration_order]; [done|].
  by rewrite place_perm, IH.
Qed.

Lemma keys_enumeration {A} k (o : list (string * A)) :
  k ∈ map fst (enumeration_order o) <-> k ∈ map fst o.
Proof.
  rewrite !list_elem_of_In.
  split; apply Permutation_in, Permutation_map;
    [|symmetry]; apply enumeration_order_perm.
Qed.

(** *** Reading and writing documents *)

Lemma get_prop_parsed members k :
  get_prop (JSON_parse (JObj members)) k =
  Some (JSON_parse <$> prop_lookup k members).
Proof.
  cbn [JSON_parse get_prop]. by rewrite prop_lookup_enumeration, prop_lookup_map.
Qed.

(** A falsy value is written as a document that reads as a falsy value. *)
Lemma falsy_written v :
  truthy v = false -> truthy (JSON_parse (JSON_stringify v)) = false.
Proof.
  destruct v as [ | b | [x|neg] | s | items own | own ]; cbn [truthy]; try done.
  intros Hx. apply negb_false_iff, Z.eqb_eq in Hx. subst x. reflexivity.
Qed.

Lemma falsy_opt_written v :
  truthy_opt v = false ->
  truthy_opt (JSON_parse <$> (JSON_stringify <$> v)) = false.
Proof. destruct v as [v|]; [apply falsy_written | done]. Qed.

(** Only zero is read as zero, and only zero is written as zero: a number
    that is truthy and finite is written as a number that reads as a
    truthy one. *)
Lemma to_double_zero n : to_double n = Finite 0 -> n = 0.
Proof.
  unfold to_double. destruct (Z.abs n <? 2 ^ 53) eqn:Hsmall; [by intros [= ->]|].
  apply Z.ltb_ge in Hsmall.
  set (k := Z.log2 (Z.abs n) - 52).
  set (q := Z.shiftr (Z.abs n) k).
  set (r := Z.abs n - Z.shiftl q k).
  set (q' := if (2 ^ (k - 1) <? r) || ((r =? 2 ^ (k - 1)) && Z.odd q) then q + 1 else q).
  destruct (2 ^ 1024 <=? Z.shiftl q' k); [done|]. intros [= H].
  assert (Hlog : 53 <= Z.log2 (Z.abs n)).
  { rewrite <- (Z.log2_pow2 53) by lia. by apply Z.log2_le_mono. }
  assert (Hk : 0 <= k) by (unfold k; lia).
  assert (Hq : 1 <= q).
  { unfold q. rewrite Z.shiftr_div_pow2 by done.
    apply Z.div_le_lower_bound; [by apply Z.pow_pos_nonneg|].
    rewrite Z.mul_1_r. etransitivity; [|apply Z.log2_spec; lia].
    apply Z.pow_le_mono_r; unfold k; lia. }
  assert (Hq' : 1 <= q') by (unfold q'; destruct (_ || _); lia).
  apply Z.eq_mul_0 in H as [H|H]; [by destruct n|].
  apply Z.shiftl_eq_0_iff in H; lia.
Qed.

Lemma shortest_from_nonzero fuel : forall u best x,
  x <> 0 -> best <> 0 -> shortest_from fuel u best x <> 0.
Proof.
  induction fuel as [|fuel IH]; intros u best x Hx Hbest; cbn [shortest_from]; [done|].
  destruct (nearest_multiple x (10 * u)) as [c|] eqn:Hc; [|done].
  apply IH; [done|]. intros ->.
  assert (Hreads : forall c', reads_as x c' = true -> c' <> 0).
  { intros c' Hr ->. unfold reads_as in Hr. cbn in Hr. apply Z.eqb_eq in Hr. done. }
  unfold nearest_multiple in Hc.
  destruct (reads_as x (x / (10 * u) * (10 * u))) eqn:Hlo;
    destruct (reads_as x (x / (10 * u) * (10 * u) + 10 * u)) eqn:Hhi;
    try discriminate Hc; injection Hc as Hc;
    repeat match type of Hc with (if ?b then _ else _) = _ => destruct b end;
    first [by eapply (Hreads _ Hlo) | by eapply (Hreads _ Hhi)].
Qed.

Lemma shortest_nonzero x : x <> 0 -> shortest x <> 0.
Proof.
  intros Hx. unfold shortest. intros H. apply Z.eq_mul_0 in H as [H|H].
  - by destruct x.
  - revert H. apply shortest_from_nonzero; lia.
Qed.

Lemma truthy_number_written n :
  fits_a_double n ->
  truthy (JSON_parse (JNum n)) = true ->
  truthy (JSON_parse (JSON_stringify (JSON_parse (JNum n)))) = true.
Proof.
  unfold fits_a_double. cbn [JSON_parse]. destruct (to_double n) as [x|neg]; [|done].
  intros _. cbn [truthy JSON_stringify JSON_parse]. intros Hx.
  apply negb_true_iff, Z.eqb_neq in Hx.
  destruct (to_double (shortest x)) as [y|neg] eqn:Hy; [|done].
  apply negb_true_iff, Z.eqb_neq. intros ->.
  apply to_double_zero in Hy. by apply shortest_nonzero in Hy.
Qed.

(** The documents that come back as they were: the members of an object
    are in the order of their enumeration, and come back as they were. *)
Lemma round_trips_members members :
  round_trips (JObj members) <->
  enumerated members /\ Forall (fun m => round_trips (snd m)) members.
Proof.
  unfold round_trips, reread. cbn [JSON_parse JSON_stringify].
  rewrite enumeration_order_map, map_map. cbn [fst snd].
  split.
  - intros Heq. injection Heq as Heq.
    assert (Henum : enumerated members).
    { rewrite <- Heq.
      apply (proj2 (enumerated_map (fun x => JSON_stringify (JSON_parse x)) _)).
      apply enumeration_order_enumerated. }
    split; [done|].
    rewrite (enumerated_fixed _ Henum) in Heq.
    clear Henum. induction members as [|[k x] members IH]; [constructor|].
    cbn [map fst snd] in Heq. injection Heq as Hx Hrest.
    constructor; [exact Hx | by apply IH].
  - intros [Henum Hall]. rewrite (enumerated_fixed _ Henum). f_equal.
    clear Henum. induction Hall as [|[k x] members Hx _ IH]; [done|].
    cbn [map fst snd] in *. unfold round_trips, reread in Hx.
    by rewrite Hx, IH.
Qed.

Lemma round_trips_lookup members k x :
  round_trips (JObj members) -> prop_lookup k members = Some x -> round_trips x.
Proof.
  intros [_ Hall]%round_trips_members.
  induction Hall as [|[k' y] members Hy _ IH]; cbn [prop_lookup]; [done|].
  destruct (decide (k' = k)); [|done]. by intros [= <-].
Qed.

(** ** What each step does *)

Lemma known_files_standalone :
  forallb standalone (CONFIG_FILES_eslint ++ CONFIG_FILES_prettier) = true.
Proof. reflexivity. Qed.

Lemma fields_not_standalone :
  standalone eslintConfig_field = false /\ standalone prettier_field = false.
Proof. split; reflexivity. Qed.

Lemma managed_files_not_legacy (f : string) :
  f ∈ CONFIG_FILES_eslint ++ CONFIG_FILES_prettier ->
  f <> "biome.json" /\ f <> "package.json".
Proof.
  unfold CONFIG_FILES_eslint, CONFIG_FILES_prettier. cbn [app]. intros Hin.
  repeat (apply elem_of_cons in Hin as [->|Hin]; [done|]).
  by apply elem_of_nil in Hin.
Qed.

#[local] Opaque CONFIG_FILES_eslint CONFIG_FILES_prettier PACKAGES_TO_REMOVE
  generateBiomeConfig.

Lemma forEach_push_exists l s :
  forEach_push push_if_exists l s = (Ok (List.filter (present (root (fs s))) l), s).
Proof.
  induction l as [|f l IH]; simpl; [done|].
  unfold bind at 1. unfold push_if_exists at 1, bind, existsSync.
  fold (present (root (fs s)) f). by destruct (present (root (fs s)) f) eqn:E; simpl; rewrite IH; simpl.
Qed.

Lemma detectPackageManager_total s : exists pm, detectPackageManager s = (Ok pm, s).
Proof.
  unfold detectPackageManager, bind, existsSync, ret.
  repeat (destruct (bool_decide _); [eauto|]). eauto.
Qed.

(** Detection reads and never writes. *)
Lemma findExistingConfigs_state s : (findExistingConfigs s).2 = s.
Proof.
  unfold findExistingConfigs, bind. rewrite !forEach_push_exists.
  unfold existsSync at 1. destruct (bool_decide _); [|done].
  unfold read_manifest, bind, readFileSync.
  destruct (root (fs s) !! "package.json") as [[doc|text]|]; try done;
    destruct (fault OpRead "package.json"); try done.
  simpl. destruct (get_prop (JSON_parse doc) "eslintConfig"); simpl; [|done].
  destruct (get_prop (JSON_parse doc) "prettier"); simpl; done.
Qed.

Lemma findExistingConfigs_no_exit s code : (findExistingConfigs s).1 <> Exit code.
Proof.
  unfold findExistingConfigs, bind. rewrite !forEach_push_exists.
  unfold existsSync at 1. destruct (bool_decide _); [|done].
  unfold read_manifest, bind, readFileSync.
  destruct (root (fs s) !! "package.json") as [[doc|text]|]; try done;
    destruct (fault OpRead "package.json"); try done.
  simpl. destruct (get_prop (JSON_parse doc) "eslintConfig"); simpl; [|done].
  destruct (get_prop (JSON_parse doc) "prettier"); simpl; done.
Qed.

(** What detection returns: the known files that exist, in the order of
    the tables, then the field of the manifest if it has one. *)
Lemma findExistingConfigs_Ok s c :
  (findExistingConfigs s).1 = Ok c ->
  exists e p,
    eslint c = List.filter (present (root (fs s))) CONFIG_FILES_eslint ++ e /\
    prettier c = List.filter (present (root (fs s))) CONFIG_FILES_prettier ++ p /\
    (e = [] \/ e = [eslintConfig_field]) /\
    (p = [] \/ p = [prettier_field]).
Proof.
  unfold findExistingConfigs, bind. rewrite !forEach_push_exists.
  unfold existsSync at 1. destruct (bool_decide _).
  2:{ cbn [fst ret]. intros [= <-]. exists [], []. cbn [eslint prettier].
      rewrite !app_nil_r. split_and!; eauto. }
  unfold read_manifest, bind, readFileSync.
  destruct (root (fs s) !! "package.json") as [[doc|text]|]; try done;
    destruct (fault OpRead "package.json"); try done.
  cbn [ret]. destruct (get_prop (JSON_parse doc) "eslintConfig") as [ec|]; cbn [lift_js ret throw]; [|done].
  destruct (get_prop (JSON_parse doc) "prettier") as [pc|]; cbn [lift_js ret throw fst]; [|done].
  intros [= <-]. cbn [eslint prettier].
  eexists _, _. split; [reflexivity|]. split; [reflexivity|].
  split; [destruct (truthy_opt ec)|destruct (truthy_opt pc)]; eauto.
Qed.

Lemma standalone_entry_of_filter (s : state) (l e : list string) (f : string) :
  forallb standalone l = true ->
  (e = [] \/ exists x, e = [x] /\ standalone x = false) ->
  f ∈ List.filter (present (root (fs s))) l ++ e -> standalone f = true ->
  f ∈ l /\ present (root (fs s)) f = true.
Proof.
  intros Hl He Hin Hf. apply elem_of_app in Hin as [Hin|Hin].
  - apply list_elem_of_In, filter_In in Hin as [Hin Hp].
    by apply list_elem_of_In in Hin.
  - destruct He as [-> | [x [-> Hx]]].
    + by apply elem_of_nil in Hin.
    + apply list_elem_of_singleton in Hin as ->. congruence.
Qed.

(** Every file among the detected entries exists when detection runs. *)
Lemma detected_file_present s c f :
  (findExistingConfigs s).1 = Ok c ->
  f ∈ entries c -> standalone f = true -> present (root (fs s)) f = true.
Proof.
  intros Hc Hin Hf.
  destruct (findExistingConfigs_Ok _ _ Hc) as (e & p & He & Hp & Hes & Hps).
  unfold entries in Hin. rewrite He, Hp in Hin.
  pose proof known_files_standalone as Hk.
  rewrite forallb_app in Hk. apply andb_prop in Hk as [Hk1 Hk2].
  destruct fields_not_standalone as [F1 F2].
  apply elem_of_app in Hin as [Hin|Hin].
  - eapply standalone_entry_of_filter in Hin as [_ ?]; eauto.
    destruct Hes as [-> | ->]; eauto.
  - eapply standalone_entry_of_filter in Hin as [_ ?]; eauto.
    destruct Hps as [-> | ->]; eauto.
Qed.

(** *** Backup *)

(** One pass of the loop of [backupConfigs], the directory being there:
    it copies the existing files in order and stops at the first copy
    that fails. *)
Lemma backup_loop l : forall files dir t r s',
  forEach_push backup_one l (State (FileSys files (Some dir)) t) = (r, s') ->
  exists copied,
    s' = State (FileSys files (Some (copy_into files dir copied)))
               (t ++ map ECopy copied) /\
    Forall (fun f => fault OpCopy f = false) copied /\
    match r with
    | Ok out => out = copied /\ copied = copyable files l
    | Throw e =>
        exists l1 g l2,
          l = l1 ++ g :: l2 /\ copied = copyable files l1 /\
          standalone g = true /\ present files g = true /\
          fault OpCopy g = true /\ e = EIO OpCopy g
    | Exit _ => False
    end.
Proof.
  induction l as [|f l IH]; intros files dir t r s' Hrun.
  { injection Hrun as <- <-. exists []. cbn. rewrite app_nil_r. eauto. }
  cbn [forEach_push] in Hrun. unfold bind at 1 in Hrun.
  unfold backup_one at 1 in Hrun.
  unfold copyable. cbn [List.filter]. fold (copyable files l).
  unfold standalone at 1.
  destruct (includes f "package.json") eqn:Hinc; cbn [negb andb ret] in *.
  { unfold bind in Hrun.
    destruct (forEach_push backup_one l _) as [[out|e|k] s1] eqn:Hl;
      apply IH in Hl as (copied & Hs & Hf & Hr); injection Hrun as <- <-;
      exists copied; cbn in *.
    - destruct Hr as [-> ->]. eauto.
    - destruct Hr as (l1 & g & l2 & -> & -> & ? & ? & ? & ->).
      split_and!; eauto. exists (f :: l1), g, l2.
      unfold copyable, standalone. cbn [List.filter]. rewrite Hinc. cbn.
      split_and!; eauto.
    - done. }
  unfold bind at 1, existsSync at 1 in Hrun. cbn [fs root] in Hrun.
  fold (present files f) in Hrun.
  destruct (present files f) eqn:Hp; cbn [andb].
  2:{ cbn [ret] in Hrun. unfold bind in Hrun.
      destruct (forEach_push backup_one l _) as [[out|e|k] s1] eqn:Hl;
        apply IH in Hl as (copied & Hs & Hf & Hr); injection Hrun as <- <-;
        exists copied; cbn in *.
      - destruct Hr as [-> ->]. eauto.
      - destruct Hr as (l1 & g & l2 & -> & -> & ? & ? & ? & ->).
        split_and!; eauto. exists (f :: l1), g, l2.
        unfold copyable, standalone. cbn [List.filter]. rewrite Hinc, Hp. cbn.
        split_and!; eauto.
      - done. }
  unfold bind at 1, copyFileSync in Hrun. cbn [fs root backup trace] in Hrun.
  pose proof Hp as Hp'.
  unfold present in Hp. apply bool_decide_eq_true in Hp as [c Hc].
  rewrite Hc in Hrun.
  destruct (fault OpCopy f) eqn:Hfault.
  { injection Hrun as <- <-. exists []. cbn. rewrite app_nil_r. split_and!; eauto.
    exists [], f, l. unfold standalone. rewrite Hinc. cbn.
    split_and!; eauto. }
  cbn [ret] in Hrun. unfold bind at 1 in Hrun.
  destruct (forEach_push backup_one l _) as [[out|e|k] s1] eqn:Hl;
    apply IH in Hl as (copied & Hs & Hf & Hr); injection Hrun as <- <-;
    exists (f :: copied); subst s1; cbn [copy_into foldl map];
    rewrite Hc, <- app_assoc; (split; [reflexivity|]);
    (split; [by constructor|]).
  - destruct Hr as [-> ->]. eauto.
  - destruct Hr as (l1 & g & l2 & -> & -> & ? & ? & ? & ->).
    exists (f :: l1), g, l2.
    unfold copyable, standalone. cbn [List.filter].
    rewrite Hinc, Hp'. cbn. split_and!; eauto.
  - done.
Qed.

(** [backupConfigs] as a whole: either the directory cannot be made and
    nothing happens, or the loop above runs in the directory. *)
Lemma backupConfigs_spec c s r s' :
  backupConfigs c s = (r, s') ->
  (backup (fs s) = None /\ fault OpMkdir ".biome-migration-backup" = true /\
   s' = s /\ r = Throw (EIO OpMkdir ".biome-migration-backup")) \/
  (exists copied,
    (backup (fs s) = None -> fault OpMkdir ".biome-migration-backup" = false) /\
    s' = State (FileSys (root (fs s))
                  (Some (copy_into (root (fs s)) (default ∅ (backup (fs s))) copied)))
               (trace s ++ match backup (fs s) with Some _ => [] | None => [EMkdir] end
                        ++ map ECopy copied) /\
    Forall (fun f => fault OpCopy f = false) copied /\
    match r with
    | Ok rec =>
        rec = BackupRecord ".biome-migration-backup" copied /\
        copied = copyable (root (fs s)) (entries c)
    | Throw e =>
        exists l1 g l2,
          entries c = l1 ++ g :: l2 /\ copied = copyable (root (fs s)) l1 /\
          standalone g = true /\ present (root (fs s)) g = true /\
          fault OpCopy g = true /\ e = EIO OpCopy g
    | Exit _ => False
    end).
Proof.
  destruct s as [[files dir] t].
  unfold entries, backupConfigs, bind at 1, existsSync_backupDir.
  cbn [fs root backup trace].
  destruct dir as [dir|]; cbn [bool_decide negb].
  - rewrite bool_decide_eq_true_2 by eauto. unfold bind, ret. cbn [negb].
    destruct (forEach_push backup_one (eslint c ++ prettier c) _)
      as [[out|e|k] s1] eqn:Hl;
      apply backup_loop in Hl as (copied & -> & Hf & Hr); intros [= <- <-];
      [destruct Hr as [-> Hr]| |done];
      right; exists copied; cbn [default app]; split_and!; eauto; done.
  - rewrite bool_decide_eq_false_2 by (intros [? ?]; done). cbn [negb].
    unfold bind at 1, mkdirSync_backupDir. cbn [fs root backup trace default].
    destruct (fault OpMkdir _) eqn:Hmk.
    { intros [= <- <-]. left. eauto. }
    unfold bind.
    destruct (forEach_push backup_one (eslint c ++ prettier c) _)
      as [[out|e|k] s1] eqn:Hl;
      apply backup_loop in Hl as (copied & -> & Hf & Hr); intros [= <- <-];
      [destruct Hr as [-> Hr]| |done];
      right; exists copied; rewrite <- app_assoc; split_and!; eauto.
Qed.

(** *** Removal *)

(** The loop of [removeConfigFiles]: it unlinks files among the entries
    given, and only files that existed when it began. *)
Lemma remove_loop l : forall files dir t r s',
  forEach_push remove_one l (State (FileSys files dir) t) = (r, s') ->
  exists removed,
    s' = State (FileSys (foldl (fun m f => delete f m) files removed) dir)
               (t ++ map EUnlink removed) /\
    Forall (fun f => f ∈ l /\ standalone f = true /\ present files f = true) removed /\
    match r with
    | Ok out => out = removed
    | Throw e => True
    | Exit _ => False
    end.
Proof.
  induction l as [|f l IH]; intros files dir t r s' Hrun.
  { injection Hrun as <- <-. exists []. cbn. rewrite app_nil_r. eauto. }
  cbn [forEach_push] in Hrun. unfold bind at 1 in Hrun.
  unfold remove_one at 1 in Hrun.
  assert (Hweak : forall files' removed,
    (forall g, present files' g = true -> present files g = true) ->
    Forall (fun g => g ∈ l /\ standalone g = true /\ present files' g = true) removed ->
    Forall (fun g => g ∈ f :: l /\ standalone g = true /\ present files g = true) removed).
  { intros files' removed Hsub HF. eapply Forall_impl; [exact HF|].
    intros g (? & ? & ?).
    split_and!; eauto. by apply elem_of_cons; right. }
  destruct (includes f "package.json") eqn:Hinc.
  { cbn [ret] in Hrun. unfold bind in Hrun.
    destruct (forEach_push remove_one l _) as [[out|e|k] s1] eqn:Hl;
      apply IH in Hl as (removed & -> & Hf & Hr); injection Hrun as <- <-;
      exists removed; split_and!; eauto. }
  unfold bind at 1, existsSync at 1 in Hrun. cbn [fs root] in Hrun.
  fold (present files f) in Hrun.
  destruct (present files f) eqn:Hp.
  2:{ cbn [ret] in Hrun. unfold bind in Hrun.
      destruct (forEach_push remove_one l _) as [[out|e|k] s1] eqn:Hl;
        apply IH in Hl as (removed & -> & Hf & Hr); injection Hrun as <- <-;
        exists removed; split_and!; eauto. }
  unfold bind at 1, unlinkSync in Hrun. cbn [fs root backup trace] in Hrun.
  pose proof Hp as Hp'.
  unfold present in Hp. apply bool_decide_eq_true in Hp as [c Hc].
  rewrite Hc in Hrun.
  destruct (fault OpUnlink f) eqn:Hfault.
  { injection Hrun as <- <-. exists []. cbn. rewrite app_nil_r. eauto. }
  cbn [ret] in Hrun. unfold bind at 1 in Hrun.
  assert (Hsub : forall g, present (delete f files) g = true -> present files g = true).
  { intros g. unfold present. rewrite !bool_decide_eq_true.
    intros [x Hx]. apply lookup_delete_Some in Hx as [_ Hx]. eauto. }
  assert (Hfirst : f ∈ f :: l /\ standalone f = true /\ present files f = true).
  { split_and!; [by apply elem_of_cons; left|by unfold standalone; rewrite Hinc|done]. }
  destruct (forEach_push remove_one l _) as [[out|e|k] s1] eqn:Hl;
    apply IH in Hl as (removed & -> & Hf & Hr); injection Hrun as <- <-;
    exists (f :: removed); cbn [foldl map]; rewrite <- app_assoc;
    (split; [reflexivity|]);
    (split; [constructor; eauto|]).
  - by subst.
  - done.
  - done.
Qed.

(** *** The other steps *)

Lemma removeConfigFiles_spec c s r s' :
  removeConfigFiles c s = (r, s') ->
  exists removed,
    s' = State (FileSys (foldl (fun m f => delete f m) (root (fs s)) removed)
                        (backup (fs s)))
               (trace s ++ map EUnlink removed) /\
    Forall (fun f => f ∈ entries c /\ standalone f = true /\
                     present (root (fs s)) f = true) removed /\
    match r with
    | Ok out => out = removed
    | Throw e => True
    | Exit _ => False
    end.
Proof. destruct s as [[files dir] t]. apply remove_loop. Qed.

Lemma install_step_eq pm s :
  install_step pm s =
  match spawn (install_command pm) (fs s) with
  | Some fs' => (Ok tt, State fs' (trace s ++ [EExec (install_command pm) true]))
  | None => (Exit 1, State (fs s) (trace s ++ [EExec (install_command pm) false]))
  end.
Proof.
  unfold install_step, try_catch, installBiome, execSync.
  by destruct (spawn _ _).
Qed.

Lemma generate_step_eq s :
  generate_step s =
  if fault OpWrite "biome.json" then (Throw (EIO OpWrite "biome.json"), s)
  else (Ok tt,
        State (FileSys (<["biome.json" := Json (JSON_stringify generateBiomeConfig)]>
                          (root (fs s)))
                       (backup (fs s)))
              (trace s ++ [EWrite "biome.json"])).
Proof. reflexivity. Qed.

Lemma read_manifest_state s r s' : read_manifest s = (r, s') -> s' = s /\ forall k, r <> Exit k.
Proof.
  unfold read_manifest, bind, readFileSync.
  destruct (root (fs s) !! "package.json") as [[doc|text]|];
    [destruct (fault OpRead _)..|]; intros [= <- <-]; done.
Qed.

Lemma assign_scripts_state l : forall pkg s r s',
  forEach_fold assign_script pkg l s = (r, s') -> s' = s /\ forall k, r <> Exit k.
Proof.
  induction l as [|entry l IH]; intros pkg s r s'; cbn [forEach_fold].
  { by intros [= <- <-]. }
  unfold bind at 1, assign_script, bind.
  destruct (get_prop pkg "scripts") as [scripts|]; cbn [lift_js ret throw];
    [|by intros [= <- <-]].
  destruct (set_prop scripts _ _) as [scripts'|]; cbn [lift_js ret throw];
    [|by intros [= <- <-]].
  destruct (set_prop (Some pkg) _ _) as [pkg'|]; cbn [lift_js ret throw];
    [|by intros [= <- <-]].
  apply IH.
Qed.

(** The manifest update either fails before writing anything or replaces
    [package.json], and does nothing else. *)
Lemma updatePackageJson_state s r s' :
  updatePackageJson s = (r, s') ->
  match r with
  | Ok _ =>
      exists doc,
        s' = State (FileSys (<["package.json" := Json doc]> (root (fs s)))
                            (backup (fs s)))
                   (trace s ++ [EWrite "package.json"])
  | Throw _ => s' = s
  | Exit _ => False
  end.
Proof.
  unfold updatePackageJson, bind at 1.
  destruct (read_manifest s) as [[pkg|e|k] s1] eqn:Hread;
    apply read_manifest_state in Hread as [-> Hk];
    [|by intros [= <- <-]|by destruct (Hk k)].
  unfold bind at 1.
  destruct (get_prop pkg "eslintConfig") as [ec|]; cbn [lift_js ret throw];
    [|by intros [= <- <-]].
  unfold bind at 1.
  destruct (get_prop _ "prettier") as [pc|]; cbn [lift_js ret throw];
    [|by intros [= <- <-]].
  unfold bind at 1.
  destruct (get_prop _ "scripts") as [sc|]; cbn [lift_js ret throw];
    [|by intros [= <- <-]].
  unfold bind at 1.
  destruct (set_prop _ "scripts" _) as [pkg3|]; cbn [lift_js ret throw];
    [|by intros [= <- <-]].
  unfold bind at 1.
  destruct (forEach_fold assign_script pkg3 scriptUpdates s) as [[pkg4|e|k] s1] eqn:Hfold;
    apply assign_scripts_state in Hfold as [-> Hk'];
    [|by intros [= <- <-]|by destruct (Hk' k)].
  unfold bind, writeFileSync.
  destruct (fault OpWrite "package.json"); intros [= <- <-]; eauto.
Qed.

Lemma push_wanted_state pkg l : forall s r s',
  forEach_push (push_if_wanted pkg) l s = (r, s') -> s' = s /\ forall k, r <> Exit k.
Proof.
  induction l as [|name l IH]; intros s r s'; cbn [forEach_push].
  { by intros [= <- <-]. }
  unfold bind at 1, push_if_wanted at 1, bind at 1.
  destruct (wanted pkg name) as [[|]|]; cbn [lift_js ret throw];
    [| |by intros [= <- <-]];
    unfold bind;
    (destruct (forEach_push (push_if_wanted pkg) l s) as [[out|e|k] s1] eqn:Hl;
     apply IH in Hl as [-> Hk]; [| |by destruct (Hk k)]);
    by intros [= <- <-].
Qed.

(** The removal of the old packages runs at most one command, an
    uninstall, and never stops the run. *)
Lemma packages_step_spec pm s :
  exists s', packages_step pm s = (Ok tt, s') /\
    (s' = s \/
     exists toRemove ok fs',
       toRemove <> [] /\
       s' = State fs' (trace s ++ [EExec (uninstall_command pm toRemove) ok]) /\
       spawn (uninstall_command pm toRemove) (fs s) =
         (if ok then Some fs' else None) /\
       (ok = false -> fs' = fs s)).
Proof.
  unfold packages_step, try_catch, bind at 1, removeOldPackages, bind at 1.
  destruct (read_manifest s) as [[pkg|e|k] s1] eqn:Hread;
    apply read_manifest_state in Hread as [-> Hk];
    [|by eauto|by destruct (Hk k)].
  unfold bind at 1.
  destruct (forEach_push (push_if_wanted pkg) PACKAGES_TO_REMOVE s)
    as [[toRemove|e|k] s1] eqn:Hl;
    apply push_wanted_state in Hl as [-> Hk'];
    [|by eauto|by destruct (Hk' k)].
  destruct toRemove as [|name rest]; [by eauto|].
  rewrite bool_decide_eq_false_2 by done.
  unfold bind, execSync.
  destruct (spawn (uninstall_command pm (name :: rest)) (fs s)) as [fs'|] eqn:Hspawn.
  - eexists. split; [reflexivity|]. right.
    exists (name :: rest), true, fs'. by rewrite Hspawn.
  - eexists. split; [reflexivity|]. right.
    exists (name :: rest), false, (fs s). by rewrite Hspawn.
Qed.

(** *** Taking a run apart *)

Lemma bind_inv {A B} (m : M A) (k : A -> M B) s r s' :
  bind m k s = (r, s') ->
  (exists a s1, m s = (Ok a, s1) /\ k a s1 = (r, s')) \/
  (exists e, m s = (Throw e, s') /\ r = Throw e) \/
  (exists c, m s = (Exit c, s') /\ r = Exit c).
Proof.
  unfold bind. destruct (m s) as [[a|e|c] s1]; [eauto|..]; intros [= <- <-]; eauto.
Qed.

Lemma findExistingConfigs_inv s r s' :
  findExistingConfigs s = (r, s') ->
  s' = s /\ (forall k, r <> Exit k) /\ (findExistingConfigs s).1 = r.
Proof.
  intros H. pose proof (findExistingConfigs_state s) as Hs.
  pose proof (findExistingConfigs_no_exit s) as Hk.
  rewrite H in Hs, Hk. cbn in Hs, Hk. rewrite H. done.
Qed.

(** Step 2 leaves the root alone and only makes the directory and copies
    into it. *)
Lemma backup_step_spec c s r s' :
  backup_step c s = (r, s') ->
  (forall k, r <> Exit k) /\
  root (fs s') = root (fs s) /\
  exists evs, trace s' = trace s ++ evs /\ Forall backup_event evs /\
    (any_config c = false -> s' = s /\ r = Ok tt) /\
    (any_config c = true -> r = Ok tt ->
      exists rec, backupConfigs c s = (Ok rec, s') /\
        backedUp rec = copyable (root (fs s)) (entries c)).
Proof.
  unfold backup_step. destruct (any_config c).
  2:{ intros [= <- <-]. split_and!; [done..|]. exists []. rewrite app_nil_r.
      split_and!; eauto; done. }
  intros Hb. apply bind_inv in Hb as [(rec & s1 & Hb & [= <- <-])|[(e & Hb & ->)|(k & Hb & ->)]];
    pose proof Hb as Hb'; apply backupConfigs_spec in Hb as [(? & ? & -> & ?)|(copied & Hmk & -> & Hf & Hr)];
    try done.
  - split_and!; [done..|]. eexists. split; [reflexivity|]. split.
    { apply Forall_app. split.
      - destruct (backup (fs s)); repeat constructor.
      - apply Forall_forall. intros e [f [-> _]]%list_elem_of_fmap. right; eauto. }
    split; [done|]. intros _ _. destruct Hr as [-> ->]. eauto.
  - split_and!; [done..|]. exists []. rewrite app_nil_r. split_and!; eauto; done.
  - split_and!; [done..|]. eexists. split; [reflexivity|]. split.
    { apply Forall_app. split.
      - destruct (backup (fs s)); repeat constructor.
      - apply Forall_forall. intros e' [f [-> _]]%list_elem_of_fmap. right; eauto. }
    split; done.
Qed.

Lemma files_step_spec c s r s' :
  files_step c s = (r, s') ->
  (forall k, r <> Exit k) /\
  exists removed,
    s' = State (FileSys (foldl (fun m f => delete f m) (root (fs s)) removed)
                        (backup (fs s)))
               (trace s ++ map EUnlink removed) /\
    Forall (fun f => f ∈ entries c /\ standalone f = true /\
                     present (root (fs s)) f = true) removed /\
    (removed <> [] -> any_config c = true).
Proof.
  unfold files_step. destruct (any_config c).
  2:{ intros [= <- <-]. split; [done|]. exists []. cbn. rewrite app_nil_r.
      destruct s as [[? ?] ?]. split_and!; eauto; done. }
  intros H. apply bind_inv in H as [(out & s1 & H & [= <- <-])|[(e & H & ->)|(k & H & ->)]];
    apply removeConfigFiles_spec in H as (removed & -> & Hf & Hr); try done;
    (split; [done|]); exists removed; split_and!; eauto.
Qed.

Lemma main_trail s r s' : main s = (r, s') -> trail s r s'.
Proof.
  unfold main. intros H.
  apply bind_inv in H as [(c & s1 & Hdet & H)|[(e & Hdet & ->)|(k & Hdet & ->)]];
    pose proof Hdet as Hdet'; apply findExistingConfigs_inv in Hdet' as (-> & Hk & _);
    [|by constructor|by destruct (Hk k)].
  apply bind_inv in H as [([] & s2 & Hbk & H)|[(e & Hbk & ->)|(k & Hbk & ->)]];
    [|by econstructor|by apply backup_step_spec in Hbk as [Hk' _]; destruct (Hk' k)].
  destruct (detectPackageManager_total s2) as [pm Hpm].
  unfold bind at 1 in H. rewrite Hpm in H.
  unfold bind at 1 in H. rewrite install_step_eq in H.
  destruct (spawn (install_command pm) (fs s2)) as [fs3|] eqn:Hspawn.
  2:{ injection H as <- <-. by econstructor. }
  unfold bind at 1 in H.
  destruct (generate_step _) as [[[]|e|k] s4] eqn:Hgen.
  2:{ injection H as <- <-. rewrite generate_step_eq in Hgen.
      destruct (fault OpWrite "biome.json") eqn:Hf; [|done].
      injection Hgen as <- <-. by econstructor. }
  2:{ rewrite generate_step_eq in Hgen. by destruct (fault OpWrite "biome.json"). }
  unfold bind at 1, update_step, bind at 1 in H.
  destruct (updatePackageJson s4) as [[rf|e|k] s5] eqn:Hupd.
  2:{ injection H as <- <-. pose proof Hupd as Hupd'.
      apply updatePackageJson_state in Hupd' as ->. by econstructor. }
  2:{ by apply updatePackageJson_state in Hupd. }
  cbn [ret] in H.
  destruct (packages_step_spec pm s5) as (s6 & Hpk & _).
  unfold bind at 1 in H. rewrite Hpk in H.
  by econstructor.
Qed.

Lemma copy_into_other files l : forall dir (f : string),
  f ∉ l -> copy_into files dir l !! f = dir !! f.
Proof.
  induction l as [|g l IH]; intros dir f Hf; [done|].
  apply not_elem_of_cons in Hf as [Hne Hf]. cbn [copy_into foldl].
  fold (copy_into files (match files !! g with Some c => <[g := c]> dir | None => dir end) l).
  rewrite IH by done. destruct (files !! g); [|done].
  by rewrite lookup_insert_ne.
Qed.

(** After the copies, the directory holds each copied file as it is in
    the root. *)
Lemma copy_into_lookup files l : forall dir (f : string),
  f ∈ l -> is_Some (files !! f) -> copy_into files dir l !! f = files !! f.
Proof.
  induction l as [|g l IH]; intros dir f Hf [c Hc]; [by apply elem_of_nil in Hf|].
  cbn [copy_into foldl].
  fold (copy_into files (match files !! g with Some c => <[g := c]> dir | None => dir end) l).
  destruct (decide (f ∈ l)) as [Hin|Hnin]; [by apply IH; eauto|].
  apply elem_of_cons in Hf as [->|Hf]; [|done].
  rewrite copy_into_other by done. rewrite Hc. by rewrite lookup_insert_eq.
Qed.

Lemma elem_of_copyable files l (f : string) :
  f ∈ copyable files l <-> f ∈ l /\ standalone f = true /\ present files f = true.
Proof.
  unfold copyable. by rewrite !list_elem_of_In, filter_In, andb_true_iff.
Qed.

Lemma backup_event_not_unlink e f : backup_event e -> e <> EUnlink f.
Proof. intros [->|[g ->]]; done. Qed.

Lemma unlink_in_backup_events evs f : Forall backup_event evs -> EUnlink f ∉ evs.
Proof.
  intros HF Hin. eapply Forall_forall in HF; [|exact Hin].
  by eapply backup_event_not_unlink.
Qed.

(** ** The claims *)

(** Membership in a trace written out event by event. *)
Ltac absent_from_literal H :=
  repeat (apply elem_of_cons in H as [H|H]; [discriminate H|]);
  by apply elem_of_nil in H.

(** The trace of a run that reaches step 8: the backup, the install, the
    two writes and at most one uninstall. *)
Lemma trace_before_removal c s s2 pm fs3 s4 rf s5 s6 :
  backup_step c s = (Ok tt, s2) ->
  generate_step (State fs3 (trace s2 ++ [EExec (install_command pm) true]))
    = (Ok tt, s4) ->
  updatePackageJson s4 = (Ok rf, s5) ->
  packages_step pm s5 = (Ok tt, s6) ->
  exists bk u,
    trace s6 = trace s ++ bk ++
      [EExec (install_command pm) true; EWrite "biome.json"; EWrite "package.json"]
      ++ u /\
    Forall backup_event bk /\
    (u = [] \/ exists toRemove ok, u = [EExec (uninstall_command pm toRemove) ok]).
Proof.
  intros Hbk Hgen Hupd Hpk.
  apply backup_step_spec in Hbk as (_ & _ & evs & Ht2 & Hev & _).
  rewrite generate_step_eq in Hgen.
  destruct (fault OpWrite "biome.json"); [done|]. injection Hgen as <-.
  destruct (packages_step_spec pm s5) as (s6' & Hpk' & Hs6).
  rewrite Hpk in Hpk'. injection Hpk' as <-.
  apply updatePackageJson_state in Hupd as [doc ->].
  destruct Hs6 as [->|(toRemove & ok & fs6 & _ & -> & _)]; cbn [trace]; rewrite Ht2.
  - exists evs, []. rewrite <- !app_assoc. cbn. eauto.
  - exists evs, [EExec (uninstall_command pm toRemove) ok].
    rewrite <- !app_assoc. cbn. split_and!; eauto.
Qed.

Lemma no_unlink_before_removal bk pm u f :
  Forall backup_event bk ->
  (u = [] \/ exists toRemove ok, u = [EExec (uninstall_command pm toRemove) ok]) ->
  EUnlink f ∉ bk ++
    [EExec (install_command pm) true; EWrite "biome.json"; EWrite "package.json"] ++ u.
Proof.
  intros Hbk Hu [Hin|Hin]%elem_of_app; [by eapply unlink_in_backup_events|].
  apply elem_of_app in Hin as [Hin|Hin]; [absent_from_literal Hin|].
  destruct Hu as [->|(toRemove & ok & ->)]; absent_from_literal Hin.
Qed.

(** C1.  In any run, a file that step 8 unlinks is one of the detected
    entries that step 2 copied: it is in the list that [backupConfigs]
    returned, and the backup directory held its content before anything
    else was done to the project. *)
Theorem deletion_only_after_backup s :
  exists evs,
    trace (run s).2 = trace s ++ evs /\
    forall f, EUnlink f ∈ evs ->
      exists c rec s1 dir,
        findExistingConfigs s = (Ok c, s) /\
        backupConfigs c s = (Ok rec, s1) /\
        f ∈ entries c /\ f ∈ backedUp rec /\
        backup (fs s1) = Some dir /\
        is_Some (root (fs s) !! f) /\ dir !! f = root (fs s) !! f.
Proof.
  unfold run. destruct (main s) as [r s'] eqn:Hrun.
  assert (Hgoal : exists evs, trace s' = trace s ++ evs /\
    forall f, EUnlink f ∈ evs ->
      exists c rec s1 dir,
        findExistingConfigs s = (Ok c, s) /\
        backupConfigs c s = (Ok rec, s1) /\
        f ∈ entries c /\ f ∈ backedUp rec /\
        backup (fs s1) = Some dir /\
        is_Some (root (fs s) !! f) /\ dir !! f = root (fs s) !! f);
    [|by destruct r].
  apply main_trail in Hrun.
  destruct Hrun as [e Hdet|c e s2 Hdet Hbk|c s2 pm Hdet Hbk Hpm Hsp
                   |c s2 pm fs3 e Hdet Hbk Hpm Hsp Hf He
                   |c s2 pm fs3 s4 e Hdet Hbk Hpm Hsp Hgen Hupd
                   |c s2 pm fs3 s4 rf s5 s6 r s' Hdet Hbk Hpm Hsp Hgen Hupd Hpk Hrm].
  - exists []. rewrite app_nil_r. split; [done|]. intros f Hin. by apply elem_of_nil in Hin.
  - apply backup_step_spec in Hbk as (_ & _ & evs & Ht & Hev & _).
    exists evs. split; [done|]. intros f Hin. exfalso. by eapply unlink_in_backup_events.
  - apply backup_step_spec in Hbk as (_ & _ & evs & Ht & Hev & _).
    exists (evs ++ [EExec (install_command pm) false]). cbn [trace].
    rewrite Ht, <- app_assoc. split; [done|].
    intros f [Hin|Hin]%elem_of_app; exfalso;
      [by eapply unlink_in_backup_events|absent_from_literal Hin].
  - apply backup_step_spec in Hbk as (_ & _ & evs & Ht & Hev & _).
    exists (evs ++ [EExec (install_command pm) true]). cbn [trace].
    rewrite Ht, <- app_assoc. split; [done|].
    intros f [Hin|Hin]%elem_of_app; exfalso;
      [by eapply unlink_in_backup_events|absent_from_literal Hin].
  - apply backup_step_spec in Hbk as (_ & _ & evs & Ht & Hev & _).
    rewrite generate_step_eq in Hgen.
    destruct (fault OpWrite "biome.json"); [done|]. injection Hgen as <-.
    exists (evs ++ [EExec (install_command pm) true; EWrite "biome.json"]). cbn [trace].
    rewrite Ht, <- !app_assoc. split; [done|].
    intros f [Hin|Hin]%elem_of_app; exfalso;
      [by eapply unlink_in_backup_events|absent_from_literal Hin].
  - destruct (trace_before_removal _ _ _ _ _ _ _ _ _ Hbk Hgen Hupd Hpk)
      as (bk & u & Ht6 & Hev & Hu).
    apply files_step_spec in Hrm as (_ & removed & -> & Hrem & Hany).
    eexists. cbn [trace]. rewrite Ht6, <- app_assoc. split; [done|].
    intros f [Hin|Hin]%elem_of_app;
      [exfalso; by eapply no_unlink_before_removal|].
    apply list_elem_of_fmap in Hin as (g & [= <-] & Hin).
    eapply Forall_forall in Hrem as (Hent & Hst & _); [|exact Hin].
    assert (Hpres : present (root (fs s)) f = true).
    { eapply detected_file_present; eauto. by rewrite Hdet. }
    assert (Hne : removed <> []) by (intros ->; by apply elem_of_nil in Hin).
    apply Hany in Hne.
    pose proof Hbk as Hbk'.
    apply backup_step_spec in Hbk' as (_ & _ & _ & _ & _ & _ & Hrec).
    destruct (Hrec Hne eq_refl) as (rec & Hb & Hcopied).
    pose proof Hb as Hb'.
    apply backupConfigs_spec in Hb' as [(_ & _ & _ & ?)|(copied & _ & Hs2 & _ & Hr)]; [done|].
    destruct Hr as [-> Hc].
    assert (Hin' : f ∈ copied) by (rewrite Hc; by apply elem_of_copyable).
    apply bool_decide_eq_true in Hpres.
    exists c, (BackupRecord ".biome-migration-backup" copied), s2,
      (copy_into (root (fs s)) (default ∅ (backup (fs s))) copied).
    split_and!; eauto.
    + by rewrite Hs2.
    + by apply copy_into_lookup.
Qed.

Lemma install_not_uninstall pm pm' toRemove :
  install_command pm <> uninstall_command pm' toRemove.
Proof. destruct pm, pm'; cbn; discriminate. Qed.

Lemma run_of_main s r s' :
  main s = (r, s') ->
  run s = (match r with Ok _ => 0 | Throw _ => 1 | Exit code => code end, s').
Proof. unfold run. intros ->. by destruct r. Qed.

(** C2.  If the events of a run include an install command that failed,
    the process exits with status 1, the files under the root are those
    the run began with, and the run did nothing but make the backup
    directory, copy into it and try the install. *)
Theorem failed_install_aborts s pm evs :
  trace (run s).2 = trace s ++ evs ->
  EExec (install_command pm) false ∈ evs ->
  (run s).1 = 1 /\
  root (fs (run s).2) = root (fs s) /\
  exists bk, evs = bk ++ [EExec (install_command pm) false] /\ Forall backup_event bk.
Proof.
  destruct (main s) as [r s'] eqn:Hrun. rewrite (run_of_main _ _ _ Hrun).
  cbn [fst snd]. intros Ht Hin. apply main_trail in Hrun.
  assert (Hbkev : forall bk, Forall backup_event bk ->
                    EExec (install_command pm) false ∉ bk).
  { intros bk HF Hb. eapply Forall_forall in HF as [?|[? ?]]; [| |exact Hb]; done. }
  destruct Hrun as [e Hdet|c e s2 Hdet Hbk|c s2 pm' Hdet Hbk Hpm Hsp
                   |c s2 pm' fs3 e Hdet Hbk Hpm Hsp Hf He
                   |c s2 pm' fs3 s4 e Hdet Hbk Hpm Hsp Hgen Hupd
                   |c s2 pm' fs3 s4 rf s5 s6 r s' Hdet Hbk Hpm Hsp Hgen Hupd Hpk Hrm].
  - exfalso. rewrite <- (app_nil_r (trace s)) in Ht at 1. apply app_inv_head in Ht as <-.
    by apply elem_of_nil in Hin.
  - exfalso. apply backup_step_spec in Hbk as (_ & _ & bk & Ht' & Hev & _).
    rewrite Ht' in Ht. apply app_inv_head in Ht as <-. by eapply Hbkev.
  - apply backup_step_spec in Hbk as (_ & Hroot & bk & Ht' & Hev & _).
    cbn [trace fs] in *. rewrite Ht', <- app_assoc in Ht. apply app_inv_head in Ht as <-.
    apply elem_of_app in Hin as [Hin|Hin]; [by apply Hbkev in Hin|].
    apply list_elem_of_singleton in Hin as [= ->]. eauto.
  - exfalso. apply backup_step_spec in Hbk as (_ & _ & bk & Ht' & Hev & _).
    cbn [trace] in Ht. rewrite Ht', <- app_assoc in Ht. apply app_inv_head in Ht as <-.
    apply elem_of_app in Hin as [Hin|Hin]; [by apply Hbkev in Hin|].
    absent_from_literal Hin.
  - exfalso. apply backup_step_spec in Hbk as (_ & _ & bk & Ht' & Hev & _).
    rewrite generate_step_eq in Hgen.
    destruct (fault OpWrite "biome.json"); [done|]. injection Hgen as <-.
    cbn [trace] in Ht. rewrite Ht', <- !app_assoc in Ht. apply app_inv_head in Ht as <-.
    apply elem_of_app in Hin as [Hin|Hin]; [by apply Hbkev in Hin|].
    absent_from_literal Hin.
  - exfalso.
    destruct (trace_before_removal _ _ _ _ _ _ _ _ _ Hbk Hgen Hupd Hpk)
      as (bk & u & Ht6 & Hev & Hu).
    apply files_step_spec in Hrm as (_ & removed & -> & _).
    cbn [trace] in Ht. rewrite Ht6, <- !app_assoc in Ht. apply app_inv_head in Ht as <-.
    apply elem_of_app in Hin as [Hin|Hin]; [by apply Hbkev in Hin|].
    apply elem_of_app in Hin as [Hin|Hin]; [absent_from_literal Hin|].
    apply elem_of_app in Hin as [Hin|Hin].
    + destruct Hu as [->|(toRemove & ok & ->)]; [by apply elem_of_nil in Hin|].
      apply list_elem_of_singleton in Hin as [= Heq _].
      by apply install_not_uninstall in Heq.
    + by apply list_elem_of_fmap in Hin as (? & ? & _).
Qed.

Lemma any_config_entries c : any_config c = true <-> entries c <> [].
Proof.
  unfold any_config, entries. destruct c as [[|x l] [|y l']]; cbn; split; try done.
  all: intros _; apply orb_true_iff; (left + right); apply bool_decide_eq_true; lia.
Qed.

(** C3, as the script has it.  When the copy of one detected file fails,
    the run stops there with exit status 1: the files listed before the
    first one that fails have been copied, nothing listed after it is, and
    nothing else is done, so no file is deleted and the root is as it
    was. *)
Theorem copy_failure_aborts s c f :
  findExistingConfigs s = (Ok c, s) ->
  f ∈ entries c -> standalone f = true -> fault OpCopy f = true ->
  (backup (fs s) = None -> fault OpMkdir ".biome-migration-backup" = false) ->
  (run s).1 = 1 /\
  root (fs (run s).2) = root (fs s) /\
  exists l1 g l2,
    entries c = l1 ++ g :: l2 /\
    fault OpCopy g = true /\
    Forall (fun h => fault OpCopy h = false) (copyable (root (fs s)) l1) /\
    trace (run s).2 =
      trace s ++ match backup (fs s) with Some _ => [] | None => [EMkdir] end
              ++ map ECopy (copyable (root (fs s)) l1).
Proof.
  intros Hdet Hin Hst Hfault Hmk.
  assert (Hany : any_config c = true).
  { apply any_config_entries. intros Heq. rewrite Heq in Hin. by apply elem_of_nil in Hin. }
  assert (Hpres : present (root (fs s)) f = true).
  { eapply detected_file_present; eauto. by rewrite Hdet. }
  destruct (backupConfigs c s) as [r s2] eqn:Hb.
  pose proof Hb as Hb'.
  apply backupConfigs_spec in Hb' as [(Hnone & Hmk' & _)|(copied & _ & -> & Hf & Hr)].
  { rewrite Hmk in Hmk'; done. }
  destruct r as [rec|e|k]; [|clear Hin|done].
  { exfalso. destruct Hr as [_ ->].
    eapply Forall_forall in Hf; [|by apply elem_of_copyable]. congruence. }
  destruct Hr as (l1 & g & l2 & Hsplit & -> & Hg & _ & Hgf & ->).
  assert (Hmain : main s = (Throw (EIO OpCopy g),
    State (FileSys (root (fs s))
             (Some (copy_into (root (fs s)) (default ∅ (backup (fs s)))
                      (copyable (root (fs s)) l1))))
          (trace s ++ match backup (fs s) with Some _ => [] | None => [EMkdir] end
                   ++ map ECopy (copyable (root (fs s)) l1)))).
  { unfold main, bind at 1. rewrite Hdet.
    unfold bind at 1, backup_step. rewrite Hany. unfold bind at 1. by rewrite Hb. }
  rewrite (run_of_main _ _ _ Hmain). cbn [fst snd fs root trace].
  split_and!; [done..|]. exists l1, g, l2. split_and!; eauto.
Qed.

Lemma get_prop_parse_None doc k : get_prop (JSON_parse doc) k = None <-> doc = JNull.
Proof. by destruct doc. Qed.

(** C4, as the script has it.  Detection never changes anything, and it
    returns a set of configurations exactly when the manifest is absent,
    or can be read and parses to a document other than [null].  With a
    manifest that is there but unreadable or malformed it throws, and the
    run ends with exit status 1, the project untouched. *)
Theorem detection_throws_on_bad_manifest s :
  (findExistingConfigs s).2 = s /\
  ((exists c, (findExistingConfigs s).1 = Ok c) <->
     root (fs s) !! "package.json" = None \/
     (fault OpRead "package.json" = false /\
      exists doc, root (fs s) !! "package.json" = Some (Json doc) /\ doc <> JNull)) /\
  (forall e, (findExistingConfigs s).1 = Throw e -> run s = (1, s)).
Proof.
  split; [apply findExistingConfigs_state|]. split.
  - unfold findExistingConfigs, bind. rewrite !forEach_push_exists.
    unfold existsSync at 1.
    destruct (bool_decide (is_Some (root (fs s) !! "package.json"))) eqn:Hex.
    2:{ apply bool_decide_eq_false in Hex.
        destruct (root (fs s) !! "package.json") eqn:Hpkg; [by destruct Hex; eauto|].
        cbn. split; eauto. }
    apply bool_decide_eq_true in Hex as [cont Hpkg].
    unfold read_manifest, bind, readFileSync. rewrite Hpkg.
    destruct (fault OpRead "package.json"); cbn.
    { split; [by intros [? ?]|]. intros [?|[? _]]; done. }
    destruct cont as [doc|text]; cbn.
    2:{ split; [by intros [? ?]|]. intros [?|[_ (doc & ? & ?)]]; done. }
    destruct (get_prop (JSON_parse doc) "eslintConfig") as [ec|] eqn:Hec; cbn.
    2:{ apply get_prop_parse_None in Hec as ->.
        split; [by intros [? ?]|]. intros [?|[_ (doc & [= <-] & ?)]]; done. }
    destruct (get_prop (JSON_parse doc) "prettier") as [pc|] eqn:Hpc; cbn.
    2:{ apply get_prop_parse_None in Hpc as ->. done. }
    split; [|by eauto]. intros _. right. split; [done|]. exists doc. split; [done|].
    intros ->. done.
  - intros e He. unfold run, main, bind at 1.
    destruct (findExistingConfigs s) as [r s'] eqn:Hdet. cbn in He. subst r.
    by apply findExistingConfigs_inv in Hdet as (-> & _).
Qed.

(** C5, as the script has it.  [updatePackageJson] is called outside any
    [try]: when steps 1 to 5 have gone through and the manifest update
    throws, [main] throws the same error from the very state step 6 began
    in, so the process exits with status 1 and neither the removal of the
    packages nor the removal of the files is run. *)
Theorem manifest_failure_is_fatal s c s2 pm fs3 s4 e s' :
  findExistingConfigs s = (Ok c, s) ->
  backup_step c s = (Ok tt, s2) ->
  detectPackageManager s2 = (Ok pm, s2) ->
  spawn (install_command pm) (fs s2) = Some fs3 ->
  generate_step (State fs3 (trace s2 ++ [EExec (install_command pm) true])) = (Ok tt, s4) ->
  updatePackageJson s4 = (Throw e, s') ->
  s' = s4 /\ main s = (Throw e, s4) /\ run s = (1, s4).
Proof.
  intros Hdet Hbk Hpm Hsp Hgen Hupd.
  pose proof Hupd as Hs. apply updatePackageJson_state in Hs as ->.
  assert (Hmain : main s = (Throw e, s4)).
  { unfold main, bind at 1. rewrite Hdet. unfold bind at 1. rewrite Hbk.
    unfold bind at 1. rewrite Hpm. unfold bind at 1. rewrite install_step_eq, Hsp.
    unfold bind at 1. rewrite Hgen. unfold bind at 1, update_step, bind at 1.
    by rewrite Hupd. }
  split_and!; [done..|]. by rewrite (run_of_main _ _ _ Hmain).
Qed.

(** C8.  With nothing but fields of the manifest among the entries, the
    backup still runs: it makes the directory when it is not there, copies
    nothing into it, and returns an empty list.  A directory it has just
    made is therefore empty. *)
Theorem backup_with_only_fields c s :
  any_config c = true ->
  Forall (fun f => standalone f = false) (entries c) ->
  (backup (fs s) = None -> fault OpMkdir ".biome-migration-backup" = false) ->
  let s' := State (FileSys (root (fs s)) (Some (default ∅ (backup (fs s)))))
                  (trace s ++ match backup (fs s) with
                              | Some _ => []
                              | None => [EMkdir]
                              end) in
  backupConfigs c s = (Ok (BackupRecord ".biome-migration-backup" []), s') /\
  backup_step c s = (Ok tt, s') /\
  (backup (fs s) = None -> backup (fs s') = Some ∅).
Proof.
  intros Hany Hfields Hmk s'.
  assert (Hnone : copyable (root (fs s)) (entries c) = []).
  { unfold copyable. induction (entries c) as [|f l IH]; [done|].
    apply Forall_cons in Hfields as [Hf Hl]. cbn. rewrite Hf. cbn. by apply IH. }
  assert (Hb : backupConfigs c s = (Ok (BackupRecord ".biome-migration-backup" []), s')).
  { destruct (backupConfigs c s) as [r s1] eqn:Hb.
    apply backupConfigs_spec in Hb as [(Hn & Hm & _)|(copied & _ & -> & _ & Hr)].
    { rewrite Hmk in Hm; done. }
    destruct r as [rec|e|k]; [| |done].
    - destruct Hr as [-> ->]. rewrite Hnone. cbn [map copy_into foldl].
      by rewrite app_nil_r.
    - destruct Hr as (l1 & g & l2 & Hsplit & _ & Hg & _).
      rewrite Hsplit in Hfields. apply Forall_app in Hfields as [_ Hfields].
      apply Forall_cons in Hfields as [Hfields _]. congruence. }
  split_and!; [done| |by intros Hn; subst s'; cbn; rewrite Hn].
  unfold backup_step. rewrite Hany. unfold bind. by rewrite Hb.
Qed.

(** *** Entries that are no longer there *)

Lemma backup_one_missing f s :
  root (fs s) !! f = None -> backup_one f s = (Ok [], s).
Proof.
  intros Hf. unfold backup_one. destruct (includes f "package.json"); [done|].
  unfold bind, existsSync. rewrite Hf.
  by rewrite bool_decide_eq_false_2 by (intros [? ?]; done).
Qed.

Lemma remove_one_missing f s :
  root (fs s) !! f = None -> remove_one f s = (Ok [], s).
Proof.
  intros Hf. unfold remove_one. destruct (includes f "package.json"); [done|].
  unfold bind, existsSync. rewrite Hf.
  by rewrite bool_decide_eq_false_2 by (intros [? ?]; done).
Qed.

Lemma backup_one_root g s r s' : backup_one g s = (r, s') -> root (fs s') = root (fs s).
Proof.
  unfold backup_one. destruct (includes g "package.json"); [by intros [= <- <-]|].
  unfold bind, existsSync. destruct (bool_decide _); [|by intros [= <- <-]].
  unfold copyFileSync.
  destruct (root (fs s) !! g), (backup (fs s)); try destruct (fault OpCopy g);
    by intros [= <- <-].
Qed.

Lemma remove_one_root g s r s' (f : string) :
  remove_one g s = (r, s') -> root (fs s) !! f = None -> root (fs s') !! f = None.
Proof.
  unfold remove_one. destruct (includes g "package.json"); [by intros [= <- <-]|].
  unfold bind, existsSync. destruct (bool_decide _); [|by intros [= <- <-]].
  unfold unlinkSync.
  destruct (root (fs s) !! g); try destruct (fault OpUnlink g);
    intros [= <- <-]; try done.
  cbn. intros Hf. by rewrite lookup_delete_None; right.
Qed.

(** A loop whose body does nothing for [f], and never brings [f] back,
    runs as if [f] were not listed. *)
Lemma forEach_push_skip (body : string -> M (list string)) (f : string) :
  (forall s, root (fs s) !! f = None -> body f s = (Ok [], s)) ->
  (forall g s r s', body g s = (r, s') ->
     root (fs s) !! f = None -> root (fs s') !! f = None) ->
  forall l s, root (fs s) !! f = None ->
    forEach_push body l s = forEach_push body (filter (fun g => g <> f) l) s.
Proof.
  intros Hskip Hkeep. induction l as [|g l IH]; intros s Hf; [done|].
  destruct (decide (g = f)) as [->|Hne].
  - rewrite filter_cons_False by (intros ?; done).
    cbn [forEach_push]. unfold bind at 1. rewrite Hskip by done.
    rewrite <- IH by done. unfold bind.
    by destruct (forEach_push body l s) as [[more|e|k] s1].
  - rewrite filter_cons_True by done. cbn [forEach_push]. unfold bind at 1 3.
    destruct (body g s) as [[pushed|e|k] s1] eqn:Hg; [|done..].
    apply Hkeep in Hg; [|done]. unfold bind. by rewrite IH.
Qed.

Lemma copied_files_present c s rec s' f :
  backupConfigs c s = (Ok rec, s') -> f ∈ backedUp rec -> is_Some (root (fs s) !! f).
Proof.
  intros Hb Hin.
  apply backupConfigs_spec in Hb as [(_ & _ & _ & ?)|(copied & _ & _ & _ & -> & ->)];
    [done|].
  apply elem_of_copyable in Hin as (_ & _ & Hp). by apply bool_decide_eq_true in Hp.
Qed.

(** C10.  An entry whose file is gone when the step runs is skipped by
    the backup and by the removal alike: each behaves exactly as it would
    without the entry, and the file is not in the list it returns. *)
Theorem missing_file_is_skipped c s f :
  root (fs s) !! f = None ->
  backupConfigs c s = backupConfigs (without f c) s /\
  removeConfigFiles c s = removeConfigFiles (without f c) s /\
  (forall rec s', backupConfigs c s = (Ok rec, s') -> f ∉ backedUp rec) /\
  (forall removed s', removeConfigFiles c s = (Ok removed, s') -> f ∉ removed).
Proof.
  intros Hf. split_and!.
  - assert (Hloop : forall s2, root (fs s2) = root (fs s) ->
      forEach_push backup_one (eslint c ++ prettier c) s2 =
      forEach_push backup_one (filter (fun g => g <> f) (eslint c ++ prettier c)) s2).
    { intros s2 Hroot. apply forEach_push_skip.
      - apply backup_one_missing.
      - intros g s0 r s0' Hg. by rewrite (backup_one_root _ _ _ _ Hg).
      - by rewrite Hroot. }
    unfold backupConfigs, without, bind. cbn [eslint prettier]. rewrite <- filter_app.
    unfold existsSync_backupDir. cbv beta iota.
    destruct (bool_decide (is_Some (backup (fs s)))); cbn [negb].
    + unfold ret at 1 3. cbv beta iota. by rewrite Hloop.
    + unfold mkdirSync_backupDir. destruct (fault OpMkdir _); [done|].
      by rewrite Hloop.
  - unfold removeConfigFiles, without. cbn [eslint prettier]. rewrite <- filter_app.
    apply forEach_push_skip; eauto using remove_one_missing, remove_one_root.
  - intros rec s' Hb Hin. eapply copied_files_present in Hin as [? ?]; [|exact Hb]. congruence.
  - intros removed s' Hr Hin.
    apply removeConfigFiles_spec in Hr as (removed' & _ & HF & ->).
    eapply Forall_forall in HF as (_ & _ & Hp); [|exact Hin].
    apply bool_decide_eq_true in Hp as [? ?]. congruence.
Qed.

(** *** The packages to remove *)

Lemma get_prop_total v k : v <> VNull -> exists x, get_prop v k = Some x.
Proof. destruct v; try done; cbn; eauto. Qed.

Lemma truthy_not_null v : truthy v = true -> v <> VNull.
Proof. by destruct v. Qed.

Lemma dependency_entry_truthy pkg field name :
  pkg <> VNull ->
  exists x, dependency_entry pkg field name = Some x /\
    (truthy_opt x = true <-> truthy_entry pkg field name).
Proof.
  intros Hpkg. unfold dependency_entry, truthy_entry.
  destruct (get_prop_total pkg field Hpkg) as [[deps|] ->].
  2:{ exists None. split; [done|]. split; [done|]. by intros (? & ? & ? & _). }
  destruct (truthy deps) eqn:Hd.
  - destruct (get_prop_total deps name (truthy_not_null _ Hd)) as [x Hx].
    rewrite Hx. exists x. split; [done|]. split.
    + destruct x as [v|]; [|done]. cbn. intros Hv. exists deps, v. eauto.
    + intros (deps' & v & [= <-] & _ & Hv & Ht). rewrite Hx in Hv.
      injection Hv as ->. done.
  - exists (Some deps). split; [done|]. cbn. rewrite Hd. split; [done|].
    intros (deps' & v & [= <-] & Ht & _). congruence.
Qed.

Lemma wanted_spec pkg name :
  pkg <> VNull ->
  exists b, wanted pkg name = Some b /\
    (b = true <-> truthy_entry pkg "devDependencies" name \/
                  truthy_entry pkg "dependencies" name).
Proof.
  intros Hpkg. unfold wanted.
  destruct (dependency_entry_truthy pkg "devDependencies" name Hpkg) as (dev & -> & Hdev).
  destruct (dependency_entry_truthy pkg "dependencies" name Hpkg) as (dep & -> & Hdep).
  destruct (truthy_opt dev) eqn:Hd.
  - exists true. split; [done|]. split; [|done]. intros _. left. by apply Hdev.
  - exists (truthy_opt dep). split; [done|]. rewrite Hdep. split; [by right|].
    intros [H|H]; [|done]. apply Hdev in H. done.
Qed.

Lemma push_wanted_filter pkg l s :
  pkg <> VNull ->
  forEach_push (push_if_wanted pkg) l s = (Ok (List.filter (is_wanted pkg) l), s).
Proof.
  intros Hpkg. induction l as [|name l IH]; [done|].
  cbn [forEach_push List.filter]. unfold bind at 1, push_if_wanted at 1, bind at 1, is_wanted at 1.
  destruct (wanted_spec pkg name Hpkg) as (b & -> & _).
  unfold lift_js, ret at 1. cbv beta iota.
  destruct b; unfold ret at 1; cbv beta iota; unfold bind; by rewrite IH.
Qed.

Lemma parsed_get_prop doc k v :
  get_prop (JSON_parse doc) k = Some (Some v) -> exists j, v = JSON_parse j.
Proof.
  destruct doc as [ | | | |items|members]; try done.
  rewrite get_prop_parsed.
  destruct (prop_lookup k members) as [j|]; cbn; [|done]. intros [= <-]. eauto.
Qed.

Lemma truthy_entry_declared doc field name :
  field = "devDependencies" \/ field = "dependencies" ->
  versions_truthy (JSON_parse doc) ->
  truthy_entry (JSON_parse doc) field name <->
  lists_package (JSON_parse doc) field name = true.
Proof.
  intros Hfield Hv. unfold truthy_entry, lists_package. split.
  - intros (deps & v & Hdeps & _ & Hname & _). rewrite Hdeps.
    apply parsed_get_prop in Hdeps as [j ->].
    destruct j as [ | | | |items|members]; cbn in Hname |- *; try done.
    injection Hname as ->. by apply bool_decide_eq_true.
  - destruct (get_prop (JSON_parse doc) field) as [[deps|]|] eqn:Hdeps; try done.
    destruct deps as [ | | | | |deps]; try done.
    intros [v Hname]%bool_decide_eq_true.
    exists (VObj deps), v. split_and!; [done|done|by cbn; rewrite Hname|].
    eapply Hv; eauto.
Qed.

(** C6, as the script has it.  The names kept are those of the fixed list
    whose entry under [devDependencies] or [dependencies] is truthy; they
    are the declared ones as long as no declared package has a falsy
    value for its version.  The uninstall command is run once, for the
    names kept, and not at all when none is. *)
Theorem removeOldPackages_filters pm s doc :
  root (fs s) !! "package.json" = Some (Json doc) ->
  fault OpRead "package.json" = false ->
  doc <> JNull ->
  let pkg := JSON_parse doc in
  let toRemove := List.filter (is_wanted pkg) PACKAGES_TO_REMOVE in
  (forall name, is_wanted pkg name = true <->
     truthy_entry pkg "devDependencies" name \/ truthy_entry pkg "dependencies" name) /\
  (versions_truthy pkg -> toRemove = List.filter (declared pkg) PACKAGES_TO_REMOVE) /\
  removeOldPackages pm s =
    match toRemove with
    | [] => (Ok [], s)
    | _ :: _ =>
        match spawn (uninstall_command pm toRemove) (fs s) with
        | Some fs' =>
            (Ok toRemove,
             State fs' (trace s ++ [EExec (uninstall_command pm toRemove) true]))
        | None =>
            (Throw (CommandFailed (uninstall_command pm toRemove)),
             State (fs s) (trace s ++ [EExec (uninstall_command pm toRemove) false]))
        end
    end.
Proof.
  intros Hpkg Hread Hdoc pkg toRemove.
  assert (Hnn : pkg <> VNull) by (subst pkg; by destruct doc).
  assert (Hw : forall name, is_wanted pkg name = true <->
    truthy_entry pkg "devDependencies" name \/ truthy_entry pkg "dependencies" name).
  { intros name. unfold is_wanted.
    destruct (wanted_spec pkg name Hnn) as (b & -> & Hb). rewrite <- Hb.
    by destruct b. }
  split_and!; [done| |].
  - intros Hv. subst toRemove. apply List.filter_ext. intros name.
    apply eq_true_iff_eq. rewrite Hw. unfold declared. rewrite orb_true_iff.
    subst pkg. by rewrite !truthy_entry_declared by eauto.
  - unfold removeOldPackages, bind at 1, read_manifest, bind at 1, readFileSync.
    rewrite Hpkg, Hread. cbn [ret]. unfold bind at 1. fold pkg.
    rewrite push_wanted_filter by done. fold toRemove.
    destruct toRemove as [|name rest] eqn:Hrm; [done|].
    rewrite bool_decide_eq_false_2 by done. rewrite <- Hrm.
    unfold bind, execSync. by destruct (spawn _ _).
Qed.

(** *** The manifest update *)

Lemma assign_script_pure pkg entry s :
  assign_script pkg entry s =
  (match assign_script_value pkg entry with
   | Some pkg' => Ok pkg'
   | None => Throw TypeError
   end, s).
Proof.
  unfold assign_script, bind, assign_script_value.
  destruct (get_prop pkg "scripts") as [scripts|];
    cbn [mbind option_bind lift_js ret throw]; [|done].
  destruct (set_prop scripts entry.1 entry.2) as [scripts'|];
    cbn [mbind option_bind lift_js ret throw]; [|done].
  by destruct (set_prop (Some pkg) "scripts" scripts') as [pkg'|].
Qed.

Lemma assign_scripts_pure l : forall pkg s,
  forEach_fold assign_script pkg l s =
  (match foldl (fun acc entry => acc ≫= fun pkg => assign_script_value pkg entry)
               (Some pkg) l with
   | Some pkg' => Ok pkg'
   | None => Throw TypeError
   end, s).
Proof.
  assert (Hnone : forall l : list (string * value),
    foldl (fun acc entry => acc ≫= fun pkg => assign_script_value pkg entry) None l = None).
  { induction l0 as [|? ? IH]; [done|]. cbn. apply IH. }
  induction l as [|entry l IH]; intros pkg s; [done|].
  cbn [forEach_fold foldl mbind option_bind]. unfold bind at 1.
  rewrite assign_script_pure.
  destruct (assign_script_value pkg entry) as [pkg'|]; [apply IH|by rewrite Hnone].
Qed.

Lemma updatePackageJson_pure s :
  updatePackageJson s =
  match read_manifest s with
  | (Ok pkg, _) =>
      match rewrite_manifest pkg with
      | Some (pkg', removedFields) =>
          if fault OpWrite "package.json"
          then (Throw (EIO OpWrite "package.json"), s)
          else (Ok removedFields,
                State (FileSys (<["package.json" := Json (JSON_stringify pkg')]>
                                  (root (fs s)))
                               (backup (fs s)))
                      (trace s ++ [EWrite "package.json"]))
      | None => (Throw TypeError, s)
      end
  | (Throw e, _) => (Throw e, s)
  | (Exit k, _) => (Exit k, s)
  end.
Proof.
  unfold updatePackageJson, bind at 1.
  destruct (read_manifest s) as [[pkg|e|k] s1] eqn:Hread;
    apply read_manifest_state in Hread as [-> Hk]; [|done..].
  unfold rewrite_manifest, bind at 1.
  destruct (get_prop pkg "eslintConfig") as [ec|]; cbn [lift_js ret throw mbind option_bind];
    [|done].
  unfold bind at 1.
  destruct (get_prop _ "prettier") as [pc|]; cbn [lift_js ret throw mbind option_bind];
    [|done].
  unfold bind at 1.
  destruct (get_prop _ "scripts") as [sc|]; cbn [lift_js ret throw mbind option_bind];
    [|done].
  unfold bind at 1.
  destruct (set_prop _ "scripts" _) as [pkg3|]; cbn [lift_js ret throw mbind option_bind];
    [|done].
  unfold bind at 1. rewrite assign_scripts_pure.
  destruct (foldl _ (Some pkg3) scriptUpdates) as [pkg4|];
    cbn [lift_js ret throw mbind option_bind]; [|done].
  unfold bind, writeFileSync. by destruct (fault OpWrite "package.json").
Qed.

Lemma same_shell_trans a b c : same_shell a b -> same_shell b c -> same_shell a c.
Proof. destruct a, b, c; cbn; try done; congruence. Qed.

Lemma set_prop_shell pkg k x :
  same_shell pkg pkg ->
  exists pkg', set_prop (Some pkg) k x = Some pkg' /\ same_shell pkg pkg' /\
    get_prop pkg' k = Some (Some x) /\
    forall k', k <> k' -> get_prop pkg' k' = get_prop pkg k'.
Proof.
  destruct pkg; try done; intros _; eexists; (split; [reflexivity|]); cbn;
    (split_and!; [done|by rewrite prop_lookup_set_eq|]);
    intros k' Hk; by rewrite prop_lookup_set_ne.
Qed.

Lemma delete_prop_shell pkg k :
  same_shell pkg pkg ->
  same_shell pkg (delete_prop pkg k) /\
  get_prop (delete_prop pkg k) k = Some None /\
  forall k', k <> k' -> get_prop (delete_prop pkg k) k' = get_prop pkg k'.
Proof.
  destruct pkg; try done; intros _; cbn;
    (split_and!; [done|by rewrite prop_lookup_delete_eq|]);
    intros k' Hk; by rewrite prop_lookup_delete_ne.
Qed.

Lemma get_prop_shell pkg k : same_shell pkg pkg -> exists x, get_prop pkg k = Some x.
Proof. destruct pkg; try done; cbn; eauto. Qed.

Lemma assigned_not_null scripts entry : scripts <> VNull -> assigned scripts entry <> VNull.
Proof. by destruct scripts. Qed.

Lemma assigned_set scripts entry :
  scripts <> VNull ->
  set_prop (Some scripts) (fst entry) (snd entry) = Some (assigned scripts entry).
Proof. by destruct scripts. Qed.

Lemma assign_all_shell l : forall pkg scripts,
  same_shell pkg pkg ->
  get_prop pkg "scripts" = Some (Some scripts) -> scripts <> VNull ->
  exists pkg',
    foldl (fun acc entry => acc ≫= fun pkg => assign_script_value pkg entry)
          (Some pkg) l = Some pkg' /\
    same_shell pkg pkg' /\
    get_prop pkg' "scripts" = Some (Some (foldl assigned scripts l)) /\
    forall k, k <> "scripts" -> get_prop pkg' k = get_prop pkg k.
Proof.
  induction l as [|entry l IH]; intros pkg scripts Hshell Hsc Hnn.
  { exists pkg. eauto. }
  cbn [foldl mbind option_bind]. unfold assign_script_value at 2. rewrite Hsc.
  cbn [mbind option_bind]. rewrite assigned_set by done. cbn [mbind option_bind].
  destruct (set_prop_shell pkg "scripts" (assigned scripts entry) Hshell)
    as (pkg1 & -> & Hsh1 & Hget1 & Hframe1).
  destruct (IH pkg1 (assigned scripts entry)) as (pkg' & Hrun & Hsh & Hget & Hframe);
    [by destruct pkg, pkg1|done|by apply assigned_not_null|].
  exists pkg'. split_and!; [done|by eapply same_shell_trans|done|].
  intros k Hk. rewrite Hframe by done. by apply Hframe1.
Qed.

Lemma scripts_or_empty_not_null scripts : scripts_or_empty scripts <> VNull.
Proof.
  unfold scripts_or_empty. destruct (truthy_opt scripts) eqn:Ht; [|done].
  destruct scripts as [v|]; [|done]. by apply truthy_not_null.
Qed.

(** What the update makes of a manifest that is an object or an array. *)
Lemma rewrite_manifest_shell pkg :
  same_shell pkg pkg ->
  exists pkg' removedFields ec pc sc,
    rewrite_manifest pkg = Some (pkg', removedFields) /\
    same_shell pkg pkg' /\
    get_prop pkg "eslintConfig" = Some ec /\
    get_prop pkg "prettier" = Some pc /\
    get_prop pkg "scripts" = Some sc /\
    get_prop pkg' "scripts" =
      Some (Some (foldl assigned (scripts_or_empty sc) scriptUpdates)) /\
    get_prop pkg' "eslintConfig" = Some (if truthy_opt ec then None else ec) /\
    get_prop pkg' "prettier" = Some (if truthy_opt pc then None else pc) /\
    (forall k, k <> "scripts" -> k <> "eslintConfig" -> k <> "prettier" ->
       get_prop pkg' k = get_prop pkg k).
Proof.
  intros Hshell. unfold rewrite_manifest.
  destruct (get_prop_shell pkg "eslintConfig" Hshell) as [ec Hec]. rewrite Hec.
  cbn [mbind option_bind].
  set (pkg1 := if truthy_opt ec then delete_prop pkg "eslintConfig" else pkg).
  assert (H1 : same_shell pkg pkg1 /\
               get_prop pkg1 "eslintConfig" = Some (if truthy_opt ec then None else ec) /\
               forall k, "eslintConfig" <> k -> get_prop pkg1 k = get_prop pkg k).
  { subst pkg1. destruct (truthy_opt ec); [by apply delete_prop_shell|done]. }
  destruct H1 as (Hsh1 & Hec1 & Hfr1).
  assert (Hshell1 : same_shell pkg1 pkg1) by (by destruct pkg, pkg1).
  destruct (get_prop_shell pkg1 "prettier" Hshell1) as [pc Hpc]. rewrite Hpc.
  cbn [mbind option_bind].
  set (pkg2 := if truthy_opt pc then delete_prop pkg1 "prettier" else pkg1).
  assert (H2 : same_shell pkg1 pkg2 /\
               get_prop pkg2 "prettier" = Some (if truthy_opt pc then None else pc) /\
               forall k, "prettier" <> k -> get_prop pkg2 k = get_prop pkg1 k).
  { subst pkg2. destruct (truthy_opt pc); [by apply delete_prop_shell|done]. }
  destruct H2 as (Hsh2 & Hpc2 & Hfr2).
  assert (Hshell2 : same_shell pkg2 pkg2) by (by destruct pkg1, pkg2).
  destruct (get_prop_shell pkg2 "scripts" Hshell2) as [sc Hsc]. rewrite Hsc.
  cbn [mbind option_bind]. fold (scripts_or_empty sc).
  destruct (set_prop_shell pkg2 "scripts" (scripts_or_empty sc) Hshell2)
    as (pkg3 & -> & Hsh3 & Hget3 & Hfr3).
  cbn [mbind option_bind].
  destruct (assign_all_shell scriptUpdates pkg3 (scripts_or_empty sc))
    as (pkg4 & -> & Hsh4 & Hget4 & Hfr4);
    [by destruct pkg2, pkg3|done|apply scripts_or_empty_not_null|].
  cbn [mbind option_bind].
  exists pkg4, ((if truthy_opt ec then ["eslintConfig"] else []) ++
                (if truthy_opt pc then ["prettier"] else [])), ec, pc, sc.
  split_and!; try done.
  - eauto using same_shell_trans.
  - rewrite <- Hpc. symmetry. by apply Hfr1.
  - rewrite <- Hsc, Hfr2, Hfr1; done.
  - rewrite Hfr4, Hfr3, Hfr2, Hec1; done.
  - rewrite Hfr4, Hfr3, Hpc2; done.
  - intros k ? ? ?. rewrite Hfr4, Hfr3, Hfr2, Hfr1; done.
Qed.

Lemma rewrite_manifest_needs_shell pkg r :
  rewrite_manifest pkg = Some r -> same_shell pkg pkg.
Proof. by destruct pkg. Qed.

Lemma with_scripts_lookup scripts key cmd :
  (key, cmd) ∈ scriptUpdates -> prop_lookup key (with_scripts scripts) = Some cmd.
Proof.
  unfold with_scripts, scriptUpdates. cbn [foldl fst snd]. intros Hin.
  repeat (apply elem_of_cons in Hin as [[= -> ->]|Hin];
          [rewrite ?prop_lookup_set_ne by done; by rewrite prop_lookup_set_eq|]).
  by apply elem_of_nil in Hin.
Qed.

Lemma foldl_assigned_object l : forall scripts,
  foldl assigned (VObj scripts) l =
  VObj (foldl (fun acc entry => prop_set (fst entry) (snd entry) acc) scripts l).
Proof. induction l as [|entry l IH]; intros scripts; [done|]. cbn. apply IH. Qed.

Lemma written_lookup k members :
  JSON_stringify <$> (JSON_parse <$> prop_lookup k members) =
  reread <$> prop_lookup k members.
Proof. by destruct (prop_lookup k members). Qed.

(** The manifest on disk after an update of a manifest that is an object. *)
Lemma updatePackageJson_object s removedFields s' members :
  updatePackageJson s = (Ok removedFields, s') ->
  root (fs s) !! "package.json" = Some (Json (JObj members)) ->
  exists own',
    s' = State (FileSys (<["package.json" := Json (JSON_stringify (VObj own'))]>
                           (root (fs s)))
                        (backup (fs s)))
               (trace s ++ [EWrite "package.json"]) /\
    prop_lookup "scripts" own' =
      Some (foldl assigned
              (scripts_or_empty (JSON_parse <$> prop_lookup "scripts" members))
              scriptUpdates) /\
    (forall k, k <> "scripts" -> k <> "eslintConfig" -> k <> "prettier" ->
       prop_lookup k own' = JSON_parse <$> prop_lookup k members) /\
    (forall k, k = "eslintConfig" \/ k = "prettier" ->
       prop_lookup k own' =
         if truthy_opt (JSON_parse <$> prop_lookup k members) then None
         else JSON_parse <$> prop_lookup k members).
Proof.
  intros Hupd Hpkg. rewrite updatePackageJson_pure in Hupd.
  unfold read_manifest, bind, readFileSync in Hupd. rewrite Hpkg in Hupd.
  destruct (fault OpRead "package.json"); [done|]. cbn [ret] in Hupd.
  destruct (rewrite_manifest_shell (JSON_parse (JObj members)) I)
    as (pkg' & rf & ec & pc & sc & Hrw & Hsh & Hec & Hpc & Hsc & Hsc' & Hec' & Hpc' & Hfr).
  rewrite Hrw in Hupd. destruct (fault OpWrite "package.json"); [done|].
  injection Hupd as <- <-.
  cbn [JSON_parse same_shell] in Hsh. destruct pkg' as [ | | | | |own']; try done.
  rewrite get_prop_parsed in Hec, Hpc, Hsc.
  injection Hec as <-. injection Hpc as <-. injection Hsc as <-.
  cbn [get_prop] in Hsc', Hec', Hpc', Hfr.
  exists own'. split_and!; [done|by injection Hsc'| |].
  - intros k ? ? ?. specialize (Hfr k). rewrite get_prop_parsed in Hfr.
    by injection (Hfr ltac:(done) ltac:(done) ltac:(done)).
  - intros k [->| ->]; [by injection Hec'|by injection Hpc'].
Qed.

(** C9, as the script has it.  After a successful update of a manifest
    that is an object whose [scripts] member is absent, falsy or itself an
    object, [scripts] is an object holding the five entries with their
    fixed commands.  Every member other than [scripts], [eslintConfig]
    and [prettier] is there as parsing and writing render it: as it was
    whenever its value comes back from that as it was, which a number
    beyond the precision of a double does not, nor an object whose
    integer-like keys are out of order. *)
Theorem updatePackageJson_sets_scripts s removedFields s' members :
  updatePackageJson s = (Ok removedFields, s') ->
  root (fs s) !! "package.json" = Some (Json (JObj members)) ->
  match prop_lookup "scripts" members with
  | None | Some (JObj _) => True
  | Some other => truthy (JSON_parse other) = false
  end ->
  exists members' scripts',
    root (fs s') !! "package.json" = Some (Json (JObj members')) /\
    prop_lookup "scripts" members' = Some (JObj scripts') /\
    (forall key cmd, (key, VStr cmd) ∈ scriptUpdates ->
       prop_lookup key scripts' = Some (JStr cmd)) /\
    (forall k, k <> "scripts" -> k <> "eslintConfig" -> k <> "prettier" ->
       prop_lookup k members' = reread <$> prop_lookup k members) /\
    (forall k v, k <> "scripts" -> k <> "eslintConfig" -> k <> "prettier" ->
       prop_lookup k members = Some v -> round_trips v ->
       prop_lookup k members' = Some v).
Proof.
  intros Hupd Hpkg Hsc.
  destruct (updatePackageJson_object _ _ _ _ Hupd Hpkg) as (own' & -> & Hsc' & Hfr & _).
  assert (Hobj : exists scripts,
    scripts_or_empty (JSON_parse <$> prop_lookup "scripts" members) = VObj scripts).
  { unfold scripts_or_empty.
    destruct (prop_lookup "scripts" members) as [j|]; cbn; [|by eauto].
    destruct (truthy (JSON_parse j)) eqn:Ht; [|by eauto].
    destruct j; try congruence. cbn. eauto. }
  destruct Hobj as [scripts Hobj]. rewrite Hobj, foldl_assigned_object in Hsc'.
  fold (with_scripts scripts) in Hsc'.
  eexists _, _. cbn [fs root JSON_stringify]. rewrite lookup_insert_eq.
  split; [reflexivity|]. split_and!.
  - rewrite prop_lookup_map, Hsc'. reflexivity.
  - intros key cmd Hin. rewrite prop_lookup_map.
    by rewrite (with_scripts_lookup _ _ _ Hin).
  - intros k ? ? ?. rewrite prop_lookup_map, Hfr by done.
    apply written_lookup.
  - intros k v ? ? ? Hv Hback. rewrite prop_lookup_map, Hfr, Hv by done.
    cbn [fmap option_fmap option_map]. f_equal. exact Hback.
Qed.

(** *** Running twice *)

Lemma foldl_assigned_other l : forall scripts,
  match scripts with VObj _ | VNull => False | _ => True end ->
  JSON_stringify (foldl assigned scripts l) = JSON_stringify scripts.
Proof.
  induction l as [|entry l IH]; intros scripts Hs; [done|].
  cbn [foldl]. destruct scripts; try done; cbn; by rewrite IH.
Qed.

Lemma object_scripts_settled scripts :
  settled_scripts (JSON_stringify (foldl assigned (VObj scripts) scriptUpdates)).
Proof.
  rewrite foldl_assigned_object. fold (with_scripts scripts).
  cbn [JSON_stringify settled_scripts]. intros key cmd Hin.
  by rewrite prop_lookup_map, (with_scripts_lookup _ _ _ Hin).
Qed.

Lemma settled_scripts_steady z : settled_scripts z -> steady_scripts z.
Proof. by destruct z. Qed.

(** The [scripts] member the update writes holds the five entries when
    the old one was absent, falsy or an object. *)
Lemma new_scripts_settled (old : option json) :
  match old with
  | None | Some (JObj _) => True
  | Some other => truthy (JSON_parse other) = false
  end ->
  settled_scripts
    (JSON_stringify (foldl assigned (scripts_or_empty (JSON_parse <$> old)) scriptUpdates)).
Proof.
  intros Hold. unfold scripts_or_empty.
  destruct old as [z|]; cbn [fmap option_fmap option_map truthy_opt];
    [|apply object_scripts_settled].
  destruct (truthy (JSON_parse z)) eqn:Ht; cbn [default from_option id];
    [|apply object_scripts_settled].
  destruct z; try congruence. cbn [JSON_parse]. apply object_scripts_settled.
Qed.

(** Whatever the old [scripts] member was, a number too large for a
    double apart, the one the update writes is steady. *)
Lemma new_scripts_steady (old : option json) :
  match old with Some (JNum n) => fits_a_double n | _ => True end ->
  steady_scripts
    (JSON_stringify (foldl assigned (scripts_or_empty (JSON_parse <$> old)) scriptUpdates)).
Proof.
  intros Hold. unfold scripts_or_empty.
  destruct old as [z|]; cbn [fmap option_fmap option_map truthy_opt];
    [|apply settled_scripts_steady, object_scripts_settled].
  destruct (truthy (JSON_parse z)) eqn:Ht; cbn [default from_option id];
    [|apply settled_scripts_steady, object_scripts_settled].
  destruct z as [ |b|n|str|items|entries]; try done.
  - rewrite foldl_assigned_other by done.
    assert (Hw : truthy (JSON_parse (JSON_stringify (JSON_parse (JNum n)))) = true)
      by (by apply truthy_number_written).
    revert Hw. cbn [JSON_parse]. by destruct (to_double n).
  - cbn [JSON_parse]. apply settled_scripts_steady, object_scripts_settled.
Qed.

(** A steady [scripts] member keeps its five entries, or its lack of
    them, through another update. *)
Lemma steady_scripts_kept z key :
  steady_scripts z -> key ∈ map fst scriptUpdates ->
  match JSON_stringify (foldl assigned (scripts_or_empty (Some (JSON_parse z)))
                          scriptUpdates) with
  | JObj entries => prop_lookup key entries
  | _ => None
  end = match z with JObj entries => prop_lookup key entries | _ => None end.
Proof.
  intros Hz Hkey. unfold scripts_or_empty.
  destruct z as [ |b|n|str|items|entries]; try done;
    cbn [steady_scripts] in Hz; cbn [truthy_opt]; rewrite ?Hz;
    cbn [default from_option id].
  - by rewrite foldl_assigned_other.
  - rewrite foldl_assigned_other by done. cbn [JSON_parse].
    by destruct (to_double n).
  - by rewrite foldl_assigned_other.
  - cbn [truthy JSON_parse default from_option id]. rewrite foldl_assigned_object.
    match goal with |- context [foldl _ ?o scriptUpdates] => fold (with_scripts o) end.
    cbn [JSON_stringify]. rewrite prop_lookup_map.
    apply list_elem_of_fmap in Hkey as ([key' cmd] & -> & Hin). cbn [fst].
    rewrite (with_scripts_lookup _ _ _ Hin).
    assert (exists c, cmd = VStr c) as [c ->].
    { unfold scriptUpdates in Hin.
      repeat (apply elem_of_cons in Hin as [[= -> ->]|Hin]; [by eauto|]).
      by apply elem_of_nil in Hin. }
    cbn. symmetry. by apply Hz.
Qed.

Lemma foldl_delete_lookup (removed : list string) : forall (files : gmap string content) f,
  foldl (fun m g => delete g m) files removed !! f =
  if bool_decide (f ∈ removed) then None else files !! f.
Proof.
  induction removed as [|g removed IH]; intros files f; cbn [foldl]; [done|].
  rewrite IH. destruct (decide (f = g)) as [->|Hne].
  - rewrite lookup_delete_eq.
    rewrite (bool_decide_eq_true_2 (g ∈ g :: removed)) by (by apply elem_of_cons; left).
    by destruct (bool_decide _).
  - rewrite lookup_delete_ne by done.
    destruct (decide (f ∈ removed)) as [Hin|Hnin].
    + rewrite !bool_decide_eq_true_2; [done|by apply elem_of_cons; right|done].
    + rewrite !bool_decide_eq_false_2; [done|by intros [?|?]%elem_of_cons|done].
Qed.

(** A removal loop that comes to its end has unlinked every file among
    its entries. *)
Lemma remove_loop_done l : forall s out s' (f : string),
  forEach_push remove_one l s = (Ok out, s') ->
  f ∈ l -> standalone f = true -> root (fs s') !! f = None.
Proof.
  induction l as [|g l IH]; intros s out s' f Hrun Hin Hst;
    [by apply elem_of_nil in Hin|].
  cbn [forEach_push] in Hrun.
  apply bind_inv in Hrun as [(pushed & s1 & Hg & Hrun)|[(? & _ & ?)|(? & _ & ?)]];
    [|done..].
  apply bind_inv in Hrun as [(more & s2 & Hl & [= <- <-])|[(? & _ & ?)|(? & _ & ?)]];
    [|done..].
  destruct (decide (f ∈ l)) as [Hinl|Hninl]; [by eapply IH|].
  apply elem_of_cons in Hin as [->|Hin]; [|done].
  assert (Hgone : root (fs s1) !! g = None).
  { unfold remove_one in Hg. unfold standalone in Hst.
    destruct (includes g "package.json"); [done|].
    unfold bind, existsSync in Hg.
    destruct (root (fs s) !! g) as [c|] eqn:Hc.
    - rewrite bool_decide_eq_true_2 in Hg by eauto.
      unfold unlinkSync in Hg. rewrite Hc in Hg.
      destruct (fault OpUnlink g); [done|]. injection Hg as <- <-.
      cbn. apply lookup_delete_eq.
    - rewrite bool_decide_eq_false_2 in Hg by (intros [? ?]; done).
      by injection Hg as <- <-. }
  destruct s1 as [[files dir] t].
  apply remove_loop in Hl as (removed & -> & _). cbn [fs root] in *.
  rewrite foldl_delete_lookup. by destruct (bool_decide _).
Qed.

Lemma manifest_kept_settled before after :
  manifest_kept before after ->
  (settled_manifest before -> settled_manifest after) /\
  (forall key, script_entry after key = script_entry before key) /\
  ((exists doc, before = Some (Json doc)) -> exists doc, after = Some (Json doc)) /\
  (steady_manifest before -> steady_manifest after) /\
  (takes_scripts before -> takes_scripts after) /\
  (scripts_fit before -> scripts_fit after).
Proof.
  unfold manifest_kept. destruct before as [[doc|text]|]; try (intros ->; done).
  destruct doc as [ | | | | |members]; try (intros ->; done).
  intros (members' & -> & Hkept). cbn.
  rewrite !Hkept by done. split_and!; eauto.
Qed.

Lemma removed_when_truthy (x : option value) :
  truthy_opt (if truthy_opt x then None else x) = false.
Proof. by destruct (truthy_opt x) eqn:E. Qed.

(** A successful update changes no other file.  It leaves a settled
    manifest if the manifest was one that takes the scripts, and a steady
    one if its [scripts] member was not a number too large for a double;
    the five entries of a steady manifest are after the update what they
    were before. *)
Lemma update_settles s removedFields s' :
  updatePackageJson s = (Ok removedFields, s') ->
  fault OpRead "package.json" = false /\
  fault OpWrite "package.json" = false /\
  (takes_scripts (root (fs s) !! "package.json") ->
   settled_manifest (root (fs s') !! "package.json")) /\
  (scripts_fit (root (fs s) !! "package.json") ->
   steady_manifest (root (fs s') !! "package.json")) /\
  (steady_manifest (root (fs s) !! "package.json") ->
   forall key, key ∈ map fst scriptUpdates ->
     script_entry (root (fs s') !! "package.json") key =
     script_entry (root (fs s) !! "package.json") key) /\
  (forall f, f <> "package.json" -> root (fs s') !! f = root (fs s) !! f).
Proof.
  intros Hupd. rewrite updatePackageJson_pure in Hupd.
  unfold read_manifest, bind, readFileSync in Hupd.
  destruct (root (fs s) !! "package.json") as [[doc|text]|] eqn:Hpkg; [| |done].
  2:{ by destruct (fault OpRead "package.json"). }
  destruct (fault OpRead "package.json"); [done|]. cbn [ret] in Hupd.
  destruct (rewrite_manifest (JSON_parse doc)) as [[pkg' rf]|] eqn:Hrw; [|done].
  destruct (fault OpWrite "package.json"); [done|]. injection Hupd as <- <-.
  split; [done|]. split; [done|]. cbn [fs root]. rewrite lookup_insert_eq.
  pose proof (rewrite_manifest_needs_shell _ _ Hrw) as Hshell.
  destruct (rewrite_manifest_shell _ Hshell)
    as (pkg'' & rf' & ec & pc & sc & Hrw' & Hsh & Hec & Hpc & Hsc & Hsc' & Hec' & Hpc' & _).
  rewrite Hrw in Hrw'. injection Hrw' as <- <-.
  assert (Hrest : forall f, f <> "package.json" ->
    <["package.json" := Json (JSON_stringify pkg')]> (root (fs s)) !! f = root (fs s) !! f).
  { intros f Hf. by rewrite lookup_insert_ne. }
  destruct doc as [ | | | |items|members]; try done;
    cbn [JSON_parse same_shell] in Hsh;
    destruct pkg' as [ | | | |items' own'|own']; try done.
  rewrite get_prop_parsed in Hec, Hpc, Hsc.
  apply (inj Some) in Hec, Hpc, Hsc. subst ec pc sc.
  cbn [get_prop] in Hsc', Hec', Hpc'. apply (inj Some) in Hsc', Hec', Hpc'.
  cbn [JSON_stringify settled_manifest steady_manifest takes_scripts
       scripts_fit script_entry].
  rewrite !prop_lookup_map, Hec', Hpc', Hsc'.
  split_and!; [| | |done].
  - intros Htakes. split_and!; [by apply falsy_opt_written, removed_when_truthy..|].
    eexists. split; [reflexivity|]. by apply new_scripts_settled.
  - intros Hnn. split_and!; [by apply falsy_opt_written, removed_when_truthy..|].
    eexists. split; [reflexivity|]. apply new_scripts_steady.
    by destruct (prop_lookup "scripts" members) as [[]|].
  - intros (_ & _ & z & Hz & Hsteady) key Hkey. rewrite Hz.
    cbn [fmap option_fmap option_map]. by apply steady_scripts_kept.
Qed.

Lemma detected_entry_known s c f :
  (findExistingConfigs s).1 = Ok c ->
  f ∈ entries c -> standalone f = true ->
  f ∈ CONFIG_FILES_eslint ++ CONFIG_FILES_prettier.
Proof.
  intros Hc Hin Hf.
  destruct (findExistingConfigs_Ok _ _ Hc) as (e & p & He & Hp & Hes & Hps).
  unfold entries in Hin. rewrite He, Hp in Hin.
  pose proof known_files_standalone as Hk.
  rewrite forallb_app in Hk. apply andb_prop in Hk as [Hk1 Hk2].
  destruct fields_not_standalone as [F1 F2].
  apply elem_of_app in Hin as [Hin|Hin]; apply elem_of_app; [left|right].
  - eapply standalone_entry_of_filter in Hin as [? _]; eauto.
    destruct Hes as [-> | ->]; eauto.
  - eapply standalone_entry_of_filter in Hin as [? _]; eauto.
    destruct Hps as [-> | ->]; eauto.
Qed.

Lemma known_file_detected s c f :
  (findExistingConfigs s).1 = Ok c ->
  f ∈ CONFIG_FILES_eslint ++ CONFIG_FILES_prettier ->
  present (root (fs s)) f = true ->
  f ∈ entries c /\ standalone f = true.
Proof.
  intros Hc Hin Hp.
  destruct (findExistingConfigs_Ok _ _ Hc) as (e & p & He & Hpr & _).
  split.
  - unfold entries. rewrite He, Hpr.
    apply elem_of_app in Hin as [Hin|Hin]; apply elem_of_app; [left|right];
      apply elem_of_app; left; apply list_elem_of_In, filter_In;
      by rewrite <- list_elem_of_In.
  - pose proof known_files_standalone as Hk.
    rewrite forallb_forall in Hk. apply Hk. by apply list_elem_of_In.
Qed.

(** Step 8 when it comes to its end: every detected file is gone, no file
    has appeared, and nothing but legacy files has been touched. *)
Lemma files_step_done s0 c s s' :
  (findExistingConfigs s0).1 = Ok c ->
  files_step c s = (Ok tt, s') ->
  (forall f, f ∈ entries c -> standalone f = true -> root (fs s') !! f = None) /\
  (forall f, root (fs s) !! f = None -> root (fs s') !! f = None) /\
  (forall f, f ∉ CONFIG_FILES_eslint ++ CONFIG_FILES_prettier ->
     root (fs s') !! f = root (fs s) !! f).
Proof.
  intros Hc Hrun.
  assert (Hgone : forall f, f ∈ entries c -> standalone f = true ->
                    root (fs s') !! f = None).
  { intros f Hin Hst. unfold files_step in Hrun.
    assert (Ha : any_config c = true).
    { apply any_config_entries. intros Heq. rewrite Heq in Hin. by apply elem_of_nil in Hin. }
    rewrite Ha in Hrun.
    apply bind_inv in Hrun as [(out & s1 & Hrm & [= <-])|[(? & _ & ?)|(? & _ & ?)]];
      [|done..].
    by eapply remove_loop_done. }
  apply files_step_spec in Hrun as (_ & removed & -> & Hrem & Hany).
  cbn [fs root] in *. split_and!; [done| |].
  - intros f Hf. rewrite foldl_delete_lookup, Hf. by destruct (bool_decide _).
  - intros f Hf. rewrite foldl_delete_lookup. rewrite bool_decide_eq_false_2; [done|].
    intros Hin. eapply Forall_forall in Hrem as (Hent & Hst & _); [|exact Hin].
    apply Hf. by eapply detected_entry_known.
Qed.

Lemma run_zero s s1 :
  run s = (0, s1) ->
  exists c s2 pm fs3 s4 removedFields s5 s6,
    findExistingConfigs s = (Ok c, s) /\
    backup_step c s = (Ok tt, s2) /\
    detectPackageManager s2 = (Ok pm, s2) /\
    spawn (install_command pm) (fs s2) = Some fs3 /\
    generate_step (State fs3 (trace s2 ++ [EExec (install_command pm) true])) = (Ok tt, s4) /\
    updatePackageJson s4 = (Ok removedFields, s5) /\
    packages_step pm s5 = (Ok tt, s6) /\
    files_step c s6 = (Ok tt, s1).
Proof.
  destruct (main s) as [r s'] eqn:Hrun. rewrite (run_of_main _ _ _ Hrun).
  apply main_trail in Hrun. intros Heq.
  destruct Hrun as [e Hdet|c e s2 Hdet Hbk|c s2 pm Hdet Hbk Hpm Hsp
                   |c s2 pm fs3 e Hdet Hbk Hpm Hsp Hf He
                   |c s2 pm fs3 s4 e Hdet Hbk Hpm Hsp Hgen Hupd
                   |c s2 pm fs3 s4 rf s5 s6 r s' Hdet Hbk Hpm Hsp Hgen Hupd Hpk Hrm];
    try done.
  injection Heq as Hcode <-.
  pose proof Hrm as Hk. apply files_step_spec in Hk as [Hk _].
  destruct r as [[]|e|k]; [|done|by destruct (Hk k)].
  by exists c, s2, pm, fs3, s4, rf, s5, s6.
Qed.

(** What a run that ends with status 0 leaves: no legacy file, the
    generated [biome.json], and a manifest that is settled or steady
    according to what it was. *)
Lemma run_zero_leaves s s1 :
  keeps_project -> run s = (0, s1) ->
  (forall f, f ∈ CONFIG_FILES_eslint ++ CONFIG_FILES_prettier ->
     root (fs s1) !! f = None) /\
  root (fs s1) !! "biome.json" = Some (Json (JSON_stringify generateBiomeConfig)) /\
  (takes_scripts (root (fs s) !! "package.json") ->
   settled_manifest (root (fs s1) !! "package.json")) /\
  (scripts_fit (root (fs s) !! "package.json") ->
   steady_manifest (root (fs s1) !! "package.json")) /\
  writable.
Proof.
  intros Hkeep Hrun.
  apply run_zero in Hrun
    as (c & s2 & pm & fs3 & s4 & rf & s5 & s6 & Hdet & Hbk & Hpm & Hsp & Hgen & Hupd & Hpk & Hrm).
  assert (Hc : (findExistingConfigs s).1 = Ok c) by (by rewrite Hdet).
  apply backup_step_spec in Hbk as (_ & Hroot2 & _).
  destruct (Hkeep _ _ _ Hsp) as (Hleg3 & _ & Hm3).
  rewrite Hroot2 in Hm3.
  destruct (manifest_kept_settled _ _ Hm3) as (_ & _ & _ & _ & Htakes3 & Hnn3).
  rewrite generate_step_eq in Hgen.
  destruct (fault OpWrite "biome.json") eqn:Hwb; [done|]. injection Hgen as <-.
  apply update_settles in Hupd as (Hr & Hw & Hset5 & Hst5 & _ & Hfr5).
  cbn [fs root] in Hfr5, Hset5, Hst5.
  rewrite lookup_insert_ne in Hset5, Hst5 by done.
  assert (H6 : (forall f, f ∈ CONFIG_FILES_eslint ++ CONFIG_FILES_prettier ->
                  root (fs s6) !! f = root (fs s5) !! f) /\
               root (fs s6) !! "biome.json" = root (fs s5) !! "biome.json" /\
               (settled_manifest (root (fs s5) !! "package.json") ->
                settled_manifest (root (fs s6) !! "package.json")) /\
               (steady_manifest (root (fs s5) !! "package.json") ->
                steady_manifest (root (fs s6) !! "package.json"))).
  { destruct (packages_step_spec pm s5) as (s6' & Hpk' & Hs6).
    rewrite Hpk in Hpk'. injection Hpk' as <-.
    destruct Hs6 as [->|(toRemove & [|] & fs6 & _ & -> & Hspawn & Hno)]; [done| |].
    - destruct (Hkeep _ _ _ Hspawn) as (Hl & Hb & Hm). cbn [fs].
      destruct (manifest_kept_settled _ _ Hm) as (Hset & _ & _ & Hst & _).
      done.
    - rewrite Hno by done. done. }
  destruct H6 as (Hleg6 & Hbiome6 & Hset6 & Hst6).
  destruct (files_step_done _ _ _ _ Hc Hrm) as (Hgone & Hmono & Hframe).
  assert (Hpkg1 : root (fs s1) !! "package.json" = root (fs s6) !! "package.json").
  { by rewrite Hframe by (intros Hin; by destruct (managed_files_not_legacy _ Hin)). }
  split_and!; [| | | |done].
  - intros f Hin. destruct (present (root (fs s)) f) eqn:Hp.
    + destruct (known_file_detected _ _ _ Hc Hin Hp) as [Hent Hst]. by apply Hgone.
    + apply Hmono. rewrite Hleg6 by done.
      destruct (managed_files_not_legacy f Hin) as [Hnb Hnp].
      rewrite Hfr5 by done. rewrite lookup_insert_ne by done.
      rewrite Hleg3, Hroot2 by done.
      apply bool_decide_eq_false in Hp. destruct (root (fs s) !! f); [|done].
      destruct Hp; eauto.
  - rewrite Hframe by (intros Hin; by destruct (managed_files_not_legacy _ Hin)).
    rewrite Hbiome6, Hfr5 by done. apply lookup_insert_eq.
  - intros Htakes. rewrite Hpkg1. by apply Hset6, Hset5, Htakes3.
  - intros Hnn. rewrite Hpkg1. by apply Hst6, Hst5, Hnn3.
Qed.

Lemma nothing_to_detect s :
  (forall f, f ∈ CONFIG_FILES_eslint ++ CONFIG_FILES_prettier ->
     root (fs s) !! f = None) ->
  steady_manifest (root (fs s) !! "package.json") ->
  writable -> findExistingConfigs s = (Ok (Configs [] []), s).
Proof.
  intros Hleg Hset (Hr & _ & _).
  assert (Hnone : forall l, (forall f, f ∈ l -> root (fs s) !! f = None) ->
                    List.filter (present (root (fs s))) l = []).
  { induction l as [|f l IH]; intros Hl; [done|]. cbn. unfold present at 1.
    rewrite (Hl f) by (by apply elem_of_cons; left).
    rewrite bool_decide_eq_false_2 by (intros [? ?]; done).
    apply IH. intros g Hg. apply Hl. by apply elem_of_cons; right. }
  unfold findExistingConfigs, bind. rewrite !forEach_push_exists.
  rewrite !Hnone by (intros f Hf; apply Hleg, elem_of_app; eauto).
  unfold steady_manifest in Hset.
  destruct (root (fs s) !! "package.json") as [[doc|text]|] eqn:Hpkg; [|done..].
  unfold existsSync. rewrite Hpkg, bool_decide_eq_true_2 by eauto.
  unfold read_manifest, bind, readFileSync. rewrite Hpkg, Hr.
  destruct doc as [ | | | |items|members]; try done; cbn [ret lift_js].
  rewrite !get_prop_parsed. cbn [ret lift_js].
  destruct Hset as (He & Hp & _). by rewrite He, Hp.
Qed.

Lemma update_succeeds s :
  writable -> steady_manifest (root (fs s) !! "package.json") ->
  exists removedFields s', updatePackageJson s = (Ok removedFields, s').
Proof.
  intros (Hr & Hw & _) Hset. rewrite updatePackageJson_pure.
  unfold steady_manifest in Hset.
  destruct (root (fs s) !! "package.json") as [[doc|text]|] eqn:Hpkg; [|done..].
  unfold read_manifest, bind, readFileSync. cbv beta. rewrite Hpkg, Hr. cbn [ret].
  assert (Hshell : same_shell (JSON_parse doc) (JSON_parse doc)) by (by destruct doc).
  destruct (rewrite_manifest_shell _ Hshell) as (pkg' & rf & ? & ? & ? & -> & _).
  rewrite Hw. eauto.
Qed.

Lemma no_config : any_config (Configs [] []) = false.
Proof. reflexivity. Qed.

(** C7, as the script has it.  With a package manager that keeps to its
    own business, a run that has ended with status 0 on a project whose
    manifest does not have for its [scripts] member a number too large
    for a double can be followed by a second one: if the install command
    succeeds again, the
    second run ends with status 0 too, [biome.json] holds the generated
    document after either run, and each of the five script entries of the
    manifest is the same after the second run as after the first. *)
Theorem second_run_changes_nothing s s1 :
  keeps_project ->
  scripts_fit (root (fs s) !! "package.json") ->
  run s = (0, s1) ->
  (forall pm, detectPackageManager s1 = (Ok pm, s1) ->
     is_Some (spawn (install_command pm) (fs s1))) ->
  exists s2,
    run s1 = (0, s2) /\
    root (fs s1) !! "biome.json" = Some (Json (JSON_stringify generateBiomeConfig)) /\
    root (fs s2) !! "biome.json" = Some (Json (JSON_stringify generateBiomeConfig)) /\
    forall key, key ∈ map fst scriptUpdates ->
      script_entry (root (fs s2) !! "package.json") key =
      script_entry (root (fs s1) !! "package.json") key.
Proof.
  intros Hkeep Hnn Hrun Hinstall.
  destruct (run_zero_leaves _ _ Hkeep Hrun) as (Hleg & Hbiome & _ & Hset & Hw).
  specialize (Hset Hnn).
  pose proof (nothing_to_detect _ Hleg Hset Hw) as Hdet.
  destruct (detectPackageManager_total s1) as [pm Hpm].
  destruct (Hinstall pm Hpm) as [fs3 Hsp].
  destruct (Hkeep _ _ _ Hsp) as (_ & _ & Hm3).
  destruct (manifest_kept_settled _ _ Hm3) as (_ & Hentry3 & _ & Hset3 & _).
  set (s3 := State fs3 (trace s1 ++ [EExec (install_command pm) true])).
  set (s4 := State (FileSys (<["biome.json" := Json (JSON_stringify generateBiomeConfig)]>
                               (root fs3)) (backup fs3))
                   (trace s3 ++ [EWrite "biome.json"])).
  assert (Hgen : generate_step s3 = (Ok tt, s4)).
  { rewrite generate_step_eq. by destruct Hw as (_ & _ & ->). }
  assert (Hpkg4 : root (fs s4) !! "package.json" = root fs3 !! "package.json").
  { cbn. by rewrite lookup_insert_ne. }
  destruct (update_succeeds s4 Hw) as (rf & s5 & Hupd);
    [by rewrite Hpkg4; apply Hset3|].
  pose proof Hupd as Hupd'.
  apply update_settles in Hupd' as (_ & _ & _ & _ & Hentry5 & Hfr5).
  destruct (packages_step_spec pm s5) as (s6 & Hpk & Hs6).
  assert (Hmain : main s1 = (Ok tt, s6)).
  { unfold main, bind at 1. rewrite Hdet. unfold bind at 1, backup_step.
    rewrite no_config. cbn [ret].
    unfold bind at 1. rewrite Hpm. unfold bind at 1. rewrite install_step_eq, Hsp.
    fold s3. unfold bind at 1. rewrite Hgen.
    unfold bind at 1, update_step, bind at 1. rewrite Hupd. cbn [ret].
    unfold bind at 1. rewrite Hpk. unfold files_step. by rewrite no_config. }
  exists s6. rewrite (run_of_main _ _ _ Hmain). split; [done|]. split; [done|].
  assert (H6 : root (fs s6) !! "biome.json" = root (fs s5) !! "biome.json" /\
               forall key, script_entry (root (fs s6) !! "package.json") key =
                           script_entry (root (fs s5) !! "package.json") key).
  { destruct Hs6 as [->|(toRemove & [|] & fs6 & _ & -> & Hspawn & Hno)]; [done| |].
    - destruct (Hkeep _ _ _ Hspawn) as (_ & Hb & Hm). cbn [fs]. split; [done|].
      by apply (manifest_kept_settled _ _ Hm).
    - by rewrite Hno. }
  destruct H6 as [Hb6 He6]. split.
  - rewrite Hb6, Hfr5 by done. cbn. apply lookup_insert_eq.
  - intros key Hkey. rewrite He6, Hentry5; [|by rewrite Hpkg4; apply Hset3|done].
    by rewrite Hpkg4, Hentry3.
Qed.

(** ** Further properties of the script *)

(** *** The project root *)

(** The loop as the script writes it. *)
Lemma search_upwards_loop d dir :
  search_upwards d dir =
  if bool_decide (dir = []) then None
  else if holds_manifest d dir then Some dir
  else search_upwards d (dirname dir).
Proof. by destruct dir. Qed.

Lemma search_upwards_Some d cwd r :
  search_upwards d cwd = Some r ->
  r <> [] /\ holds_manifest d r = true /\ r `suffix_of` cwd /\
  forall dir, dir `suffix_of` cwd -> (length r < length dir)%nat ->
    holds_manifest d dir = false.
Proof.
  induction cwd as [|seg up IH]; [done|]. cbn [search_upwards].
  destruct (holds_manifest d (seg :: up)) eqn:E.
  - intros [= <-]. split_and!; [done..|].
    intros dir Hs Hl. apply suffix_length in Hs. lia.
  - intros H. destruct (IH H) as (Hr & Hm & Hs & Hn). split_and!; [done..| |].
    + by apply suffix_cons_r.
    + intros [|x dir] Hd Hl; [cbn in Hl; lia|].
      apply suffix_cons_inv in Hd as [[= -> ->]|Hd]; [done|]. by apply Hn.
Qed.

Lemma search_upwards_None d cwd :
  search_upwards d cwd = None ->
  forall dir, dir `suffix_of` cwd -> dir <> [] -> holds_manifest d dir = false.
Proof.
  induction cwd as [|seg up IH]; cbn [search_upwards].
  - intros _ dir Hs Hne. by apply suffix_nil_inv in Hs.
  - destruct (holds_manifest d (seg :: up)) eqn:E; [done|].
    intros H [|x dir] Hd Hne; [done|].
    apply suffix_cons_inv in Hd as [[= -> ->]|Hd]; [done|]. by apply IH.
Qed.

(** X1.  [findRootDir] returns the nearest directory, from the working
    directory upwards and short of [/], that holds a [package.json]: the
    directory it returns is the working directory or one above it, it holds
    a manifest, and no directory between the two does.  When no directory
    on the way up holds one, it returns the working directory itself. *)
Theorem findRootDir_nearest d cwd :
  (findRootDir d cwd <> [] /\
   holds_manifest d (findRootDir d cwd) = true /\
   findRootDir d cwd `suffix_of` cwd /\
   forall dir, dir `suffix_of` cwd ->
     (length (findRootDir d cwd) < length dir)%nat -> holds_manifest d dir = false) \/
  (findRootDir d cwd = cwd /\
   forall dir, dir `suffix_of` cwd -> dir <> [] -> holds_manifest d dir = false).
Proof.
  unfold findRootDir. destruct (search_upwards d cwd) as [r|] eqn:E.
  - left. by apply search_upwards_Some.
  - right. split; [done|]. by apply search_upwards_None.
Qed.

Lemma search_upwards_root_unread d files cwd :
  search_upwards (<[ [] := files ]> d) cwd = search_upwards d cwd.
Proof.
  induction cwd as [|seg up IH]; [done|]. cbn [search_upwards].
  unfold holds_manifest. rewrite lookup_insert_ne by done. by rewrite IH.
Qed.

(** X2.  The loop of [findRootDir] stops before [/]: what the root
    directory of the machine holds, a [package.json] included, has no
    bearing on the answer, and the answer is [/] only when the script is
    started there. *)
Theorem findRootDir_never_reads_root d files cwd :
  findRootDir (<[ [] := files ]> d) cwd = findRootDir d cwd /\
  (findRootDir d cwd = [] <-> cwd = []).
Proof.
  unfold findRootDir. rewrite search_upwards_root_unread. split; [done|].
  destruct (search_upwards d cwd) as [r|] eqn:E; [|done].
  apply search_upwards_Some in E as (Hr & _ & Hs & _). split; [done|].
  intros ->. by apply suffix_nil_inv in Hs.
Qed.

(** X3.  Started in the directory [findRootDir] has returned, the search
    returns that directory again. *)
Theorem findRootDir_idempotent d cwd :
  findRootDir d (findRootDir d cwd) = findRootDir d cwd.
Proof.
  unfold findRootDir. destruct (search_upwards d cwd) as [r|] eqn:E.
  - apply search_upwards_Some in E as (Hr & Hm & _).
    destruct r as [|seg up]; [done|]. cbn [search_upwards]. by rewrite Hm.
  - by rewrite E.
Qed.

(** *** Property lists *)

Lemma prop_set_set {A} k (x y : A) o : prop_set k x (prop_set k y o) = prop_set k x o.
Proof.
  induction o as [|[k' z] o IH]; simpl.
  - by rewrite decide_True.
  - destruct (decide (k' = k)) as [-> | Hne]; simpl.
    + by rewrite decide_True.
    + by rewrite decide_False, IH.
Qed.

Lemma prop_set_same {A} k (x : A) o : prop_lookup k o = Some x -> prop_set k x o = o.
Proof.
  induction o as [|[k' z] o IH]; simpl; [done|].
  destruct (decide (k' = k)) as [-> | Hne]; [by intros [= ->]|].
  intros H. by rewrite IH.
Qed.

Lemma map_prop_set {A B} (f : A -> B) k x (o : list (string * A)) :
  map (fun m => (fst m, f (snd m))) (prop_set k x o) =
  prop_set k (f x) (map (fun m => (fst m, f (snd m))) o).
Proof.
  induction o as [|[k' z] o IH]; simpl; [done|].
  destruct (decide (k' = k)); simpl; [done|]. by rewrite IH.
Qed.

Lemma map_prop_delete {A B} (f : A -> B) k (o : list (string * A)) :
  map (fun m => (fst m, f (snd m))) (prop_delete k o) =
  prop_delete k (map (fun m => (fst m, f (snd m))) o).
Proof.
  induction o as [|[k' z] o IH]; simpl; [done|].
  destruct (decide (k' = k)); simpl; [done|]. by rewrite IH.
Qed.

Lemma keys_prop_set {A} k (x : A) o :
  map fst (prop_set k x o) =
  if bool_decide (k ∈ map fst o) then map fst o else map fst o ++ [k].
Proof.
  induction o as [|[k' z] o IH]; cbn [prop_set map fst].
  - rewrite bool_decide_eq_false_2; [done|apply not_elem_of_nil].
  - destruct (decide (k' = k)) as [-> | Hne]; cbn [map fst].
    + by rewrite bool_decide_eq_true_2 by (by left).
    + rewrite IH. destruct (decide (k ∈ map fst o)) as [Hin|Hnin].
      * by rewrite !bool_decide_eq_true_2 by (done || by right).
      * rewrite !bool_decide_eq_false_2; [done| |done].
        rewrite not_elem_of_cons. by split.
Qed.

Lemma keys_prop_delete {A} k (o : list (string * A)) :
  map fst (prop_delete k o) = List.filter (fun k' => bool_decide (k' <> k)) (map fst o).
Proof.
  induction o as [|[k' z] o IH]; cbn [prop_delete map fst List.filter]; [done|].
  destruct (decide (k' = k)) as [-> | Hne].
  - by rewrite bool_decide_eq_false_2 by (by intros ?).
  - rewrite bool_decide_eq_true_2 by done. cbn [map fst]. by rewrite IH.
Qed.

(** Setting the entries [l] one after the other: what is there keeps its
    place, what is new goes to the end in the order of [l]. *)
Lemma keys_foldl_set {A} (l : list (string * A)) : forall o,
  NoDup (map fst l) ->
  map fst (foldl (fun acc entry => prop_set (fst entry) (snd entry) acc) o l) =
  map fst o ++ List.filter (fun k => bool_decide (k ∉ map fst o)) (map fst l).
Proof.
  induction l as [|[k x] l IH]; intros o Hnd; simpl.
  { by rewrite app_nil_r. }
  apply NoDup_cons in Hnd as [Hk Hnd]. rewrite IH by done. rewrite keys_prop_set.
  destruct (bool_decide (k ∈ map fst o)) eqn:E.
  - apply bool_decide_eq_true in E. by rewrite bool_decide_eq_false_2 by (by intros ?).
  - apply bool_decide_eq_false in E. rewrite bool_decide_eq_true_2 by done.
    rewrite <- app_assoc. cbn [app]. do 2 f_equal.
    apply filter_ext_in. intros k' Hk'. apply list_elem_of_In in Hk'.
    apply bool_decide_ext. rewrite not_elem_of_app, list_elem_of_singleton.
    split; [by intros [? _]|]. intros ?. split; [done|]. by intros ->.
Qed.

Lemma lookup_foldl_set_other {A} (l : list (string * A)) : forall o k,
  k ∉ map fst l ->
  prop_lookup k (foldl (fun acc entry => prop_set (fst entry) (snd entry) acc) o l) =
  prop_lookup k o.
Proof.
  induction l as [|[k' x] l IH]; intros o k Hk; simpl; [done|].
  cbn in Hk. apply not_elem_of_cons in Hk as [Hne Hk].
  rewrite IH by done. by apply prop_lookup_set_ne.
Qed.

Lemma lookup_foldl_set {A} (l : list (string * A)) : forall o k x,
  NoDup (map fst l) -> (k, x) ∈ l ->
  prop_lookup k (foldl (fun acc entry => prop_set (fst entry) (snd entry) acc) o l) = Some x.
Proof.
  induction l as [|[k' y] l IH]; intros o k x Hnd Hin; simpl.
  { by apply elem_of_nil in Hin. }
  cbn in Hnd. apply NoDup_cons in Hnd as [Hk Hnd].
  apply elem_of_cons in Hin as [[= -> ->]|Hin].
  - rewrite lookup_foldl_set_other by done. apply prop_lookup_set_eq.
  - by apply IH.
Qed.

(** Entries that are in place already are set to no effect. *)
Lemma foldl_set_same {A} (l : list (string * A)) o :
  (forall k x, (k, x) ∈ l -> prop_lookup k o = Some x) ->
  foldl (fun acc entry => prop_set (fst entry) (snd entry) acc) o l = o.
Proof.
  induction l as [|[k x] l IH]; intros H; simpl; [done|].
  rewrite prop_set_same by (apply H; by left). apply IH.
  intros k' x' Hin. apply H. by right.
Qed.

Lemma map_foldl_set {A B} (f : A -> B) (l : list (string * A)) : forall o,
  map (fun m => (fst m, f (snd m)))
      (foldl (fun acc entry => prop_set (fst entry) (snd entry) acc) o l) =
  foldl (fun acc entry => prop_set (fst entry) (snd entry) acc)
        (map (fun m => (fst m, f (snd m))) o) (map (fun m => (fst m, f (snd m))) l).
Proof.
  induction l as [|[k x] l IH]; intros o; simpl; [done|].
  by rewrite IH, map_prop_set.
Qed.

Lemma keys_map {A B} (f : A -> B) (o : list (string * A)) :
  map fst (map (fun m => (fst m, f (snd m))) o) = map fst o.
Proof. rewrite map_map. by apply map_ext. Qed.

Lemma reread_map (members : list (string * json)) :
  map (fun m => (fst m, JSON_stringify (snd m)))
      (map (fun m => (fst m, JSON_parse (snd m))) members) =
  map (fun m => (fst m, reread (snd m))) members.
Proof. rewrite map_map. by apply map_ext. Qed.

Lemma Forall_prop_delete {A} (P : string * A -> Prop) k o :
  Forall P o -> Forall P (prop_delete k o).
Proof.
  induction 1 as [|[k' y] o Hy _ IH]; cbn [prop_delete]; [constructor|].
  destruct (decide (k' = k)); [done|by constructor].
Qed.

Lemma Forall_prop_set {A} (P : string * A -> Prop) k x o :
  (forall y, P (k, y) -> P (k, x)) -> P (k, x) -> Forall P o -> Forall P (prop_set k x o).
Proof.
  intros Hsame Hx. induction 1 as [|[k' y] o Hy Ho IH]; cbn [prop_set].
  - by repeat constructor.
  - destruct (decide (k' = k)) as [-> | Hne]; constructor; eauto.
Qed.

Lemma enumerated_prop_delete {A} k (o : list (string * A)) :
  enumerated o -> enumerated (prop_delete k o).
Proof.
  unfold enumerated. induction 1 as [|[k' y] o Hsorted IH Hall]; cbn [prop_delete].
  - constructor.
  - destruct (decide (k' = k)); [done|]. constructor; [done|].
    by apply Forall_prop_delete.
Qed.

Lemma enumerated_prop_set {A} k (x : A) o :
  array_index k = None -> enumerated o -> enumerated (prop_set k x o).
Proof.
  unfold enumerated. intros Hk.
  induction 1 as [|[k' y] o Hsorted IH Hall]; cbn [prop_set].
  - repeat constructor.
  - destruct (decide (k' = k)) as [-> | Hne].
    + by constructor.
    + constructor; [done|]. apply Forall_prop_set; [done| |done].
      cbn [fst]. by apply goes_before_named.
Qed.

(** *** The update as a function of the document *)

Lemma assign_all_object l : forall own S,
  prop_lookup "scripts" own = Some S -> S <> VNull ->
  foldl (fun acc entry => acc ≫= fun pkg => assign_script_value pkg entry)
        (Some (VObj own)) l =
  Some (VObj (prop_set "scripts" (foldl assigned S l) own)).
Proof.
  induction l as [|entry l IH]; intros own S Hlook Hnull; cbn [foldl].
  { by rewrite prop_set_same. }
  cbn [mbind option_bind]. unfold assign_script_value at 2.
  cbn [get_prop mbind option_bind]. rewrite Hlook. cbn [mbind option_bind].
  rewrite assigned_set by done. cbn [mbind option_bind set_prop].
  rewrite (IH _ (assigned S entry)).
  - by rewrite prop_set_set.
  - apply prop_lookup_set_eq.
  - by apply assigned_not_null.
Qed.

Lemma stringify_new_scripts (old : option json) :
  JSON_stringify (foldl assigned (scripts_or_empty (JSON_parse <$> old)) scriptUpdates) =
  updated_scripts old.
Proof.
  destruct old as [old|]; [|reflexivity].
  destruct old as [ | b | n | s | items | entries ]; cbn [fmap option_fmap option_map].
  - reflexivity.
  - destruct b; reflexivity.
  - unfold scripts_or_empty, updated_scripts. cbn [truthy_opt].
    destruct (truthy (JSON_parse (JNum n))); cbn [default from_option id]; [|reflexivity].
    by rewrite foldl_assigned_other.
  - unfold scripts_or_empty, updated_scripts. cbn [truthy_opt].
    destruct (truthy (JSON_parse (JStr s))); cbn [default from_option id]; [|reflexivity].
    by rewrite foldl_assigned_other.
  - unfold scripts_or_empty, updated_scripts.
    cbn [truthy_opt truthy JSON_parse default from_option id].
    by rewrite foldl_assigned_other.
  - unfold scripts_or_empty, updated_scripts, reread_members.
    cbn [truthy_opt truthy JSON_parse default from_option id].
    rewrite foldl_assigned_object. cbn [JSON_stringify]. f_equal.
    rewrite map_foldl_set. by rewrite enumeration_order_map, reread_map.
Qed.

Lemma parsed_drop_field field members :
  (if truthy_opt (prop_lookup field (map (fun m => (fst m, JSON_parse (snd m))) members))
   then delete_prop (VObj (map (fun m => (fst m, JSON_parse (snd m))) members)) field
   else VObj (map (fun m => (fst m, JSON_parse (snd m))) members)) =
  VObj (map (fun m => (fst m, JSON_parse (snd m))) (drop_field field members)).
Proof.
  unfold drop_field, embedded. rewrite prop_lookup_map.
  destruct (truthy_opt _); [|done]. cbn [delete_prop]. by rewrite map_prop_delete.
Qed.

Lemma lookup_drop_field field k members :
  field <> k -> prop_lookup k (drop_field field members) = prop_lookup k members.
Proof.
  intros Hne. unfold drop_field.
  destruct (embedded (Some (Json (JObj members))) field); [|done].
  by apply prop_lookup_delete_ne.
Qed.

Lemma embedded_drop_field field k members :
  embedded (Some (Json (JObj (drop_field field members)))) k =
  if decide (field = k) then false else embedded (Some (Json (JObj members))) k.
Proof.
  destruct (decide (field = k)) as [<- | Hne].
  - unfold drop_field.
    destruct (embedded (Some (Json (JObj members))) field) eqn:E; [|done].
    unfold embedded. by rewrite prop_lookup_delete_eq.
  - unfold embedded. by rewrite lookup_drop_field.
Qed.

Lemma embedded_enumeration members field :
  embedded (Some (Json (JObj (enumeration_order members)))) field =
  embedded (Some (Json (JObj members))) field.
Proof. unfold embedded. by rewrite prop_lookup_enumeration. Qed.

(** What [rewrite_manifest] makes of a parsed document, written out. *)
Lemma rewrite_manifest_doc doc :
  (fun r => (JSON_stringify (fst r), snd r)) <$> rewrite_manifest (JSON_parse doc) =
  (fun doc' => (doc', removed_fields (Some (Json doc)))) <$> updated_manifest doc.
Proof.
  destruct doc as [ | b | n | s | items | members ]; try reflexivity.
  unfold rewrite_manifest, updated_manifest, removed_fields. cbn [List.filter].
  rewrite <- !(embedded_enumeration members).
  cbn [JSON_parse]. rewrite enumeration_order_map.
  generalize (enumeration_order members). clear members. intros members.
  cbn [get_prop mbind option_bind].
  rewrite parsed_drop_field. cbn [get_prop mbind option_bind].
  rewrite parsed_drop_field. cbn [get_prop mbind option_bind set_prop].
  set (P := fun m : string * json => (fst m, JSON_parse (snd m))).
  set (kept := drop_field "prettier" (drop_field "eslintConfig" members)).
  fold (scripts_or_empty (prop_lookup "scripts" (map P kept))).
  rewrite (assign_all_object _ _ (scripts_or_empty (prop_lookup "scripts" (map P kept))));
    [|apply prop_lookup_set_eq|apply scripts_or_empty_not_null].
  cbn [mbind option_bind fmap option_fmap option_map fst snd JSON_stringify].
  rewrite prop_set_set. fold P. unfold P at 2. rewrite map_prop_set.
  fold P. unfold P at 3. rewrite (prop_lookup_map JSON_parse).
  rewrite stringify_new_scripts. unfold P. rewrite reread_map.
  do 3 f_equal.
  unfold P. rewrite !prop_lookup_map, lookup_drop_field by done.
  unfold embedded. cbn [List.filter].
  destruct (truthy_opt (JSON_parse <$> prop_lookup "eslintConfig" members));
    destruct (truthy_opt (JSON_parse <$> prop_lookup "prettier" members)); reflexivity.
Qed.

Lemma scriptUpdates_keys : NoDup (map fst script_entries).
Proof. apply (bool_decide_unpack _). by vm_compute. Qed.

Lemma script_entries_named : Forall (fun m => array_index (fst m) = None) script_entries.
Proof. repeat constructor. Qed.

Lemma script_entries_round_trip :
  Forall (fun m : string * json => round_trips (snd m)) script_entries.
Proof. repeat constructor. Qed.

Lemma foldl_set_round_trips (l : list (string * json)) : forall o,
  Forall (fun m => array_index (fst m) = None) l ->
  Forall (fun m => round_trips (snd m)) l ->
  round_trips (JObj o) ->
  round_trips (JObj (foldl (fun acc entry => prop_set (fst entry) (snd entry) acc) o l)).
Proof.
  induction l as [|[k x] l IH]; intros o Hnamed Hback Ho; [done|].
  cbn [foldl fst snd]. apply Forall_cons in Hnamed as [Hk Hnamed].
  apply Forall_cons in Hback as [Hx Hback]. apply IH; [done..|].
  apply round_trips_members in Ho as [Henum Hall]. apply round_trips_members. split.
  - by apply enumerated_prop_set.
  - by apply Forall_prop_set.
Qed.

Lemma reread_members_fixed members :
  round_trips (JObj members) -> reread_members members = members.
Proof.
  intros Hback. unfold round_trips, reread in Hback.
  cbn [JSON_parse JSON_stringify] in Hback.
  rewrite enumeration_order_map, reread_map in Hback. by injection Hback.
Qed.

(** The [scripts] member the update writes comes back as it is, if the
    old one did. *)
Lemma updated_scripts_round_trips scripts :
  (forall z, scripts = Some z -> round_trips z) ->
  round_trips (updated_scripts scripts).
Proof.
  assert (Hnew : round_trips (JObj script_entries)) by reflexivity.
  intros Hback. destruct scripts as [z|]; [|done].
  specialize (Hback z eq_refl).
  assert (Hcases : (exists entries, z = JObj entries) \/
                   match z with JObj _ => False | _ => True end)
    by (destruct z; eauto).
  destruct Hcases as [[entries ->]|Hother].
  { cbn [updated_scripts]. rewrite reread_members_fixed by done.
    apply foldl_set_round_trips;
      [apply script_entries_named|apply script_entries_round_trip|done]. }
  assert (Hu : updated_scripts (Some z) =
               if truthy (JSON_parse z) then z else JObj script_entries).
  { pose proof Hback as Heq. unfold round_trips in Heq.
    destruct z; cbn [updated_scripts]; rewrite ?Heq; done. }
  rewrite Hu. by destruct (truthy (JSON_parse z)).
Qed.

Lemma updated_scripts_twice scripts :
  (forall z, scripts = Some z -> round_trips z) ->
  updated_scripts (Some (updated_scripts scripts)) = updated_scripts scripts.
Proof.
  assert (Hset : forall entries,
    round_trips (JObj entries) ->
    updated_scripts (Some (JObj (foldl (fun acc entry => prop_set (fst entry) (snd entry) acc)
                                       entries script_entries))) =
    JObj (foldl (fun acc entry => prop_set (fst entry) (snd entry) acc) entries script_entries)).
  { intros entries Hback. cbn [updated_scripts]. f_equal.
    rewrite reread_members_fixed.
    - apply foldl_set_same.
      intros k x Hin. apply lookup_foldl_set; [apply scriptUpdates_keys|done].
    - apply foldl_set_round_trips;
        [apply script_entries_named|apply script_entries_round_trip|done]. }
  assert (Hnew : updated_scripts (Some (JObj script_entries)) = JObj script_entries).
  { by apply (Hset []). }
  intros Hback. destruct scripts as [z|]; [|exact Hnew].
  specialize (Hback z eq_refl).
  assert (Hcases : (exists entries, z = JObj entries) \/
                   match z with JObj _ => False | _ => True end)
    by (destruct z; eauto).
  destruct Hcases as [[entries ->]|Hother].
  { assert (Hu : updated_scripts (Some (JObj entries)) =
                 JObj (foldl (fun acc entry => prop_set (fst entry) (snd entry) acc)
                             entries script_entries)).
    { cbn [updated_scripts]. by rewrite reread_members_fixed. }
    rewrite Hu. by apply Hset. }
  assert (Hu : updated_scripts (Some z) =
               if truthy (JSON_parse z) then z else JObj script_entries).
  { unfold round_trips in Hback.
    destruct z; cbn [updated_scripts]; rewrite ?Hback; done. }
  rewrite Hu. destruct (truthy (JSON_parse z)) eqn:E; [|exact Hnew].
  exact Hu.
Qed.

Lemma drop_field_id field members :
  embedded (Some (Json (JObj members))) field = false -> drop_field field members = members.
Proof. unfold drop_field. by intros ->. Qed.

Lemma falsy_reread (x : option json) :
  truthy_opt (JSON_parse <$> x) = false ->
  truthy_opt (JSON_parse <$> (reread <$> x)) = false.
Proof. destruct x as [j|]; [apply falsy_written|done]. Qed.

(** The document the update writes is an object or an array, and embeds
    no configuration. *)
Lemma updated_manifest_clean doc doc1 :
  updated_manifest doc = Some doc1 ->
  removed_fields (Some (Json doc1)) = [] /\
  match doc1 with JObj _ | JArr _ => True | _ => False end.
Proof.
  destruct doc as [ | b | n | s | items | members ]; try done.
  { by intros [= <-]. }
  cbn [updated_manifest].
  set (kept := drop_field "prettier" (drop_field "eslintConfig" (enumeration_order members))).
  intros [= <-]. split; [|done].
  assert (He : embedded (Some (Json (JObj kept))) "eslintConfig" = false).
  { unfold kept.
    rewrite embedded_drop_field, decide_False by done.
    by rewrite embedded_drop_field, decide_True. }
  assert (Hp : embedded (Some (Json (JObj kept))) "prettier" = false).
  { unfold kept. by rewrite embedded_drop_field, decide_True. }
  unfold removed_fields, embedded in *. cbn [List.filter].
  rewrite !prop_lookup_set_ne by done.
  rewrite !(prop_lookup_map reread).
  by rewrite (falsy_reread _ He), (falsy_reread _ Hp).
Qed.

Lemma Forall_drop_field (P : string * json -> Prop) field members :
  Forall P members -> Forall P (drop_field field members).
Proof.
  unfold drop_field. destruct (embedded _ field); [|done]. apply Forall_prop_delete.
Qed.

Lemma drop_field_keeps (P : string * json -> Prop) field members :
  enumerated members /\ Forall P members ->
  enumerated (drop_field field members) /\ Forall P (drop_field field members).
Proof.
  intros [Henum Hall]. split; [|by apply Forall_drop_field].
  unfold drop_field. destruct (embedded _ field); [|done].
  by apply enumerated_prop_delete.
Qed.

(** The update of a document that comes back from parsing and writing as
    it is: the old members but the embedded configuration, with the new
    scripts; a document that comes back as it is, and that a further update
    leaves alone. *)
Lemma updated_manifest_plain members :
  round_trips (JObj members) ->
  let kept := drop_field "prettier" (drop_field "eslintConfig" members) in
  let new := prop_set "scripts" (updated_scripts (prop_lookup "scripts" kept)) kept in
  updated_manifest (JObj members) = Some (JObj new) /\ round_trips (JObj new).
Proof.
  intros Hback kept new.
  pose proof Hback as [Henum Hall]%round_trips_members.
  assert (Hkept : enumerated kept /\ Forall (fun m => round_trips (snd m)) kept).
  { unfold kept. by do 2 apply drop_field_keeps. }
  destruct Hkept as [Henum' Hall'].
  assert (Hscripts : round_trips (updated_scripts (prop_lookup "scripts" kept))).
  { apply updated_scripts_round_trips. intros z Hz.
    eapply (round_trips_lookup kept); [|exact Hz]. by apply round_trips_members. }
  split.
  - cbn [updated_manifest]. rewrite (enumerated_fixed _ Henum). fold kept.
    assert (Hmap : map (fun m : string * json => (fst m, reread (snd m))) kept = kept).
    { clear -Hall'. induction Hall' as [|[k x] o Hx _ IH]; [done|].
      cbn [map fst snd] in *. by rewrite Hx, IH. }
    by rewrite Hmap.
  - apply round_trips_members. split.
    + by apply enumerated_prop_set.
    + by apply Forall_prop_set.
Qed.

(** The update of an updated document changes nothing. *)
Lemma updated_manifest_twice doc doc1 :
  round_trips doc ->
  updated_manifest doc = Some doc1 ->
  updated_manifest doc1 = Some doc1.
Proof.
  intros Hback. destruct doc as [ | b | n | s | items | members ]; try done.
  { cbn [updated_manifest]. rewrite Hback. intros [= <-].
    cbn [updated_manifest]. by rewrite Hback. }
  destruct (updated_manifest_plain members Hback) as [-> Hnew]. cbn zeta in Hnew.
  set (kept := drop_field "prettier" (drop_field "eslintConfig" members)) in *.
  set (new := prop_set "scripts" (updated_scripts (prop_lookup "scripts" kept)) kept) in *.
  intros [= <-].
  destruct (updated_manifest_plain new Hnew) as [-> _]. cbn zeta.
  assert (He : embedded (Some (Json (JObj new))) "eslintConfig" = false).
  { unfold embedded, new. rewrite prop_lookup_set_ne by done.
    fold (embedded (Some (Json (JObj kept))) "eslintConfig"). unfold kept.
    rewrite embedded_drop_field, decide_False by done.
    by rewrite embedded_drop_field, decide_True. }
  assert (Hp : embedded (Some (Json (JObj new))) "prettier" = false).
  { unfold embedded, new. rewrite prop_lookup_set_ne by done.
    fold (embedded (Some (Json (JObj kept))) "prettier"). unfold kept.
    by rewrite embedded_drop_field, decide_True. }
  rewrite (drop_field_id "eslintConfig" new) by done.
  rewrite (drop_field_id "prettier" new) by done. unfold new.
  rewrite prop_lookup_set_eq, updated_scripts_twice, prop_set_set; [done|].
  intros z Hz. apply round_trips_members in Hback as [_ Hall].
  assert (Hall' : Forall (fun m : string * json => round_trips (snd m)) kept).
  { unfold kept. by do 2 apply Forall_drop_field. }
  clear -Hall' Hz. induction Hall' as [|[k x] o Hx _ IH]; [done|].
  cbn [prop_lookup] in Hz. destruct (decide (k = "scripts")); [|by apply IH].
  by injection Hz as <-.
Qed.


(** *** Detection *)

(** Detection written out: what it returns, and when it throws. *)
Lemma findExistingConfigs_eq s :
  findExistingConfigs s =
  let manifest := root (fs s) !! "package.json" in
  let found :=
    Configs
      (List.filter (present (root (fs s))) CONFIG_FILES_eslint ++
       (if embedded manifest "eslintConfig" then [eslintConfig_field] else []))
      (List.filter (present (root (fs s))) CONFIG_FILES_prettier ++
       (if embedded manifest "prettier" then [prettier_field] else [])) in
  match manifest with
  | None => (Ok found, s)
  | Some (Json doc) =>
      if fault OpRead "package.json" then (Throw (EIO OpRead "package.json"), s)
      else match doc with
           | JNull => (Throw TypeError, s)
           | _ => (Ok found, s)
           end
  | Some (Raw _) =>
      if fault OpRead "package.json" then (Throw (EIO OpRead "package.json"), s)
      else (Throw SyntaxError, s)
  end.
Proof.
  unfold findExistingConfigs, bind. rewrite !forEach_push_exists.
  unfold existsSync at 1. cbn zeta.
  destruct (root (fs s) !! "package.json") as [[doc|text]|] eqn:Hpkg.
  - rewrite bool_decide_eq_true_2 by eauto.
    unfold read_manifest, bind, readFileSync. rewrite Hpkg.
    destruct (fault OpRead "package.json"); [done|]. cbn [ret embedded].
    destruct doc as [ | b | n | t | items | members ]; try (cbn; by rewrite ?app_nil_r).
    by rewrite !get_prop_parsed.
  - rewrite bool_decide_eq_true_2 by eauto.
    unfold read_manifest, bind, readFileSync. rewrite Hpkg.
    by destruct (fault OpRead "package.json").
  - rewrite bool_decide_eq_false_2 by (by intros [? ?]). cbn [embedded].
    by rewrite !app_nil_r.
Qed.

Lemma list_filter_sublist {A} (f : A -> bool) l : List.filter f l `sublist_of` l.
Proof.
  induction l as [|x l IH]; cbn [List.filter]; [done|].
  destruct (f x); [by apply sublist_skip|by apply sublist_cons].
Qed.

Lemma known_entries_distinct :
  NoDup (CONFIG_FILES_eslint ++ [eslintConfig_field] ++
         CONFIG_FILES_prettier ++ [prettier_field]).
Proof. apply (bool_decide_unpack _). by vm_compute. Qed.

(** X4.  When detection returns, each of its two lists holds the file
    names of its table that exist under the root, in the order of the table,
    followed by the sentinel for the field of the manifest exactly when the
    manifest is an object in which that field is truthy; no entry occurs
    twice. *)
Theorem detection_lists_what_is_there s c :
  findExistingConfigs s = (Ok c, s) ->
  eslint c =
    List.filter (present (root (fs s))) CONFIG_FILES_eslint ++
    (if embedded (root (fs s) !! "package.json") "eslintConfig"
     then [eslintConfig_field] else []) /\
  prettier c =
    List.filter (present (root (fs s))) CONFIG_FILES_prettier ++
    (if embedded (root (fs s) !! "package.json") "prettier"
     then [prettier_field] else []) /\
  NoDup (entries c).
Proof.
  rewrite findExistingConfigs_eq. cbn zeta. intros H.
  assert (Hc : c = Configs
      (List.filter (present (root (fs s))) CONFIG_FILES_eslint ++
       (if embedded (root (fs s) !! "package.json") "eslintConfig"
        then [eslintConfig_field] else []))
      (List.filter (present (root (fs s))) CONFIG_FILES_prettier ++
       (if embedded (root (fs s) !! "package.json") "prettier"
        then [prettier_field] else []))).
  { destruct (root (fs s) !! "package.json") as [[doc|text]|];
      [destruct (fault OpRead "package.json"); [done|]; destruct doc; try done;
       by injection H as <-
      |by destruct (fault OpRead "package.json")
      |by injection H as <-]. }
  subst c. cbn [eslint prettier]. split; [done|]. split; [done|].
  unfold entries. cbn [eslint prettier].
  apply (sublist_NoDup _ _ known_entries_distinct).
  rewrite <- !app_assoc.
  repeat apply sublist_app; try apply list_filter_sublist.
  - destruct (embedded _ "eslintConfig"); [done|apply sublist_nil_l].
  - destruct (embedded _ "prettier"); [done|apply sublist_nil_l].
Qed.


(** *** The manifest update *)

(** [updatePackageJson] written out on the document that is on disk. *)
Lemma updatePackageJson_eq s :
  updatePackageJson s =
  match root (fs s) !! "package.json" with
  | None => (Throw (ENOENT "package.json"), s)
  | Some text =>
      if fault OpRead "package.json" then (Throw (EIO OpRead "package.json"), s)
      else
        match text with
        | Raw _ => (Throw SyntaxError, s)
        | Json doc =>
            match updated_manifest doc with
            | None => (Throw TypeError, s)
            | Some doc' =>
                if fault OpWrite "package.json"
                then (Throw (EIO OpWrite "package.json"), s)
                else (Ok (removed_fields (Some (Json doc))),
                      State (FileSys (<["package.json" := Json doc']> (root (fs s)))
                                     (backup (fs s)))
                            (trace s ++ [EWrite "package.json"]))
            end
        end
  end.
Proof.
  rewrite updatePackageJson_pure. unfold read_manifest, bind, readFileSync.
  destruct (root (fs s) !! "package.json") as [[doc|text]|]; [| |done];
    (destruct (fault OpRead "package.json"); [done|]); [|done].
  cbn [ret]. pose proof (rewrite_manifest_doc doc) as Hdoc.
  destruct (rewrite_manifest (JSON_parse doc)) as [[pkg' rf]|];
    destruct (updated_manifest doc) as [doc'|]; try done.
  by injection Hdoc as -> ->.
Qed.

Lemma updated_manifest_object members doc' :
  updated_manifest (JObj members) = Some doc' ->
  doc' = JObj (prop_set "scripts"
                 (updated_scripts (prop_lookup "scripts" members))
                 (map (fun m => (fst m, reread (snd m)))
                      (drop_field "prettier"
                         (drop_field "eslintConfig" (enumeration_order members))))).
Proof.
  cbn [updated_manifest]. intros [= <-].
  by rewrite !lookup_drop_field, prop_lookup_enumeration.
Qed.

Lemma list_filter_filter {A} (p q : A -> bool) l :
  List.filter p (List.filter q l) = List.filter (fun x => q x && p x) l.
Proof.
  induction l as [|x l IH]; cbn [List.filter]; [done|].
  destruct (q x); cbn [List.filter andb]; [|done]. by rewrite IH.
Qed.

Lemma keys_drop_field field members :
  map fst (drop_field field members) =
  List.filter
    (fun k => bool_decide
                (k ∉ if embedded (Some (Json (JObj members))) field then [field] else []))
    (map fst members).
Proof.
  unfold drop_field. destruct (embedded _ field).
  - rewrite keys_prop_delete. apply filter_ext. intros k.
    apply bool_decide_ext. by rewrite list_elem_of_singleton.
  - symmetry. apply forallb_filter_id. apply forallb_forall. intros k _.
    apply bool_decide_eq_true_2, not_elem_of_nil.
Qed.


Lemma removed_fields_spec manifest field :
  field ∈ removed_fields manifest <->
  (field = "eslintConfig" \/ field = "prettier") /\ embedded manifest field = true.
Proof.
  unfold removed_fields. rewrite list_elem_of_In, filter_In, <- list_elem_of_In.
  rewrite !elem_of_cons, elem_of_nil. split; intros [H ?]; (split; [|done]).
  - destruct H as [?|[?|[]]]; eauto.
  - destruct H as [?|?]; eauto.
Qed.

Lemma removed_fields_enumeration members :
  removed_fields (Some (Json (JObj (enumeration_order members)))) =
  removed_fields (Some (Json (JObj members))).
Proof. unfold removed_fields. cbn [List.filter]. by rewrite !embedded_enumeration. Qed.

(** The keys of the document the update writes, from the members as the
    parser holds them. *)
Lemma keys_updated (members : list (string * json)) (scripts' : json) :
  map fst (prop_set "scripts" scripts'
             (map (fun m => (fst m, reread (snd m)))
                  (drop_field "prettier" (drop_field "eslintConfig" members)))) =
  List.filter (fun k => bool_decide (k ∉ removed_fields (Some (Json (JObj members)))))
              (map fst members) ++
  (if bool_decide ("scripts" ∈ map fst members) then [] else ["scripts"]).
Proof.
  clear spawn fault.
  rewrite keys_prop_set, keys_map, !keys_drop_field, list_filter_filter.
  assert (Hkeys :
    List.filter
      (fun k => bool_decide
                  (k ∉ if embedded (Some (Json (JObj members))) "eslintConfig"
                       then ["eslintConfig"] else []) &&
                bool_decide
                  (k ∉ if embedded (Some (Json (JObj (drop_field "eslintConfig" members))))
                            "prettier"
                       then ["prettier"] else []))
      (map fst members) =
    List.filter
      (fun k => bool_decide (k ∉ removed_fields (Some (Json (JObj members)))))
      (map fst members)).
  { apply filter_ext. intros k. rewrite embedded_drop_field, decide_False by done.
    unfold removed_fields. cbn [List.filter].
    destruct (embedded _ "eslintConfig"), (embedded _ "prettier");
      rewrite <- bool_decide_and; apply bool_decide_ext;
      rewrite ?not_elem_of_cons; pose proof (not_elem_of_nil k); tauto. }
  rewrite Hkeys. clear Hkeys.
  set (kept := List.filter _ (map fst members)).
  assert (Hscripts : "scripts" ∈ kept <-> "scripts" ∈ map fst members).
  { unfold kept. rewrite !list_elem_of_In, filter_In, <- !list_elem_of_In.
    rewrite bool_decide_eq_true, removed_fields_spec.
    split; [by intros [? _]|]. intros ?. split; [done|]. by intros [[?|?] _]. }
  destruct (decide ("scripts" ∈ map fst members)) as [Hin|Hnin].
  - rewrite !bool_decide_eq_true_2 by tauto. by rewrite app_nil_r.
  - by rewrite !bool_decide_eq_false_2 by tauto.
Qed.

(** X6.  A successful update of a manifest that is an object returns in
    [removedFields] exactly the fields among [eslintConfig] and [prettier]
    that were truthy, and writes the members that remain in the order in
    which JavaScript enumerates them: the keys that are array indices
    first, in ascending order, then the others in the order they had.
    [scripts] is added at the end if the manifest had none.  For a
    manifest whose keys are in the order of their enumeration already,
    that is the order they had. *)
Theorem update_keeps_member_order s removedFields s' members :
  updatePackageJson s = (Ok removedFields, s') ->
  root (fs s) !! "package.json" = Some (Json (JObj members)) ->
  (forall field, field ∈ removedFields <->
     (field = "eslintConfig" \/ field = "prettier") /\
     embedded (Some (Json (JObj members))) field = true) /\
  exists members',
    root (fs s') !! "package.json" = Some (Json (JObj members')) /\
    map fst members' =
      List.filter (fun k => bool_decide (k ∉ removedFields))
                  (map fst (enumeration_order members)) ++
      (if bool_decide ("scripts" ∈ map fst members) then [] else ["scripts"]) /\
    (enumerated members ->
     map fst members' =
       List.filter (fun k => bool_decide (k ∉ removedFields)) (map fst members) ++
       (if bool_decide ("scripts" ∈ map fst members) then [] else ["scripts"])).
Proof.
  clear spawn.
  rewrite updatePackageJson_eq. intros Hupd Hpkg. rewrite Hpkg in Hupd.
  destruct (fault OpRead "package.json"); [done|].
  destruct (updated_manifest (JObj members)) as [doc'|] eqn:Hdoc; [|done].
  destruct (fault OpWrite "package.json"); [done|]. injection Hupd as <- <-.
  apply updated_manifest_object in Hdoc as ->.
  split; [intros field; apply removed_fields_spec|].
  eexists. split; [cbn [fs root]; by rewrite lookup_insert_eq|].
  rewrite keys_updated, removed_fields_enumeration.
  rewrite (bool_decide_ext _ _ (keys_enumeration "scripts" members)).
  split; [done|]. intros Henum. by rewrite (enumerated_fixed _ Henum).
Qed.

Lemma script_entries_keys : map fst script_entries = map fst scriptUpdates.
Proof. reflexivity. Qed.

(** X7.  When [scripts] is an object, the update keeps every script but
    the five it sets, each as parsing and writing render it, in the order
    in which JavaScript enumerates them, and adds those of the five that
    were missing at the end, in the order [lint], [format],
    [format:check], [check], [check:fix].  A script whose value comes back
    from parsing and writing as it was is kept as it was, and entries that
    are in the order of their enumeration already keep their order. *)
Theorem update_keeps_other_scripts s removedFields s' members scripts :
  updatePackageJson s = (Ok removedFields, s') ->
  root (fs s) !! "package.json" = Some (Json (JObj members)) ->
  prop_lookup "scripts" members = Some (JObj scripts) ->
  exists members' scripts',
    root (fs s') !! "package.json" = Some (Json (JObj members')) /\
    prop_lookup "scripts" members' = Some (JObj scripts') /\
    (forall key, key ∉ map fst scriptUpdates ->
       prop_lookup key scripts' = reread <$> prop_lookup key scripts) /\
    (forall key v, key ∉ map fst scriptUpdates ->
       prop_lookup key scripts = Some v -> round_trips v ->
       prop_lookup key scripts' = Some v) /\
    map fst scripts' =
      map fst (enumeration_order scripts) ++
      List.filter (fun key => bool_decide (key ∉ map fst scripts)) (map fst scriptUpdates) /\
    (enumerated scripts ->
     map fst scripts' =
       map fst scripts ++
       List.filter (fun key => bool_decide (key ∉ map fst scripts)) (map fst scriptUpdates)).
Proof.
  rewrite updatePackageJson_eq. intros Hupd Hpkg Hscripts. rewrite Hpkg in Hupd.
  destruct (fault OpRead "package.json"); [done|].
  destruct (updated_manifest (JObj members)) as [doc'|] eqn:Hdoc; [|done].
  destruct (fault OpWrite "package.json"); [done|]. injection Hupd as <- <-.
  apply updated_manifest_object in Hdoc as ->. rewrite Hscripts.
  cbn [updated_scripts]. eexists _, _.
  split; [cbn [fs root]; by rewrite lookup_insert_eq|].
  split; [by rewrite prop_lookup_set_eq|].
  assert (Hother : forall key, key ∉ map fst scriptUpdates ->
    prop_lookup key
      (foldl (fun acc entry => prop_set (fst entry) (snd entry) acc)
             (reread_members scripts) script_entries) =
    reread <$> prop_lookup key scripts).
  { intros key Hkey. rewrite lookup_foldl_set_other by (by rewrite script_entries_keys).
    unfold reread_members. by rewrite prop_lookup_map, prop_lookup_enumeration. }
  assert (Hkeys :
    map fst (foldl (fun acc entry => prop_set (fst entry) (snd entry) acc)
                   (reread_members scripts) script_entries) =
    map fst (enumeration_order scripts) ++
    List.filter (fun key => bool_decide (key ∉ map fst scripts)) (map fst scriptUpdates)).
  { rewrite keys_foldl_set by apply scriptUpdates_keys.
    unfold reread_members. rewrite keys_map, script_entries_keys. f_equal.
    apply filter_ext. intros key. apply bool_decide_ext.
    by rewrite keys_enumeration. }
  split_and!; [done| |done|].
  - intros key v Hkey Hv Hback. rewrite Hother, Hv by done.
    cbn [fmap option_fmap option_map]. f_equal. exact Hback.
  - intros Henum. by rewrite Hkeys, (enumerated_fixed _ Henum).
Qed.

(** X8.  On a manifest that comes back from parsing and writing as it is,
    updating a second time removes no field and writes back the document
    the first update wrote: the files are as the first update left them. *)
Theorem update_twice_is_update_once s removedFields s1 doc :
  root (fs s) !! "package.json" = Some (Json doc) ->
  round_trips doc ->
  updatePackageJson s = (Ok removedFields, s1) ->
  exists s2, updatePackageJson s1 = (Ok [], s2) /\ fs s2 = fs s1.
Proof.
  rewrite updatePackageJson_eq. intros Hpkg Hback Hupd. rewrite Hpkg in Hupd.
  destruct (fault OpRead "package.json") eqn:Hread; [done|].
  destruct (updated_manifest doc) as [doc'|] eqn:Hdoc; [|done].
  destruct (fault OpWrite "package.json") eqn:Hwrite; [done|]. injection Hupd as <- <-.
  pose proof (updated_manifest_clean _ _ Hdoc) as [Hnone _].
  apply updated_manifest_twice in Hdoc; [|done].
  rewrite updatePackageJson_eq. cbn [fs root backup trace].
  rewrite lookup_insert_eq, Hread, Hdoc, Hwrite, Hnone.
  eexists. split; [reflexivity|]. cbn [fs]. by rewrite insert_insert_eq.
Qed.

Lemma present_insert_other files (f g : string) c :
  f <> g -> present (<[g := c]> files) f = present files f.
Proof. intros Hne. unfold present. by rewrite lookup_insert_ne. Qed.

Lemma filter_standalone_detected files l field (b : bool) :
  forallb standalone l = true -> standalone field = false ->
  List.filter standalone (List.filter (present files) l ++ (if b then [field] else [])) =
  List.filter (present files) l.
Proof.
  intros Hl Hfield. rewrite List.filter_app.
  replace (List.filter standalone (if b then [field] else [])) with (@nil string)
    by (destruct b; cbn [List.filter]; by rewrite ?Hfield).
  rewrite app_nil_r. apply forallb_filter_id. apply forallb_forall.
  intros f [Hf _]%filter_In. by eapply forallb_forall in Hl.
Qed.

(** X5.  Detection and the manifest update agree on the embedded
    configuration: on the same project the update removes [eslintConfig]
    (or [prettier]) exactly when detection has reported that field, and a
    detection run after the update reports the same files and no field. *)
Theorem update_clears_detected_fields s c removedFields s' :
  findExistingConfigs s = (Ok c, s) ->
  updatePackageJson s = (Ok removedFields, s') ->
  (eslintConfig_field ∈ eslint c <-> "eslintConfig" ∈ removedFields) /\
  (prettier_field ∈ prettier c <-> "prettier" ∈ removedFields) /\
  findExistingConfigs s' =
    (Ok (Configs (List.filter standalone (eslint c))
                 (List.filter standalone (prettier c))), s').
Proof.
  intros Hdet Hupd.
  pose proof known_files_standalone as Hk.
  rewrite forallb_app in Hk. apply andb_prop in Hk as [Hk1 Hk2].
  destruct fields_not_standalone as [F1 F2].
  assert (Hc : c = Configs
      (List.filter (present (root (fs s))) CONFIG_FILES_eslint ++
       (if embedded (root (fs s) !! "package.json") "eslintConfig"
        then [eslintConfig_field] else []))
      (List.filter (present (root (fs s))) CONFIG_FILES_prettier ++
       (if embedded (root (fs s) !! "package.json") "prettier"
        then [prettier_field] else []))).
  { rewrite findExistingConfigs_eq in Hdet. cbn zeta in Hdet.
    destruct (root (fs s) !! "package.json") as [[doc|text]|];
      [destruct (fault OpRead "package.json"); [done|]; destruct doc; try done;
       by injection Hdet as <-
      |by destruct (fault OpRead "package.json")
      |by injection Hdet as <-]. }
  rewrite updatePackageJson_eq in Hupd.
  destruct (root (fs s) !! "package.json") as [[doc|text]|] eqn:Hpkg; [| |done];
    (destruct (fault OpRead "package.json") eqn:Hread; [done|]); [|done].
  destruct (updated_manifest doc) as [doc'|] eqn:Hdoc; [|done].
  destruct (fault OpWrite "package.json") eqn:Hwrite; [done|]. injection Hupd as <- <-.
  assert (Hfield : forall l field (b : bool),
    forallb standalone l = true -> standalone field = false ->
    field ∈ List.filter (present (root (fs s))) l ++ (if b then [field] else []) <->
    b = true).
  { intros l field b Hl Hf. rewrite elem_of_app. split.
    - intros [Hin|Hin].
      + apply list_elem_of_In, filter_In in Hin as [Hin _].
        eapply forallb_forall in Hl; [|exact Hin]. congruence.
      + destruct b; [done|by apply elem_of_nil in Hin].
    - intros ->. right. by left. }
  subst c. cbn [eslint prettier]. rewrite !removed_fields_spec, !Hfield by done.
  split; [split; [by split; [left|]|by intros [_ ?]]|].
  split; [split; [by split; [right|]|by intros [_ ?]]|].
  rewrite !filter_standalone_detected by done.
  pose proof (updated_manifest_clean _ _ Hdoc) as [Hnone Hshape].
  rewrite findExistingConfigs_eq. cbn [fs root backup trace]. cbn zeta.
  rewrite lookup_insert_eq, Hread.
  assert (He : embedded (Some (Json doc')) "eslintConfig" = false /\
               embedded (Some (Json doc')) "prettier" = false).
  { revert Hnone. unfold removed_fields. cbn [List.filter].
    destruct (embedded (Some (Json doc')) "eslintConfig");
      destruct (embedded (Some (Json doc')) "prettier");
      intros H; try discriminate H. by split. }
  destruct He as [-> ->]. rewrite !app_nil_r.
  assert (Hsame : forall l, (forall f, f ∈ l -> f <> "package.json") ->
    List.filter (present (<["package.json" := Json doc']> (root (fs s)))) l =
    List.filter (present (root (fs s))) l).
  { intros l Hl. apply filter_ext_in. intros f Hf%list_elem_of_In.
    apply present_insert_other. by apply Hl. }
  rewrite !Hsame.
  - by destruct doc'.
  - intros f Hf. apply managed_files_not_legacy, elem_of_app. by right.
  - intros f Hf. apply managed_files_not_legacy, elem_of_app. by left.
Qed.


(** *** Backup and removal *)

(** X9.  A backup that returns leaves the root as it was and copies
    exactly the detected files that exist; in the backup directory each of
    them then has the content it has under the root, whatever the directory
    held under that name before, and every other file of the directory is
    as it was. *)
Theorem backup_overwrites_and_keeps c s rec s' :
  backupConfigs c s = (Ok rec, s') ->
  root (fs s') = root (fs s) /\
  (forall f, f ∈ backedUp rec <->
     f ∈ entries c /\ standalone f = true /\ is_Some (root (fs s) !! f)) /\
  exists dir',
    backup (fs s') = Some dir' /\
    (forall f, f ∈ backedUp rec -> dir' !! f = root (fs s) !! f) /\
    (forall f, f ∉ backedUp rec -> dir' !! f = default ∅ (backup (fs s)) !! f).
Proof.
  intros Hb.
  apply backupConfigs_spec in Hb as [(_ & _ & _ & ?)|(copied & _ & -> & _ & -> & ->)];
    [done|].
  cbn [fs root backup backedUp].
  assert (Hin : forall f, f ∈ copyable (root (fs s)) (entries c) <->
            f ∈ entries c /\ standalone f = true /\ is_Some (root (fs s) !! f)).
  { intros f. rewrite elem_of_copyable. unfold present. by rewrite bool_decide_eq_true. }
  split; [done|]. split; [done|]. eexists. split; [reflexivity|]. split.
  - intros f Hf. apply copy_into_lookup; [done|]. by apply Hin in Hf as (_ & _ & ?).
  - intros f Hf. by apply copy_into_other.
Qed.

Lemma remove_one_Ok f s pushed s1 :
  remove_one f s = (Ok pushed, s1) ->
  (pushed = [] /\ s1 = s) \/
  (pushed = [f] /\ is_Some (root (fs s) !! f) /\
   root (fs s1) = delete f (root (fs s))).
Proof.
  unfold remove_one. destruct (includes f "package.json"); [intros [= <- <-]; by left|].
  unfold bind, existsSync, unlinkSync.
  destruct (root (fs s) !! f) as [c|] eqn:Hf.
  - rewrite bool_decide_eq_true_2 by eauto. rewrite Hf.
    destruct (fault OpUnlink f); [done|]. intros [= <- <-]. right. eauto.
  - rewrite bool_decide_eq_false_2 by (by intros [? ?]). intros [= <- <-]. by left.
Qed.

Lemma remove_one_Throw f s e s1 :
  remove_one f s = (Throw e, s1) -> fault OpUnlink f = true.
Proof.
  unfold remove_one. destruct (includes f "package.json"); [done|].
  unfold bind, existsSync, unlinkSync.
  destruct (root (fs s) !! f) as [c|] eqn:Hf.
  - rewrite bool_decide_eq_true_2 by eauto. rewrite Hf.
    by destruct (fault OpUnlink f).
  - by rewrite bool_decide_eq_false_2 by (by intros [? ?]).
Qed.

(** No file is removed twice: once unlinked, it is not there for a
    second entry of the same name. *)
Lemma remove_loop_NoDup l : forall s out s',
  forEach_push remove_one l s = (Ok out, s') ->
  NoDup out /\ forall f, f ∈ out -> is_Some (root (fs s) !! f).
Proof.
  induction l as [|g l IH]; intros s out s' Hrun.
  { injection Hrun as <- <-. split; [constructor|]. by intros f ?%elem_of_nil. }
  cbn [forEach_push] in Hrun.
  apply bind_inv in Hrun as [(pushed & s1 & Hone & Hrun)|[(? & _ & ?)|(? & _ & ?)]];
    [|done..].
  apply bind_inv in Hrun as [(more & s2 & Hrest & [= <- <-])|[(? & _ & ?)|(? & _ & ?)]];
    [|done..].
  apply IH in Hrest as [Hnd Hin].
  apply remove_one_Ok in Hone as [[-> ->]|(-> & Hg & Hroot)]; [done|].
  cbn [app]. split.
  - apply NoDup_cons. split; [|done]. intros Hg'. apply Hin in Hg' as [x Hx].
    rewrite Hroot, lookup_delete_eq in Hx. done.
  - intros f [->|Hf]%elem_of_cons; [done|]. apply Hin in Hf as [x Hx].
    rewrite Hroot in Hx. apply lookup_delete_Some in Hx as [_ Hx]. eauto.
Qed.

Lemma remove_loop_Throw l : forall s e s',
  forEach_push remove_one l s = (Throw e, s') ->
  exists f, f ∈ l /\ fault OpUnlink f = true.
Proof.
  induction l as [|g l IH]; intros s e s' Hrun; [done|].
  cbn [forEach_push] in Hrun.
  apply bind_inv in Hrun as [(pushed & s1 & Hone & Hrun)|[(? & Hone & _)|(? & _ & ?)]];
    [| |done].
  - apply bind_inv in Hrun as [(more & s2 & _ & ?)|[(? & Hrest & _)|(? & _ & ?)]];
      [done| |done].
    apply IH in Hrest as (f & Hf & Hfault). exists f. split; [by right|done].
  - apply remove_one_Throw in Hone. exists g. split; [by left|done].
Qed.

(** X10.  A removal that returns has unlinked exactly the detected files
    that existed, each once even when it is listed twice; every other file
    under the root is as it was, and so is the backup directory. *)
Theorem removal_deletes_what_exists c s removed s' :
  removeConfigFiles c s = (Ok removed, s') ->
  NoDup removed /\
  (forall f, f ∈ removed <->
     f ∈ entries c /\ standalone f = true /\ is_Some (root (fs s) !! f)) /\
  (forall f, root (fs s') !! f =
     if bool_decide (f ∈ removed) then None else root (fs s) !! f) /\
  backup (fs s') = backup (fs s).
Proof.
  intros Hrm. pose proof Hrm as Hloop. pose proof Hrm as Hdone.
  apply removeConfigFiles_spec in Hrm as (removed' & -> & Hall & <-).
  apply remove_loop_NoDup in Hloop as [Hnd _].
  cbn [fs root backup]. split; [done|].
  assert (Hlook : forall f,
    foldl (fun m g => delete g m) (root (fs s)) removed !! f =
    if bool_decide (f ∈ removed) then None else root (fs s) !! f)
    by (intros f; apply foldl_delete_lookup).
  split; [|by split].
  intros f. split.
  - intros Hf. eapply Forall_forall in Hall as (? & ? & Hp); [|exact Hf].
    unfold present in Hp. by apply bool_decide_eq_true in Hp.
  - intros (Hf & Hst & Hp).
    eapply remove_loop_done in Hdone; [|exact Hf|exact Hst].
    cbn [fs root] in Hdone. rewrite Hlook in Hdone.
    destruct (decide (f ∈ removed)) as [|Hnin]; [done|].
    rewrite bool_decide_eq_false_2 in Hdone by done.
    rewrite Hdone in Hp. by destruct Hp.
Qed.


(** *** The run as a whole *)

Lemma detectPackageManager_root s s' pm :
  root (fs s') = root (fs s) ->
  detectPackageManager s = (Ok pm, s) -> detectPackageManager s' = (Ok pm, s').
Proof.
  intros Hroot. unfold detectPackageManager, bind, existsSync, ret.
  repeat (cbn beta; rewrite ?Hroot; destruct (bool_decide _); [by intros [= <-]|]).
  by intros [= <-].
Qed.

(** The events of step 2: at most one [mkdir], then copies of detected
    files. *)
Lemma backup_step_trace c s r s' :
  backup_step c s = (r, s') ->
  exists mk copied,
    trace s' = trace s ++ mk ++ map ECopy copied /\
    (mk = [] \/ mk = [EMkdir]) /\
    (mk <> [] -> any_config c = true) /\
    Forall (fun f => f ∈ entries c /\ standalone f = true) copied.
Proof.
  unfold backup_step. destruct (any_config c) eqn:Hany.
  2:{ intros [= <- <-]. exists [], []. rewrite !app_nil_r. split_and!; eauto; done. }
  intros Hb.
  assert (Hcopy : forall l, Forall (fun f => f ∈ l /\ standalone f = true)
                              (copyable (root (fs s)) l)).
  { intros l. apply Forall_forall. intros f Hf.
    by apply elem_of_copyable in Hf as (? & ? & _). }
  apply bind_inv in Hb as [(rec & s1 & Hb & [= <- <-])|[(e & Hb & ->)|(k & Hb & ->)]];
    apply backupConfigs_spec in Hb as [(_ & _ & -> & ?)|(copied & _ & -> & _ & Hr)];
    try done.
  - destruct Hr as [_ ->]. eexists _, _. split; [reflexivity|].
    split_and!; eauto; by destruct (backup (fs s)); eauto.
  - exists [], []. rewrite !app_nil_r. split_and!; eauto; done.
  - destruct Hr as (l1 & g & l2 & Hl & -> & _). eexists _, _. split; [reflexivity|].
    split_and!; eauto; [by destruct (backup (fs s)); eauto|].
    eapply Forall_impl; [apply Hcopy|]. intros f [Hf ?]. split; [|done].
    rewrite Hl. apply elem_of_app. by left.
Qed.

Lemma backup_step_Throw c s e s' :
  backup_step c s = (Throw e, s') -> exists op file, fault op file = true.
Proof.
  unfold backup_step. destruct (any_config c); [|done]. intros Hb.
  apply bind_inv in Hb as [(? & ? & _ & ?)|[(e' & Hb & _)|(? & _ & ?)]]; [done| |done].
  apply backupConfigs_spec in Hb as [(_ & ? & _)|(copied & _ & _ & _ & Hr)]; [eauto|].
  destruct Hr as (l1 & g & l2 & _ & _ & _ & _ & ? & _). eauto.
Qed.

Lemma files_step_Throw c s e s' :
  files_step c s = (Throw e, s') -> exists file, fault OpUnlink file = true.
Proof.
  unfold files_step. destruct (any_config c); [|done]. intros Hrm.
  apply bind_inv in Hrm as [(? & ? & _ & ?)|[(e' & Hrm & _)|(? & _ & ?)]]; [done| |done].
  apply remove_loop_Throw in Hrm as (f & _ & ?). eauto.
Qed.

(** Every run, event by event: what was done before it ended, and how it
    ended. *)
Lemma main_events s r s' :
  main s = (r, s') ->
  exists pm mk copied rest,
    detectPackageManager s = (Ok pm, s) /\
    trace s' = trace s ++ mk ++ map ECopy copied ++ rest /\
    (mk = [] \/ mk = [EMkdir]) /\
    ((exists e, findExistingConfigs s = (Throw e, s) /\ r = Throw e /\
                mk = [] /\ copied = [] /\ rest = []) \/
     (exists c,
        findExistingConfigs s = (Ok c, s) /\
        (mk <> [] -> any_config c = true) /\
        Forall (fun f => f ∈ entries c /\ standalone f = true) copied /\
        ((rest = [] /\ any_config c = true /\ exists e, r = Throw e) \/
         (rest = [EExec (install_command pm) false] /\ r = Exit 1) \/
         (rest = [EExec (install_command pm) true] /\
          fault OpWrite "biome.json" = true /\ exists e, r = Throw e) \/
         (rest = [EExec (install_command pm) true; EWrite "biome.json"] /\
          fault OpWrite "biome.json" = false /\ exists e, r = Throw e) \/
         (exists u removed,
            rest = [EExec (install_command pm) true; EWrite "biome.json";
                    EWrite "package.json"] ++ u ++ map EUnlink removed /\
            fault OpWrite "biome.json" = false /\
            (u = [] \/ exists toRemove ok, u = [EExec (uninstall_command pm toRemove) ok]) /\
            Forall (fun f => f ∈ entries c /\ standalone f = true) removed /\
            (removed <> [] -> any_config c = true) /\
            (r = Ok tt \/
             exists e file, r = Throw e /\ fault OpUnlink file = true))))).
Proof.
  intros Hmain. apply main_trail in Hmain.
  destruct (detectPackageManager_total s) as [pm0 Hpm0].
  destruct Hmain as
    [ e Hdet
    | c e s2 Hdet Hbk
    | c s2 pm Hdet Hbk Hpm Hspawn
    | c s2 pm fs3 e Hdet Hbk Hpm Hspawn Hfault ->
    | c s2 pm fs3 s4 e Hdet Hbk Hpm Hspawn Hgen Hupd
    | c s2 pm fs3 s4 rf s5 s6 r s' Hdet Hbk Hpm Hspawn Hgen Hupd Hpk Hrm ].
  - exists pm0, [], [], []. rewrite !app_nil_r. split_and!; eauto. left. eauto 10.
  - pose proof Hbk as Hroot.
    apply backup_step_spec in Hroot as (_ & Hroot & _ & _ & _ & Hnone & _).
    apply backup_step_trace in Hbk as (mk & copied & Htr & Hmk & Hany & Hcopied).
    exists pm0, mk, copied, []. rewrite !app_nil_r. split_and!; eauto.
    right. exists c. split_and!; eauto. left. split_and!; eauto.
    destruct (any_config c); [done|]. by destruct Hnone as [_ ?].
  - pose proof Hbk as Hroot. apply backup_step_spec in Hroot as (_ & Hroot & _).
    apply backup_step_trace in Hbk as (mk & copied & Htr & Hmk & Hany & Hcopied).
    exists pm, mk, copied, [EExec (install_command pm) false]. cbn [trace].
    rewrite Htr, <- !app_assoc. split_and!; eauto.
    { eapply detectPackageManager_root in Hpm; [|symmetry; exact Hroot]. done. }
    right. exists c. split_and!; eauto.
  - pose proof Hbk as Hroot. apply backup_step_spec in Hroot as (_ & Hroot & _).
    apply backup_step_trace in Hbk as (mk & copied & Htr & Hmk & Hany & Hcopied).
    exists pm, mk, copied, [EExec (install_command pm) true]. cbn [trace].
    rewrite Htr, <- !app_assoc. split_and!; eauto.
    { eapply detectPackageManager_root in Hpm; [|symmetry; exact Hroot]. done. }
    right. exists c. split_and!; eauto 10.
  - pose proof Hbk as Hroot. apply backup_step_spec in Hroot as (_ & Hroot & _).
    apply backup_step_trace in Hbk as (mk & copied & Htr & Hmk & Hany & Hcopied).
    exists pm, mk, copied, [EExec (install_command pm) true; EWrite "biome.json"].
    rewrite generate_step_eq in Hgen.
    destruct (fault OpWrite "biome.json") eqn:Hwb; [done|]. injection Hgen as <-.
    cbn [trace fs root backup]. rewrite Htr, <- !app_assoc. split_and!; eauto.
    { eapply detectPackageManager_root in Hpm; [|symmetry; exact Hroot]. done. }
    right. exists c. split_and!; eauto 10.
  - pose proof Hbk as Hroot. apply backup_step_spec in Hroot as (_ & Hroot & _).
    apply backup_step_trace in Hbk as (mk & copied & Htr & Hmk & Hany & Hcopied).
    rewrite generate_step_eq in Hgen.
    destruct (fault OpWrite "biome.json") eqn:Hwb; [done|]. injection Hgen as <-.
    destruct (packages_step_spec pm s5) as (s6' & Hpk' & Hs6).
    rewrite Hpk in Hpk'. injection Hpk' as <-.
    apply updatePackageJson_state in Hupd as [doc ->].
    pose proof Hrm as Hthrow.
    apply files_step_spec in Hrm as (Hexit & removed & -> & Hremoved & Hrany).
    assert (Hu : exists u, trace s6 =
              trace s ++ mk ++ map ECopy copied ++
              [EExec (install_command pm) true; EWrite "biome.json";
               EWrite "package.json"] ++ u /\
              (u = [] \/ exists toRemove ok, u = [EExec (uninstall_command pm toRemove) ok])).
    { destruct Hs6 as [->|(toRemove & ok & fs6 & _ & -> & _)]; cbn [trace]; rewrite Htr.
      - exists []. rewrite <- !app_assoc. cbn. eauto.
      - exists [EExec (uninstall_command pm toRemove) ok].
        rewrite <- !app_assoc. cbn. split_and!; eauto. }
    destruct Hu as (u & Hs6' & Hu).
    exists pm, mk, copied,
      ([EExec (install_command pm) true; EWrite "biome.json"; EWrite "package.json"]
       ++ u ++ map EUnlink removed).
    cbn [trace]. rewrite Hs6', <- !app_assoc. split_and!; eauto.
    { eapply detectPackageManager_root in Hpm; [|symmetry; exact Hroot]. done. }
    right. exists c. split_and!; eauto.
    do 4 right. exists u, removed. split_and!; eauto.
    + eapply Forall_impl; [exact Hremoved|]. by intros f (? & ? & _).
    + destruct r as [[]|e|k]; [by left| |by destruct (Hexit k)].
      apply files_step_Throw in Hthrow as [file ?]. right. eauto.
Qed.


Lemma from_stage_nil pm n : from_stage pm n [].
Proof. split; constructor. Qed.

Lemma from_stage_cons pm i n e evs :
  at_stage pm i e -> (i < n)%nat -> from_stage pm n evs -> from_stage pm i (e :: evs).
Proof.
  intros He Hlt [Hall Hsorted]. split.
  - constructor; [by exists i|]. eapply Forall_impl; [exact Hall|].
    intros e' (j & ? & ?). exists j. split; [done|lia].
  - constructor; [done|]. eapply Forall_impl; [exact Hall|].
    intros e' (j & ? & ?). exists i, j. split_and!; [done..|]. left. lia.
Qed.

Lemma from_stage_again pm i e evs :
  at_stage pm i e -> (i = 2 \/ i = 7)%nat -> from_stage pm i evs ->
  from_stage pm i (e :: evs).
Proof.
  intros He Hi [Hall Hsorted]. split.
  - constructor; [by exists i|done].
  - constructor; [done|]. eapply Forall_impl; [exact Hall|].
    intros e' (j & ? & ?). exists i, j. split_and!; [done..|].
    destruct (decide (i = j)) as [<-|]; [by right|left; lia].
Qed.

Lemma from_stage_weaken pm m n evs :
  (m <= n)%nat -> from_stage pm n evs -> from_stage pm m evs.
Proof.
  intros Hle [Hall Hsorted]. split; [|done]. eapply Forall_impl; [exact Hall|].
  intros e (j & ? & ?). exists j. split; [done|lia].
Qed.

Lemma from_stage_unlinks pm removed : from_stage pm 7 (map EUnlink removed).
Proof.
  induction removed as [|f removed IH]; [apply from_stage_nil|].
  cbn [map]. apply from_stage_again; [constructor|by right|done].
Qed.

Lemma from_stage_copies pm copied rest :
  from_stage pm 3 rest -> from_stage pm 2 (map ECopy copied ++ rest).
Proof.
  intros Hrest. induction copied as [|f copied IH].
  - cbn. eapply from_stage_weaken; [|exact Hrest]. lia.
  - cbn [map app]. apply from_stage_again; [constructor|by left|done].
Qed.

(** X11.  In every run, whatever its outcome, the effects come in the
    order of the pipeline: at most one [mkdir], then copies, then the
    install, the write of [biome.json], the write of [package.json], at
    most one uninstall, then removals.  The install and the uninstall are
    commands of one package manager, the one that the lock files of the
    project name before anything is done to it. *)
Theorem effects_follow_the_pipeline s :
  exists pm evs,
    detectPackageManager s = (Ok pm, s) /\
    trace (run s).2 = trace s ++ evs /\
    Forall (fun e => exists i, at_stage pm i e) evs /\
    StronglySorted (in_order pm) evs.
Proof.
  destruct (main s) as [r s'] eqn:Hmain.
  rewrite (run_of_main _ _ _ Hmain). cbn [snd].
  apply main_events in Hmain as (pm & mk & copied & rest & Hpm & Htr & Hmk & Hrun).
  exists pm, (mk ++ map ECopy copied ++ rest). split; [done|]. split; [done|].
  assert (Hrest : from_stage pm 3 rest).
  { destruct Hrun as [(e & _ & _ & _ & _ & ->)|(c & _ & _ & _ & Hrest)];
      [apply from_stage_nil|].
    destruct Hrest as [[-> _]|[[-> _]|[[-> _]|[[-> _]|(u & removed & -> & _ & Hu & _)]]]].
    - apply from_stage_nil.
    - eapply from_stage_cons; [constructor| |apply (from_stage_nil _ 4)]. lia.
    - eapply from_stage_cons; [constructor| |apply (from_stage_nil _ 4)]. lia.
    - eapply from_stage_cons; [constructor| |]; [|
        eapply from_stage_cons; [constructor| |apply (from_stage_nil _ 5)]]; lia.
    - assert (Hu' : from_stage pm 6 (u ++ map EUnlink removed)).
      { destruct Hu as [->|(toRemove & ok & ->)]; cbn [app].
        - eapply from_stage_weaken; [|apply from_stage_unlinks]. lia.
        - eapply from_stage_cons; [constructor| |apply from_stage_unlinks]. lia. }
      cbn [app].
      eapply from_stage_cons; [constructor| |]; [|
        eapply from_stage_cons; [constructor| |]; [|
          eapply from_stage_cons; [constructor| |exact Hu']]]; lia. }
  assert (Hall : from_stage pm 1 (mk ++ map ECopy copied ++ rest)).
  { apply (from_stage_copies pm copied) in Hrest. destruct Hmk as [->| ->]; cbn [app].
    - eapply from_stage_weaken; [|exact Hrest]. lia.
    - eapply from_stage_cons; [constructor| |exact Hrest]. lia. }
  destruct Hall as [Hall Hsorted]. split; [|done].
  eapply Forall_impl; [exact Hall|]. intros e (i & ? & _). by exists i.
Qed.


(** Membership in a list of events put together from known pieces. *)
Ltac event_cases :=
  repeat match goal with
    | H : _ ∈ _ ++ _ |- _ => apply elem_of_app in H as [H|H]
    | H : _ ∈ _ :: _ |- _ => apply elem_of_cons in H as [H|H]
    | H : _ ∈ [] |- _ => by apply elem_of_nil in H
    | H : _ ∈ map _ _ |- _ => apply list_elem_of_fmap in H as (? & H & ?)
    | H : @eq event _ _ |- _ => first [discriminate H | injection H as H; subst]
    end.

(** X12.  In every run, the files copied or unlinked are files of the two
    tables of legacy configuration that existed when the run began, and the
    files written are [biome.json] and [package.json].  So neither the
    manifest, from which the update deletes the embedded configuration, nor
    a [biome.json] that was there before is ever copied to the backup
    directory. *)
Theorem only_known_files_are_touched s :
  exists evs,
    trace (run s).2 = trace s ++ evs /\
    (forall f, ECopy f ∈ evs \/ EUnlink f ∈ evs ->
       f ∈ CONFIG_FILES_eslint ++ CONFIG_FILES_prettier /\
       is_Some (root (fs s) !! f)) /\
    (forall f, EWrite f ∈ evs -> f = "biome.json" \/ f = "package.json") /\
    (ECopy "biome.json" ∉ evs) /\ (ECopy "package.json" ∉ evs).
Proof.
  destruct (main s) as [r s'] eqn:Hmain.
  rewrite (run_of_main _ _ _ Hmain). cbn [snd].
  apply main_events in Hmain as (pm & mk & copied & rest & Hpm & Htr & Hmk & Hrun).
  exists (mk ++ map ECopy copied ++ rest). split; [done|].
  cut ((forall f, ECopy f ∈ mk ++ map ECopy copied ++ rest \/
                  EUnlink f ∈ mk ++ map ECopy copied ++ rest ->
          f ∈ CONFIG_FILES_eslint ++ CONFIG_FILES_prettier /\
          is_Some (root (fs s) !! f)) /\
       (forall f, EWrite f ∈ mk ++ map ECopy copied ++ rest ->
          f = "biome.json" \/ f = "package.json")).
  { intros [Hfiles Hwrites]. split_and!; [done..| |].
    - intros Hin. destruct (Hfiles "biome.json") as [Hknown _]; [by left|].
      by destruct (managed_files_not_legacy _ Hknown).
    - intros Hin. destruct (Hfiles "package.json") as [Hknown _]; [by left|].
      by destruct (managed_files_not_legacy _ Hknown). }
  destruct Hrun as [(e & _ & _ & -> & -> & ->)|(c & Hdet & _ & Hcopied & Hrest)].
  { split; [intros f [H|H]|intros f H]; event_cases. }
  assert (Hknown : forall f, f ∈ entries c -> standalone f = true ->
            f ∈ CONFIG_FILES_eslint ++ CONFIG_FILES_prettier /\
            is_Some (root (fs s) !! f)).
  { intros f Hf Hst. split.
    - eapply detected_entry_known; [by rewrite Hdet|done..].
    - eapply (detected_file_present s c f) in Hf; [|by rewrite Hdet|done].
      unfold present in Hf. by apply bool_decide_eq_true in Hf. }
  assert (Hin : forall (l : list string) f,
            Forall (fun f => f ∈ entries c /\ standalone f = true) l -> f ∈ l ->
            f ∈ CONFIG_FILES_eslint ++ CONFIG_FILES_prettier /\
            is_Some (root (fs s) !! f)).
  { intros l f Hl Hf. eapply Forall_forall in Hl as [? ?]; [|exact Hf]. by apply Hknown. }
  destruct Hrest as [[-> _]|[[-> _]|[[-> _]|[[-> _]|(u & removed & -> & _ & Hu & Hremoved & _)]]]];
    (split; [intros f [H|H]|intros f H]);
    try (destruct Hu as [->|(toRemove & ok & ->)]);
    destruct Hmk as [->| ->]; event_cases; eauto.
Qed.

(** X13.  The exit status of the process is 0 or 1, and it is 0 only
    after the install has succeeded and both [biome.json] and
    [package.json] have been written. *)
Theorem exit_status_is_0_or_1 s :
  ((run s).1 = 0 \/ (run s).1 = 1) /\
  ((run s).1 = 0 ->
   exists pm evs,
     trace (run s).2 = trace s ++ evs /\
     EExec (install_command pm) true ∈ evs /\
     EWrite "biome.json" ∈ evs /\ EWrite "package.json" ∈ evs).
Proof.
  destruct (main s) as [r s'] eqn:Hmain.
  rewrite (run_of_main _ _ _ Hmain). cbn [fst snd].
  apply main_events in Hmain as (pm & mk & copied & rest & Hpm & Htr & Hmk & Hrun).
  destruct Hrun as [(e & _ & -> & _)|(c & _ & _ & _ & Hrest)]; [by split; [right|]|].
  destruct Hrest as [(_ & _ & e & ->)|[[_ ->]|[(_ & _ & e & ->)|[(_ & _ & e & ->)|
                     (u & removed & -> & _ & _ & _ & _ & [->|(e & _ & -> & _)])]]]];
    try (by split; [right|]).
  split; [by left|]. intros _. exists pm. eexists. split; [exact Htr|].
  rewrite !elem_of_app, !elem_of_cons. split_and!; eauto 10.
Qed.

(** X14.  When configuration has been detected and the backup directory
    cannot be made, the run ends with status 1 before anything is changed:
    no copy, no install, no write, no removal. *)
Theorem mkdir_failure_changes_nothing s c :
  findExistingConfigs s = (Ok c, s) ->
  any_config c = true ->
  backup (fs s) = None ->
  fault OpMkdir ".biome-migration-backup" = true ->
  run s = (1, s).
Proof.
  intros Hdet Hany Hbk Hfault.
  assert (Hmain : main s = (Throw (EIO OpMkdir ".biome-migration-backup"), s)).
  { unfold main, bind at 1. rewrite Hdet.
    unfold bind at 1, backup_step. rewrite Hany.
    unfold bind at 1, backupConfigs, bind at 1, existsSync_backupDir.
    rewrite Hbk. rewrite bool_decide_eq_false_2 by (by intros [? ?]). cbn [negb].
    unfold bind at 1, mkdirSync_backupDir. by rewrite Hfault. }
  by rewrite (run_of_main _ _ _ Hmain).
Qed.

(** X15.  With no legacy configuration detected the run makes no backup
    directory, copies nothing and removes nothing, and still goes on: its
    first effect is the install command, and what follows are writes and
    commands only. *)
Theorem nothing_to_migrate s c :
  findExistingConfigs s = (Ok c, s) ->
  any_config c = false ->
  exists pm ok rest,
    detectPackageManager s = (Ok pm, s) /\
    trace (run s).2 = trace s ++ EExec (install_command pm) ok :: rest /\
    Forall (fun e => match e with EExec _ _ | EWrite _ => True | _ => False end) rest.
Proof.
  intros Hdet Hany.
  destruct (main s) as [r s'] eqn:Hmain.
  rewrite (run_of_main _ _ _ Hmain). cbn [snd].
  apply main_events in Hmain as (pm & mk & copied & rest & Hpm & Htr & Hmk & Hrun).
  destruct Hrun as [(e & Hthrow & _)|(c' & Hdet' & Hmkany & Hcopied & Hrest)];
    [congruence|].
  assert (c' = c) as -> by congruence.
  assert (Hnone : forall l : list string,
            Forall (fun f => f ∈ entries c /\ standalone f = true) l -> l = []).
  { intros [|f l] Hl; [done|]. apply Forall_cons in Hl as [[Hf _] _].
    assert (entries c <> []) as Hne
      by (by intros Hnil; rewrite Hnil in Hf; apply elem_of_nil in Hf).
    apply any_config_entries in Hne. congruence. }
  assert (mk = []) as ->.
  { destruct Hmk as [->| ->]; [done|]. assert (any_config c = true) by (by apply Hmkany).
    congruence. }
  apply Hnone in Hcopied as ->. cbn [map app] in Htr.
  destruct Hrest as [(_ & ? & _)|[[-> _]|[[-> _]|[[-> _]|
                     (u & removed & -> & _ & Hu & Hremoved & _)]]]]; [congruence|..].
  - exists pm, false, []. split_and!; eauto.
  - exists pm, true, []. split_and!; eauto.
  - exists pm, true, [EWrite "biome.json"]. split_and!; eauto.
  - apply Hnone in Hremoved as ->. cbn [map] in Htr. rewrite app_nil_r in Htr.
    exists pm, true, ([EWrite "biome.json"; EWrite "package.json"] ++ u).
    split_and!; eauto.
    destruct Hu as [->|(toRemove & ok & ->)]; by repeat constructor.
Qed.


(** X16.  On a platform where no file operation fails, with a manifest
    that is an object whose [scripts] member is absent, falsy or an object,
    and a package manager that keeps to its own business, the run ends
    with status 0 as soon as the install command succeeds, and leaves the
    project migrated: no legacy file, the generated [biome.json], and a
    manifest with no truthy [eslintConfig] or [prettier] member whose
    [scripts] member is an object that holds the five entries.  Whether
    the uninstall succeeds does not matter. *)
Theorem healthy_run_succeeds s pm members :
  healthy ->
  keeps_project ->
  root (fs s) !! "package.json" = Some (Json (JObj members)) ->
  match prop_lookup "scripts" members with
  | None | Some (JObj _) => True
  | Some other => truthy (JSON_parse other) = false
  end ->
  detectPackageManager s = (Ok pm, s) ->
  (forall w, is_Some (spawn (install_command pm) w)) ->
  exists s', run s = (0, s') /\ migrated (fs s').
Proof.
  intros Hhealthy Hkeep Hpkg Htakes Hpm Hinstall.
  assert (Hdet : exists c, findExistingConfigs s = (Ok c, s)).
  { rewrite findExistingConfigs_eq. cbn zeta. rewrite Hpkg, Hhealthy. eauto. }
  destruct Hdet as [c Hdet].
  destruct (backup_step c s) as [r2 s2] eqn:Hbk.
  assert (r2 = Ok tt) as ->.
  { destruct r2 as [[]|e|k]; [done| |].
    - apply backup_step_Throw in Hbk as (op & file & Hf). by rewrite Hhealthy in Hf.
    - apply backup_step_spec in Hbk as [Hk _]. by destruct (Hk k). }
  pose proof Hbk as Hroot. apply backup_step_spec in Hroot as (_ & Hroot & _).
  pose proof (detectPackageManager_root s s2 pm Hroot Hpm) as Hpm2.
  destruct (Hinstall (fs s2)) as [fs3 Hsp].
  destruct (Hkeep _ _ _ Hsp) as (_ & _ & Hkept).
  rewrite Hroot, Hpkg in Hkept. destruct Hkept as (members' & Hpkg3 & _).
  set (s4 := State (FileSys (<["biome.json" := Json (JSON_stringify generateBiomeConfig)]>
                               (root fs3))
                            (backup fs3))
                   ((trace s2 ++ [EExec (install_command pm) true]) ++ [EWrite "biome.json"])).
  assert (Hgen : generate_step (State fs3 (trace s2 ++ [EExec (install_command pm) true]))
                 = (Ok tt, s4)).
  { rewrite generate_step_eq. by rewrite Hhealthy. }
  assert (Hupd : exists rf s5, updatePackageJson s4 = (Ok rf, s5)).
  { rewrite updatePackageJson_eq. unfold s4. cbn [fs root backup trace].
    rewrite lookup_insert_ne by done. rewrite Hpkg3, !Hhealthy.
    cbn [updated_manifest]. eauto. }
  destruct Hupd as (rf & s5 & Hupd).
  destruct (packages_step_spec pm s5) as (s6 & Hpk & _).
  destruct (files_step c s6) as [r8 s'] eqn:Hrm.
  assert (r8 = Ok tt) as ->.
  { destruct r8 as [[]|e|k]; [done| |].
    - apply files_step_Throw in Hrm as (file & Hf). by rewrite Hhealthy in Hf.
    - apply files_step_spec in Hrm as [Hk _]. by destruct (Hk k). }
  assert (Hmain : main s = (Ok tt, s')).
  { unfold main, bind at 1. rewrite Hdet. unfold bind at 1. rewrite Hbk.
    unfold bind at 1. rewrite Hpm2. unfold bind at 1. rewrite install_step_eq, Hsp.
    unfold bind at 1. rewrite Hgen. unfold bind at 1, update_step, bind at 1.
    rewrite Hupd. cbn [ret]. unfold bind at 1. by rewrite Hpk. }
  pose proof (run_of_main _ _ _ Hmain) as Hrun. cbn in Hrun.
  exists s'. split; [done|].
  destruct (run_zero_leaves s s' Hkeep Hrun) as (Hleg & Hbiome & Hset & _).
  split_and!; [done..|]. apply Hset. by rewrite Hpkg.
Qed.

(** X17.  With a package manager that keeps to its own business, a run
    that ends with status 0 leaves no legacy file and the generated
    [biome.json]; every legacy file that was there when it began has been
    copied to the backup directory and unlinked; and if the manifest
    was an object whose [scripts] member was absent, falsy or an object,
    the project is migrated: the manifest has no truthy [eslintConfig] or
    [prettier] member and its [scripts] member is an object that holds
    the five entries. *)
Theorem successful_run_migrates s s' :
  keeps_project -> run s = (0, s') ->
  (forall f, f ∈ CONFIG_FILES_eslint ++ CONFIG_FILES_prettier ->
     root (fs s') !! f = None) /\
  root (fs s') !! "biome.json" = Some (Json (JSON_stringify generateBiomeConfig)) /\
  (takes_scripts (root (fs s) !! "package.json") -> migrated (fs s')) /\
  exists evs,
    trace s' = trace s ++ evs /\
    forall f, f ∈ CONFIG_FILES_eslint ++ CONFIG_FILES_prettier ->
      is_Some (root (fs s) !! f) -> ECopy f ∈ evs /\ EUnlink f ∈ evs.
Proof.
  intros Hkeep Hrun.
  pose proof (run_zero_leaves s s' Hkeep Hrun) as (Hleg & Hbiome & Hset & _).
  split; [done|]. split; [done|].
  split; [intros Htakes; split_and!; [done..|by apply Hset]|].
  apply run_zero in Hrun
    as (c & s2 & pm & fs3 & s4 & rf & s5 & s6 & Hdet & Hbk & Hpm & Hsp & Hgen & Hupd & Hpk & Hrm).
  assert (Hc : (findExistingConfigs s).1 = Ok c) by (by rewrite Hdet).
  pose proof Hbk as Hbk'.
  apply backup_step_spec in Hbk' as (_ & Hroot2 & evs2 & Ht2 & _ & _ & Hcopies).
  destruct (Hkeep _ _ _ Hsp) as (Hleg3 & _ & _).
  rewrite generate_step_eq in Hgen.
  destruct (fault OpWrite "biome.json"); [done|]. injection Hgen as <-.
  pose proof Hupd as Hupd'. apply update_settles in Hupd' as (_ & _ & _ & _ & _ & Hfr5).
  apply updatePackageJson_state in Hupd as [doc Hs5]. cbn [fs root] in Hfr5.
  assert (H6 : (forall f, f ∈ CONFIG_FILES_eslint ++ CONFIG_FILES_prettier ->
                  root (fs s6) !! f = root (fs s5) !! f) /\
               exists u, trace s6 = trace s5 ++ u).
  { destruct (packages_step_spec pm s5) as (s6' & Hpk' & Hs6).
    rewrite Hpk in Hpk'. injection Hpk' as <-.
    destruct Hs6 as [->|(toRemove & [|] & fs6 & _ & -> & Hspawn & Hno)].
    - split; [done|]. exists []. by rewrite app_nil_r.
    - destruct (Hkeep _ _ _ Hspawn) as (Hl & _ & _). cbn [fs trace]. eauto.
    - rewrite Hno by done. cbn [fs trace]. eauto. }
  destruct H6 as (Hleg6 & u & Ht6).
  pose proof Hrm as Hrm'.
  apply files_step_spec in Hrm' as (_ & removed & Hs' & _ & _).
  destruct (files_step_done _ _ _ _ Hc Hrm) as (Hgone & _ & _).
  exists (evs2 ++ [EExec (install_command pm) true; EWrite "biome.json";
                   EWrite "package.json"] ++ u ++ map EUnlink removed).
  split.
  { rewrite Hs'. cbn [trace]. rewrite Ht6, Hs5. cbn [trace]. rewrite Ht2.
    rewrite <- !app_assoc. by cbn [app]. }
  intros f Hf Hthere.
  assert (Hp : present (root (fs s)) f = true) by (by apply bool_decide_eq_true).
  destruct (known_file_detected _ _ _ Hc Hf Hp) as [Hent Hst].
  destruct (managed_files_not_legacy f Hf) as [Hnb Hnp].
  assert (Hany : any_config c = true).
  { apply any_config_entries. intros Hnil. rewrite Hnil in Hent. by apply elem_of_nil in Hent. }
  split.
  - destruct (Hcopies Hany eq_refl) as (rec & Hrec & _).
    apply backupConfigs_spec in Hrec as [(_ & _ & _ & ?)|(copied & _ & -> & _ & _ & ->)];
      [done|].
    cbn [trace] in Ht2. apply app_inv_head in Ht2 as <-.
    rewrite !elem_of_app. left. right. apply list_elem_of_fmap. exists f. split; [done|].
    by apply elem_of_copyable.
  - rewrite !elem_of_app. do 3 right. apply list_elem_of_fmap. exists f. split; [done|].
    specialize (Hgone f Hent Hst). rewrite Hs' in Hgone. cbn [fs root] in Hgone.
    rewrite foldl_delete_lookup in Hgone.
    destruct (decide (f ∈ removed)) as [|Hnin]; [done|].
    rewrite bool_decide_eq_false_2 in Hgone by done.
    rewrite Hleg6, Hfr5 in Hgone by done. rewrite lookup_insert_ne in Hgone by done.
    rewrite Hleg3, Hroot2 in Hgone by done. rewrite Hgone in Hthere. by destruct Hthere.
Qed.


(** X18.  The removal of the old packages is the one step whose failure
    [main] catches: after an uninstall command that failed, the run still
    ends with status 0 unless the removal of a file fails. *)
Theorem failed_uninstall_is_tolerated s pm toRemove evs :
  trace (run s).2 = trace s ++ evs ->
  EExec (uninstall_command pm toRemove) false ∈ evs ->
  (forall file, fault OpUnlink file = false) ->
  (run s).1 = 0.
Proof.
  destruct (main s) as [r s'] eqn:Hmain.
  rewrite (run_of_main _ _ _ Hmain). cbn [fst snd]. intros Htr Hin Hunlink.
  apply main_events in Hmain as (pm0 & mk & copied & rest & _ & Htr' & Hmk & Hrun).
  rewrite Htr in Htr'. apply app_inv_head in Htr' as ->.
  assert (Hno : forall ok, EExec (uninstall_command pm toRemove) false <>
                           EExec (install_command pm0) ok).
  { intros ok [= H _]. symmetry in H. by apply install_not_uninstall in H. }
  assert (Hrest : EExec (uninstall_command pm toRemove) false ∈ rest).
  { destruct Hmk as [->| ->]; event_cases; done. }
  destruct Hrun as [(e & _ & _ & _ & _ & ->)|(c & _ & _ & _ & Hcases)];
    [by apply elem_of_nil in Hrest|].
  destruct Hcases as [[-> _]|[[-> _]|[[-> _]|[[-> _]|
                      (u & removed & -> & _ & _ & _ & _ & [->|(e & file & _ & Hf)])]]]].
  - by apply elem_of_nil in Hrest.
  - apply list_elem_of_singleton in Hrest. by apply Hno in Hrest.
  - apply list_elem_of_singleton in Hrest. by apply Hno in Hrest.
  - apply elem_of_cons in Hrest as [Hrest|Hrest]; [by apply Hno in Hrest|].
    by apply list_elem_of_singleton in Hrest.
  - done.
  - by rewrite Hunlink in Hf.
Qed.


(** X19.  The write of [biome.json] is outside any [try]: on a platform
    where it fails, every run ends with status 1, and ends before
    [package.json] is rewritten or any file removed, though the install may
    have been done. *)
Theorem unwritable_biome_json_fails_the_run s :
  fault OpWrite "biome.json" = true ->
  (run s).1 = 1 /\
  exists evs,
    trace (run s).2 = trace s ++ evs /\
    forall f, (EWrite f ∉ evs) /\ (EUnlink f ∉ evs).
Proof.
  intros Hfault. destruct (main s) as [r s'] eqn:Hmain.
  rewrite (run_of_main _ _ _ Hmain). cbn [fst snd].
  apply main_events in Hmain as (pm & mk & copied & rest & _ & Htr & Hmk & Hrun).
  destruct Hrun as [(e & _ & -> & _ & _ & ->)|(c & _ & _ & _ & Hcases)];
    [|destruct Hcases as [(-> & _ & e & ->)|[[-> ->]|[(-> & _ & e & ->)|[(_ & Hno & _)|
                          (u & removed & _ & Hno & _)]]]]; try congruence];
    (split; [done|]); (eexists; split; [exact Htr|]);
    intros f; split; intros Hin; destruct Hmk as [->| ->]; event_cases.
Qed.

End Script.

(** ** The claims on the sample projects *)

(** C2 on a project with two legacy files, the package manager failing. *)
Lemma failed_install_aborts_witness :
  (run failing_manager no_fault two_files_project).1 = 1 /\
  root (fs (run failing_manager no_fault two_files_project).2) =
    root (fs two_files_project) /\
  exists bk,
    [EMkdir; ECopy ".eslintrc.json"; ECopy "prettier.config.js";
     EExec (install_command yarn) false] =
      bk ++ [EExec (install_command yarn) false] /\
    Forall backup_event bk.
Proof.
  apply (failed_install_aborts failing_manager no_fault two_files_project yarn).
  - vm_compute. reflexivity.
  - repeat constructor.
Defined.

(** C3 as the claim has it: with two files detected and the copy of the
    first failing, the second is never copied, though nothing stands in the
    way of copying it, and the run is over. *)
Lemma copy_failure_stops_backup :
  findExistingConfigs (fault_on OpCopy ".eslintrc") bare_project =
    (Ok (Configs [".eslintrc"] [".prettierrc"]), bare_project) /\
  fault_on OpCopy ".eslintrc" OpCopy ".prettierrc" = false /\
  (backupConfigs (fault_on OpCopy ".eslintrc")
     (Configs [".eslintrc"] [".prettierrc"]) bare_project).1 =
    Throw (EIO OpCopy ".eslintrc") /\
  backup (fs (run idle_manager (fault_on OpCopy ".eslintrc") bare_project).2) = Some ∅ /\
  trace (run idle_manager (fault_on OpCopy ".eslintrc") bare_project).2 = [EMkdir] /\
  (run idle_manager (fault_on OpCopy ".eslintrc") bare_project).1 = 1.
Proof. vm_compute. repeat split; reflexivity. Qed.

(** C3, amended, on the same project. *)
Lemma copy_failure_aborts_witness :
  (run idle_manager (fault_on OpCopy ".eslintrc") bare_project).1 = 1 /\
  root (fs (run idle_manager (fault_on OpCopy ".eslintrc") bare_project).2) =
    root (fs bare_project) /\
  exists l1 g l2,
    entries (Configs [".eslintrc"] [".prettierrc"]) = l1 ++ g :: l2 /\
    fault_on OpCopy ".eslintrc" OpCopy g = true /\
    Forall (fun h => fault_on OpCopy ".eslintrc" OpCopy h = false)
           (copyable (root (fs bare_project)) l1) /\
    trace (run idle_manager (fault_on OpCopy ".eslintrc") bare_project).2 =
      trace bare_project ++
      match backup (fs bare_project) with Some _ => [] | None => [EMkdir] end ++
      map ECopy (copyable (root (fs bare_project)) l1).
Proof.
  apply (copy_failure_aborts idle_manager (fault_on OpCopy ".eslintrc") bare_project
           (Configs [".eslintrc"] [".prettierrc"]) ".eslintrc").
  - vm_compute. reflexivity.
  - repeat constructor.
  - reflexivity.
  - reflexivity.
  - reflexivity.
Defined.

(** C4 as the claim has it: on a manifest that is not JSON, detection
    throws and the run ends with status 1. *)
Lemma detection_throws_on_malformed_manifest :
  findExistingConfigs no_fault broken_manifest_project =
    (Throw SyntaxError, broken_manifest_project) /\
  run idle_manager no_fault broken_manifest_project = (1, broken_manifest_project).
Proof. vm_compute. split; reflexivity. Qed.

(** C5 as the claim has it: when [package.json] cannot be written, the run
    ends with status 1 right after [biome.json] has been written; no
    uninstall is run and the legacy files, backed up, stay where they
    were. *)
Lemma manifest_failure_stops_run :
  main idle_manager (fault_on OpWrite "package.json") two_files_project =
    (Throw (EIO OpWrite "package.json"), before_update) /\
  run idle_manager (fault_on OpWrite "package.json") two_files_project =
    (1, before_update) /\
  root (fs before_update) !! ".eslintrc.json" = Some (Raw "{ }") /\
  root (fs before_update) !! "prettier.config.js" = Some (Raw "module.exports = {};").
Proof. vm_compute. repeat split; reflexivity. Qed.

(** C5, amended, on the same run. *)
Lemma manifest_failure_is_fatal_witness :
  before_update = before_update /\
  main idle_manager (fault_on OpWrite "package.json") two_files_project =
    (Throw (EIO OpWrite "package.json"), before_update) /\
  run idle_manager (fault_on OpWrite "package.json") two_files_project =
    (1, before_update).
Proof.
  apply (manifest_failure_is_fatal idle_manager (fault_on OpWrite "package.json")
           two_files_project (Configs [".eslintrc.json"] ["prettier.config.js"])
           (State (FileSys (root (fs two_files_project))
                     (Some (list_to_map [ (".eslintrc.json", Raw "{ }");
                                          ("prettier.config.js", Raw "module.exports = {};") ])))
                  [EMkdir; ECopy ".eslintrc.json"; ECopy "prettier.config.js"])
           yarn
           (FileSys (root (fs two_files_project))
                     (Some (list_to_map [ (".eslintrc.json", Raw "{ }");
                                          ("prettier.config.js", Raw "module.exports = {};") ])))
           before_update (EIO OpWrite "package.json") before_update);
    vm_compute; reflexivity.
Defined.

(** C6 as the claim has it: [eslint] is declared, with the empty version,
    and the step neither lists it nor runs any command. *)
Lemma empty_version_not_removed :
  declared (JSON_parse empty_version_manifest) "eslint" = true /\
  removeOldPackages idle_manager no_fault npm empty_version_project =
    (Ok [], empty_version_project).
Proof. vm_compute. split; reflexivity. Qed.

(** C6, amended, on the two-file project: two of the six names are kept. *)
Lemma removeOldPackages_filters_witness :
  List.filter (is_wanted (JSON_parse plain_manifest)) PACKAGES_TO_REMOVE =
    ["eslint"; "prettier"] /\
  removeOldPackages idle_manager no_fault yarn two_files_project =
    (Ok ["eslint"; "prettier"],
     State (fs two_files_project) [EExec "yarn remove eslint prettier" true]).
Proof.
  destruct (removeOldPackages_filters idle_manager no_fault yarn two_files_project
              plain_manifest) as (_ & _ & Hrun).
  - vm_compute. reflexivity.
  - reflexivity.
  - discriminate.
  - split; [vm_compute; reflexivity|]. rewrite Hrun. vm_compute. reflexivity.
Defined.

Lemma idle_manager_keeps_project : keeps_project idle_manager.
Proof.
  intros command w w' [= <-]. split_and!; [done..|].
  unfold manifest_kept.
  destruct (root w !! "package.json") as [[[ | | | | |members]|]|]; eauto.
Qed.

(** What parsing and writing make of numbers beyond the reach of a double
    and of keys that are array indices. *)
Lemma reread_samples :
  reread (JNum 9007199254740993) = JNum 9007199254740992 /\
  reread (JNum 123456789012345678901234567890) = JNum 123456789012345680000000000000 /\
  reread (JNum (10 ^ 400)) = JNull /\
  reread (JObj [ ("name", JStr "app"); ("2", JStr "two"); ("1", JStr "one") ]) =
    JObj [ ("1", JStr "one"); ("2", JStr "two"); ("name", JStr "app") ] /\
  round_trips plain_manifest.
Proof. vm_compute. repeat split; reflexivity. Qed.

(** C7 as the claim has it: on a manifest whose [scripts] member is
    [1e400], which is read as [Infinity], with a package manager that
    changes nothing, both runs end with status 0; the first leaves
    [scripts] as [null], with none of the five entries, and the second
    puts the five entries there. *)
Lemma overflowing_scripts_differ :
  keeps_project idle_manager /\
  (run idle_manager no_fault overflowing_scripts_project).1 = 0 /\
  (run idle_manager no_fault
     (run idle_manager no_fault overflowing_scripts_project).2).1 = 0 /\
  root (fs (run idle_manager no_fault overflowing_scripts_project).2) !! "package.json" =
    Some (Json (JObj [ ("name", JStr "app"); ("scripts", JNull) ])) /\
  script_entry
    (root (fs (run idle_manager no_fault overflowing_scripts_project).2) !! "package.json")
    "lint" = None /\
  script_entry
    (root (fs (run idle_manager no_fault
                 (run idle_manager no_fault overflowing_scripts_project).2).2)
       !! "package.json")
    "lint" = Some (JStr "biome lint .").
Proof.
  split; [apply idle_manager_keeps_project|].
  vm_compute. repeat split; reflexivity.
Qed.

(** C7, amended, on the two-file project. *)
Lemma second_run_changes_nothing_witness :
  exists s2,
    run idle_manager no_fault (run idle_manager no_fault two_files_project).2 = (0, s2) /\
    root (fs (run idle_manager no_fault two_files_project).2) !! "biome.json" =
      Some (Json (JSON_stringify generateBiomeConfig)) /\
    root (fs s2) !! "biome.json" = Some (Json (JSON_stringify generateBiomeConfig)) /\
    forall key, key ∈ map fst scriptUpdates ->
      script_entry (root (fs s2) !! "package.json") key =
      script_entry
        (root (fs (run idle_manager no_fault two_files_project).2) !! "package.json") key.
Proof.
  apply (second_run_changes_nothing idle_manager no_fault two_files_project).
  - apply idle_manager_keeps_project.
  - exact I.
  - vm_compute. reflexivity.
  - intros pm _. unfold idle_manager. eauto.
Defined.

(** C8 on a project whose only configuration is a field of the manifest. *)
Lemma backup_with_only_fields_witness :
  findExistingConfigs no_fault embedded_project =
    (Ok (Configs [eslintConfig_field] []), embedded_project) /\
  backupConfigs no_fault (Configs [eslintConfig_field] []) embedded_project =
    (Ok (BackupRecord ".biome-migration-backup" []),
     State (FileSys (root (fs embedded_project)) (Some ∅)) [EMkdir]) /\
  backup_step no_fault (Configs [eslintConfig_field] []) embedded_project =
    (Ok tt, State (FileSys (root (fs embedded_project)) (Some ∅)) [EMkdir]).
Proof.
  split; [vm_compute; reflexivity|].
  destruct (backup_with_only_fields no_fault (Configs [eslintConfig_field] [])
              embedded_project) as (Hb & Hs & _).
  - reflexivity.
  - repeat constructor.
  - reflexivity.
  - split; [exact Hb|exact Hs].
Defined.

(** C9 as the claim has it: the update of a manifest whose [scripts] is a
    string succeeds and leaves the string where it was, with none of the
    five entries. *)
Lemma string_scripts_kept :
  (updatePackageJson no_fault string_scripts_project).1 = Ok [] /\
  root (fs (updatePackageJson no_fault string_scripts_project).2) !! "package.json" =
    Some (Json (JObj [ ("name", JStr "app"); ("scripts", JStr "x") ])).
Proof. vm_compute. split; reflexivity. Qed.

(** C9, amended, on a manifest with no [scripts] member. *)
Lemma updatePackageJson_sets_scripts_witness :
  exists members' scripts',
    root (fs (updatePackageJson no_fault no_scripts_project).2) !! "package.json" =
      Some (Json (JObj members')) /\
    prop_lookup "scripts" members' = Some (JObj scripts') /\
    (forall key cmd, (key, VStr cmd) ∈ scriptUpdates ->
       prop_lookup key scripts' = Some (JStr cmd)) /\
    (forall k, k <> "scripts" -> k <> "eslintConfig" -> k <> "prettier" ->
       prop_lookup k members' = reread <$> prop_lookup k [ ("name", JStr "app") ]) /\
    (forall k v, k <> "scripts" -> k <> "eslintConfig" -> k <> "prettier" ->
       prop_lookup k [ ("name", JStr "app") ] = Some v -> round_trips v ->
       prop_lookup k members' = Some v).
Proof.
  apply (updatePackageJson_sets_scripts no_fault no_scripts_project []
           (updatePackageJson no_fault no_scripts_project).2).
  - vm_compute. reflexivity.
  - vm_compute. reflexivity.
  - exact I.
Defined.

(** C10 on a project from which a detected file has gone. *)
Lemma missing_file_is_skipped_witness :
  root (fs one_file_project) !! ".eslintrc" = None /\
  backupConfigs no_fault stale_configs one_file_project =
    backupConfigs no_fault (without ".eslintrc" stale_configs) one_file_project /\
  removeConfigFiles no_fault stale_configs one_file_project =
    removeConfigFiles no_fault (without ".eslintrc" stale_configs) one_file_project /\
  (forall rec s', backupConfigs no_fault stale_configs one_file_project = (Ok rec, s') ->
     ".eslintrc" ∉ backedUp rec) /\
  (forall removed s', removeConfigFiles no_fault stale_configs one_file_project =
     (Ok removed, s') -> ".eslintrc" ∉ removed).
Proof.
  split; [reflexivity|].
  apply (missing_file_is_skipped no_fault stale_configs one_file_project ".eslintrc").
  reflexivity.
Defined.

(** ** The further properties on the sample projects *)

(** X4 on a project with two legacy files and a field of the manifest. *)
Lemma detection_lists_what_is_there_witness :
  eslint mixed_configs =
    List.filter (present (root (fs mixed_project))) CONFIG_FILES_eslint ++
    (if embedded (root (fs mixed_project) !! "package.json") "eslintConfig"
     then [eslintConfig_field] else []) /\
  prettier mixed_configs =
    List.filter (present (root (fs mixed_project))) CONFIG_FILES_prettier ++
    (if embedded (root (fs mixed_project) !! "package.json") "prettier"
     then [prettier_field] else []) /\
  NoDup (entries mixed_configs).
Proof.
  apply (detection_lists_what_is_there no_fault mixed_project mixed_configs).
  vm_compute. reflexivity.
Defined.

(** X5 on the same project: the update removes [eslintConfig], the one
    field detection had reported. *)
Lemma update_clears_detected_fields_witness :
  (eslintConfig_field ∈ eslint mixed_configs <-> "eslintConfig" ∈ ["eslintConfig"]) /\
  (prettier_field ∈ prettier mixed_configs <-> "prettier" ∈ ["eslintConfig"]) /\
  findExistingConfigs no_fault (updatePackageJson no_fault mixed_project).2 =
    (Ok (Configs (List.filter standalone (eslint mixed_configs))
                 (List.filter standalone (prettier mixed_configs))),
     (updatePackageJson no_fault mixed_project).2).
Proof.
  apply (update_clears_detected_fields no_fault mixed_project mixed_configs
           ["eslintConfig"] (updatePackageJson no_fault mixed_project).2).
  - vm_compute. reflexivity.
  - vm_compute. reflexivity.
Defined.

(** X6 on a manifest with keys that are array indices: [1] and [2] are
    written first. *)
Lemma update_keeps_member_order_witness :
  ((forall field, field ∈ ["eslintConfig"] <->
      (field = "eslintConfig" \/ field = "prettier") /\
      embedded (Some (Json (JObj indexed_members))) field = true) /\
   exists members',
     root (fs (updatePackageJson no_fault indexed_project).2) !! "package.json" =
       Some (Json (JObj members')) /\
     map fst members' =
       List.filter (fun k => bool_decide (k ∉ ["eslintConfig"]))
                   (map fst (enumeration_order indexed_members)) ++
       (if bool_decide ("scripts" ∈ map fst indexed_members) then [] else ["scripts"]) /\
     (enumerated indexed_members ->
      map fst members' =
        List.filter (fun k => bool_decide (k ∉ ["eslintConfig"]))
                    (map fst indexed_members) ++
        (if bool_decide ("scripts" ∈ map fst indexed_members) then [] else ["scripts"]))) /\
  List.filter (fun k => bool_decide (k ∉ ["eslintConfig"]))
              (map fst (enumeration_order indexed_members)) =
    ["1"; "2"; "name"; "build"; "scripts"].
Proof.
  split; [|vm_compute; reflexivity].
  apply (update_keeps_member_order no_fault indexed_project ["eslintConfig"]
           (updatePackageJson no_fault indexed_project).2 indexed_members).
  - vm_compute. reflexivity.
  - vm_compute. reflexivity.
Defined.

(** X7 on the same manifest, whose scripts are [test], [10] and [lint]:
    [10] is written first. *)
Lemma update_keeps_other_scripts_witness :
  (exists members' scripts',
     root (fs (updatePackageJson no_fault indexed_project).2) !! "package.json" =
       Some (Json (JObj members')) /\
     prop_lookup "scripts" members' = Some (JObj scripts') /\
     (forall key, key ∉ map fst scriptUpdates ->
        prop_lookup key scripts' = reread <$> prop_lookup key indexed_scripts) /\
     (forall key v, key ∉ map fst scriptUpdates ->
        prop_lookup key indexed_scripts = Some v -> round_trips v ->
        prop_lookup key scripts' = Some v) /\
     map fst scripts' =
       map fst (enumeration_order indexed_scripts) ++
       List.filter (fun key => bool_decide (key ∉ map fst indexed_scripts))
                   (map fst scriptUpdates) /\
     (enumerated indexed_scripts ->
      map fst scripts' =
        map fst indexed_scripts ++
        List.filter (fun key => bool_decide (key ∉ map fst indexed_scripts))
                    (map fst scriptUpdates))) /\
  map fst (enumeration_order indexed_scripts) ++
  List.filter (fun key => bool_decide (key ∉ map fst indexed_scripts))
              (map fst scriptUpdates) =
    ["10"; "test"; "lint"; "format"; "format:check"; "check"; "check:fix"].
Proof.
  split; [|vm_compute; reflexivity].
  apply (update_keeps_other_scripts no_fault indexed_project ["eslintConfig"]
           (updatePackageJson no_fault indexed_project).2 indexed_members indexed_scripts).
  - vm_compute. reflexivity.
  - vm_compute. reflexivity.
  - reflexivity.
Defined.

(** X8 on the project with two legacy files and a field of the
    manifest. *)
Lemma update_twice_is_update_once_witness :
  exists s2,
    updatePackageJson no_fault (updatePackageJson no_fault mixed_project).2 = (Ok [], s2) /\
    fs s2 = fs (updatePackageJson no_fault mixed_project).2.
Proof.
  apply (update_twice_is_update_once no_fault mixed_project ["eslintConfig"]
           (updatePackageJson no_fault mixed_project).2 mixed_manifest).
  - reflexivity.
  - vm_compute. reflexivity.
  - vm_compute. reflexivity.
Defined.

(** X9 on a project whose backup directory holds an older copy of
    [.eslintrc.json] and a file of the user. *)
Lemma backup_overwrites_and_keeps_witness :
  root (fs (backupConfigs no_fault mixed_configs rerun_project).2) =
    root (fs rerun_project) /\
  (forall f, f ∈ [".eslintrc.json"; ".prettierrc"] <->
     f ∈ entries mixed_configs /\ standalone f = true /\
     is_Some (root (fs rerun_project) !! f)) /\
  exists dir',
    backup (fs (backupConfigs no_fault mixed_configs rerun_project).2) = Some dir' /\
    (forall f, f ∈ [".eslintrc.json"; ".prettierrc"] ->
       dir' !! f = root (fs rerun_project) !! f) /\
    (forall f, f ∉ [".eslintrc.json"; ".prettierrc"] ->
       dir' !! f = default ∅ (backup (fs rerun_project)) !! f).
Proof.
  apply (backup_overwrites_and_keeps no_fault mixed_configs rerun_project
           (BackupRecord ".biome-migration-backup" [".eslintrc.json"; ".prettierrc"])).
  vm_compute. reflexivity.
Defined.

(** X10 on the project with two legacy files. *)
Lemma removal_deletes_what_exists_witness :
  NoDup [".eslintrc.json"; ".prettierrc"] /\
  (forall f, f ∈ [".eslintrc.json"; ".prettierrc"] <->
     f ∈ entries mixed_configs /\ standalone f = true /\
     is_Some (root (fs mixed_project) !! f)) /\
  (forall f, root (fs (removeConfigFiles no_fault mixed_configs mixed_project).2) !! f =
     if bool_decide (f ∈ [".eslintrc.json"; ".prettierrc"]) then None
     else root (fs mixed_project) !! f) /\
  backup (fs (removeConfigFiles no_fault mixed_configs mixed_project).2) =
    backup (fs mixed_project).
Proof.
  apply (removal_deletes_what_exists no_fault mixed_configs mixed_project
           [".eslintrc.json"; ".prettierrc"]).
  vm_compute. reflexivity.
Defined.

(** X14 on a project with two legacy files, where the directory cannot be
    made. *)
Lemma mkdir_failure_changes_nothing_witness :
  run idle_manager (fault_on OpMkdir ".biome-migration-backup") bare_project =
    (1, bare_project).
Proof.
  apply (mkdir_failure_changes_nothing idle_manager
           (fault_on OpMkdir ".biome-migration-backup") bare_project
           (Configs [".eslintrc"] [".prettierrc"])).
  - vm_compute. reflexivity.
  - reflexivity.
  - reflexivity.
  - reflexivity.
Defined.

(** X15 on a project with nothing to migrate but a manifest. *)
Lemma nothing_to_migrate_witness :
  exists pm ok rest,
    detectPackageManager no_scripts_project = (Ok pm, no_scripts_project) /\
    trace (run idle_manager no_fault no_scripts_project).2 =
      trace no_scripts_project ++ EExec (install_command pm) ok :: rest /\
    Forall (fun e => match e with EExec _ _ | EWrite _ => True | _ => False end) rest.
Proof.
  apply (nothing_to_migrate idle_manager no_fault no_scripts_project (Configs [] [])).
  - vm_compute. reflexivity.
  - reflexivity.
Defined.

(** X16 on the project with two legacy files and a field of the
    manifest. *)
Lemma healthy_run_succeeds_witness :
  exists s', run idle_manager no_fault mixed_project = (0, s') /\ migrated (fs s').
Proof.
  apply (healthy_run_succeeds idle_manager no_fault mixed_project npm mixed_members).
  - intros op file. reflexivity.
  - apply idle_manager_keeps_project.
  - vm_compute. reflexivity.
  - exact I.
  - vm_compute. reflexivity.
  - intros w. unfold idle_manager. eauto.
Defined.

(** X17 on the same project. *)
Lemma successful_run_migrates_witness :
  (forall f, f ∈ CONFIG_FILES_eslint ++ CONFIG_FILES_prettier ->
     root (fs (run idle_manager no_fault mixed_project).2) !! f = None) /\
  root (fs (run idle_manager no_fault mixed_project).2) !! "biome.json" =
    Some (Json (JSON_stringify generateBiomeConfig)) /\
  (takes_scripts (root (fs mixed_project) !! "package.json") ->
   migrated (fs (run idle_manager no_fault mixed_project).2)) /\
  exists evs,
    trace (run idle_manager no_fault mixed_project).2 = trace mixed_project ++ evs /\
    forall f, f ∈ CONFIG_FILES_eslint ++ CONFIG_FILES_prettier ->
      is_Some (root (fs mixed_project) !! f) -> ECopy f ∈ evs /\ EUnlink f ∈ evs.
Proof.
  apply (successful_run_migrates idle_manager no_fault mixed_project).
  - apply idle_manager_keeps_project.
  - vm_compute. reflexivity.
Defined.

(** X18 on the two-file project, with a package manager that cannot
    uninstall. *)
Lemma failed_uninstall_is_tolerated_witness :
  (run install_only_manager no_fault two_files_project).1 = 0.
Proof.
  apply (failed_uninstall_is_tolerated install_only_manager no_fault two_files_project
           yarn ["eslint"; "prettier"]
           [ EMkdir; ECopy ".eslintrc.json"; ECopy "prettier.config.js";
             EExec (install_command yarn) true; EWrite "biome.json";
             EWrite "package.json";
             EExec (uninstall_command yarn ["eslint"; "prettier"]) false;
             EUnlink ".eslintrc.json"; EUnlink "prettier.config.js" ]).
  - vm_compute. reflexivity.
  - do 6 apply list_elem_of_further. apply list_elem_of_here.
  - intros file. reflexivity.
Defined.

(** X19 on the two-file project, where [biome.json] cannot be written. *)
Lemma unwritable_biome_json_fails_the_run_witness :
  (run idle_manager (fault_on OpWrite "biome.json") two_files_project).1 = 1 /\
  exists evs,
    trace (run idle_manager (fault_on OpWrite "biome.json") two_files_project).2 =
      trace two_files_project ++ evs /\
    forall f, (EWrite f ∉ evs) /\ (EUnlink f ∉ evs).
Proof.
  apply (unwritable_biome_json_fails_the_run idle_manager
           (fault_on OpWrite "biome.json") two_files_project).
  reflexivity.
Defined.
